(** * Retirement-income engine: tax calculators, withdrawal strategy, projection

    A shallow embedding of the TypeScript engine
    (taxBrackets.ts, capitalGains.ts, socialSecurity.ts, rmd.ts,
    deductions.ts, calculateTax.ts, strategyGenerator.ts,
    projectionEngine.ts and the constant tables tax2026.ts / rmdTables.ts)
    together with the properties stated about it.

    Numbers.  A JavaScript [number] that holds a dollar amount, a rate or a
    ratio is modelled as an exact rational ([Q], compared with [==]); the one
    non-finite value the code itself writes, [Infinity] as the upper bound of
    the top bracket, is kept explicitly in the type [num].  Ages are integers
    ([Z]).  Optional fields ([x?: number], [T | null]) are [option]s.
    Display strings (explanations, descriptions) carry no number that is read
    back and are left out of the records.

    Division.  [Q]'s division is total; every division of the modelled code
    runs under a guard that makes its divisor positive (or divides by a
    non-zero constant or table entry), so no result below depends on the
    value [Q] gives to a division by zero. *)

From Stdlib Require Import QArith Qminmax Qround Qabs Qpower ZArith List Lia Lqa Bool.
Import ListNotations.
Local Open Scope Q_scope.

(** ** JavaScript arithmetic helpers *)

Module Math.
(** [Math.round]: nearest integer, halves towards +infinity. *)
Definition round (x : Q) : Q := inject_Z (Qfloor (x + 0.5)).
Definition abs (x : Q) : Q := Qabs x.
Definition max (x y : Q) : Q := Qmax x y.
Definition min (x y : Q) : Q := Qmin x y.
End Math.

(** The comparisons of the source as booleans. *)
Definition Qltb (x y : Q) : bool := if Qlt_le_dec x y then true else false.
Definition Qleb (x y : Q) : bool := if Qlt_le_dec y x then false else true.
Definition Qeqb (x y : Q) : bool := if Qeq_dec x y then true else false.
Infix "<?" := Qltb (at level 70, no associativity) : Q_scope.
Infix "<=?" := Qleb (at level 70, no associativity) : Q_scope.
Notation "x >? y" := (Qltb y x) (at level 70, no associativity, only parsing) : Q_scope.
Notation "x >=? y" := (Qleb y x) (at level 70, no associativity, only parsing) : Q_scope.
Infix "=?" := Qeqb (at level 70, no associativity) : Q_scope.

(** [x ?? d] on an optional number. *)
Definition nullish (x : option Q) (d : Q) : Q :=
  match x with Some v => v | None => d end.

(** Truthiness of an optional number: [undefined] and [0] are falsy. *)
Definition truthy (x : option Q) : bool :=
  match x with
  | Some v => negb (v =? 0)
  | None => false
  end.

(** A bracket bound: a finite amount or [Infinity]. *)
Inductive num : Type :=
| Fin (q : Q)
| Infinity.

(** [hi - lo] for a bound [hi] and a finite [lo]. *)
Definition num_sub (hi : num) (lo : Q) : num :=
  match hi with
  | Fin h => Fin (h - lo)
  | Infinity => Infinity
  end.

(** [Math.min(x, b)] for a finite [x] and a bound [b]: always finite. *)
Definition num_min (x : Q) (b : num) : Q :=
  match b with
  | Fin q => Qmin x q
  | Infinity => x
  end.

(** [x >= b] for a finite [x] and a bound [b]. *)
Definition num_ge (x : Q) (b : num) : bool :=
  match b with
  | Fin q => x >=? q
  | Infinity => false
  end.

(** [x <= b] for a finite [x] and a bound [b]. *)
Definition num_le (x : Q) (b : num) : bool :=
  match b with
  | Fin q => x <=? q
  | Infinity => true
  end.

(** [x < b] for a finite [x] and a bound [b]. *)
Definition num_lt (x : Q) (b : num) : bool :=
  match b with
  | Fin q => x <? q
  | Infinity => true
  end.

(** [Math.max(x, b)] for a finite [x] and a bound [b]. *)
Definition num_max (x : Q) (b : num) : num :=
  match b with
  | Fin q => Fin (Qmax x q)
  | Infinity => Infinity
  end.

(** [b > 0] for a bound [b]. *)
Definition num_pos (b : num) : bool :=
  match b with
  | Fin q => q >? 0
  | Infinity => true
  end.

(** [b / d] for a bound [b] and a positive finite divisor [d] (the only
    divisors the code uses on a bound). *)
Definition num_div (b : num) (d : Q) : num :=
  match b with
  | Fin q => Fin (q / d)
  | Infinity => Infinity
  end.

(** [Math.min(b, y, z)] with one bound among the arguments. *)
Definition num_min3 (b : num) (y z : Q) : Q :=
  match b with
  | Fin x => Qmin (Qmin x y) z
  | Infinity => Qmin y z
  end.

(** Sum of a list of amounts. *)
Definition Qsum (l : list Q) : Q := fold_right Qplus 0 l.

(** ** types/index.ts *)

Inductive FilingStatus : Type := single | mfj | mfs | hoh.

(** Records live in a module of their own name, so that fields keep the
    names they have in the source ([TaxBracket.min], [RMDInfo.amount], ...). *)
Module TaxBracket.
Record t : Type := mk { min : Q; max : num; rate : Q }.
End TaxBracket.

Inductive Account : Type :=
| acc_traditional | acc_taxable | acc_roth | acc_socialSecurity | acc_pension.

Inductive TaxCharacter : Type :=
| ordinary | capitalGains | taxFree | partiallyTaxable.

Module IncomeSource.
Record t : Type := mk {
  account : Account;
  amount : Q;
  taxCharacter : TaxCharacter
}.
End IncomeSource.

Module BracketFill.
Record t : Type := mk {
  rate : Q;
  bracketMin : Q;
  bracketMax : num;
  incomeInBracket : Q;
  taxFromBracket : Q;
  sources : list IncomeSource.t
}.
End BracketFill.

(** ** constants/tax2026.ts *)

Definition FEDERAL_BRACKETS (s : FilingStatus) : list TaxBracket.t :=
  match s with
  | single =>
      [ TaxBracket.mk 0 (Fin 12400) 0.10;
        TaxBracket.mk 12400 (Fin 50400) 0.12;
        TaxBracket.mk 50400 (Fin 105700) 0.22;
        TaxBracket.mk 105700 (Fin 201775) 0.24;
        TaxBracket.mk 201775 (Fin 256225) 0.32;
        TaxBracket.mk 256225 (Fin 640600) 0.35;
        TaxBracket.mk 640600 Infinity 0.37 ]
  | mfj =>
      [ TaxBracket.mk 0 (Fin 24800) 0.10;
        TaxBracket.mk 24800 (Fin 100800) 0.12;
        TaxBracket.mk 100800 (Fin 211400) 0.22;
        TaxBracket.mk 211400 (Fin 403550) 0.24;
        TaxBracket.mk 403550 (Fin 512450) 0.32;
        TaxBracket.mk 512450 (Fin 768700) 0.35;
        TaxBracket.mk 768700 Infinity 0.37 ]
  | mfs =>
      [ TaxBracket.mk 0 (Fin 12400) 0.10;
        TaxBracket.mk 12400 (Fin 50400) 0.12;
        TaxBracket.mk 50400 (Fin 105700) 0.22;
        TaxBracket.mk 105700 (Fin 201775) 0.24;
        TaxBracket.mk 201775 (Fin 256225) 0.32;
        TaxBracket.mk 256225 (Fin 384350) 0.35;
        TaxBracket.mk 384350 Infinity 0.37 ]
  | hoh =>
      [ TaxBracket.mk 0 (Fin 17700) 0.10;
        TaxBracket.mk 17700 (Fin 67450) 0.12;
        TaxBracket.mk 67450 (Fin 105700) 0.22;
        TaxBracket.mk 105700 (Fin 201775) 0.24;
        TaxBracket.mk 201775 (Fin 256200) 0.32;
        TaxBracket.mk 256200 (Fin 640600) 0.35;
        TaxBracket.mk 640600 Infinity 0.37 ]
  end.

Definition STANDARD_DEDUCTION (s : FilingStatus) : Q :=
  match s with
  | single => 16100
  | mfj => 32200
  | mfs => 16100
  | hoh => 24150
  end.

Definition CAPITAL_GAINS_BRACKETS (s : FilingStatus) : list TaxBracket.t :=
  match s with
  | single =>
      [ TaxBracket.mk 0 (Fin 49450) 0;
        TaxBracket.mk 49450 (Fin 545500) 0.15;
        TaxBracket.mk 545500 Infinity 0.20 ]
  | mfj =>
      [ TaxBracket.mk 0 (Fin 98900) 0;
        TaxBracket.mk 98900 (Fin 613700) 0.15;
        TaxBracket.mk 613700 Infinity 0.20 ]
  | mfs =>
      [ TaxBracket.mk 0 (Fin 49450) 0;
        TaxBracket.mk 49450 (Fin 306850) 0.15;
        TaxBracket.mk 306850 Infinity 0.20 ]
  | hoh =>
      [ TaxBracket.mk 0 (Fin 66200) 0;
        TaxBracket.mk 66200 (Fin 579600) 0.15;
        TaxBracket.mk 579600 Infinity 0.20 ]
  end.

Record SSThresholds : Type := mkThresholds {
  zeroThreshold : Q;
  fiftyThreshold : Q
}.

Module SS_TAXATION_THRESHOLDS.
Definition single : SSThresholds := mkThresholds 25000 34000.
Definition mfj : SSThresholds := mkThresholds 32000 44000.
End SS_TAXATION_THRESHOLDS.

(** ** engine/taxBrackets.ts *)

Module OrdinaryTaxResult.
Record t : Type := mk {
  tax : Q;
  bracketFill : list BracketFill.t;
  marginalRate : Q
}.
End OrdinaryTaxResult.

(** The inner loop over [incomeSources]: each source's proportional share of
    the bracket, kept when it is positive. *)
Fixpoint distributeSources (incomeSources : list IncomeSource.t)
    (totalSourceAmount incomeInBracket : Q) : list IncomeSource.t :=
  match incomeSources with
  | [] => []
  | source :: rest =>
      let proportion := IncomeSource.amount source / totalSourceAmount in
      let sourceAmountInBracket := incomeInBracket * proportion in
      let tail := distributeSources rest totalSourceAmount incomeInBracket in
      if sourceAmountInBracket >? 0
      then IncomeSource.mk (IncomeSource.account source) sourceAmountInBracket (IncomeSource.taxCharacter source) :: tail
      else tail
  end.

(** Loop state of [calculateOrdinaryIncomeTax]. *)
Module OrdState.
Record t : Type := mk {
  remainingIncome : Q;
  totalTax : Q;
  bracketFill : list BracketFill.t;
  marginalRate : Q
}.
End OrdState.

Fixpoint ordinaryLoop (brackets : list TaxBracket.t)
    (incomeSources : list IncomeSource.t) (totalSourceAmount : Q)
    (st : OrdState.t) : OrdState.t :=
  match brackets with
  | [] => st
  | bracket :: rest =>
      if OrdState.remainingIncome st <=? 0 then st (* break *)
      else
        let bracketSize := num_sub (TaxBracket.max bracket) (TaxBracket.min bracket) in
        let incomeInBracket := num_min (OrdState.remainingIncome st) bracketSize in
        let taxFromBracket := incomeInBracket * TaxBracket.rate bracket in
        let bracketSources :=
          match incomeSources with
          | [] => []
          | _ :: _ =>
              if totalSourceAmount >? 0
              then distributeSources incomeSources totalSourceAmount incomeInBracket
              else []
          end in
        let fill := BracketFill.mk (TaxBracket.rate bracket * 100) (TaxBracket.min bracket) (TaxBracket.max bracket)
                      incomeInBracket taxFromBracket bracketSources in
        ordinaryLoop rest incomeSources totalSourceAmount
          (OrdState.mk (OrdState.remainingIncome st - incomeInBracket)
                      (OrdState.totalTax st + taxFromBracket)
                      (OrdState.bracketFill st ++ [fill])
                      (if incomeInBracket >? 0 then TaxBracket.rate bracket
                       else OrdState.marginalRate st))
  end.

Definition calculateOrdinaryIncomeTax (taxableIncome : Q)
    (filingStatus : FilingStatus) (incomeSources : list IncomeSource.t)
    : OrdinaryTaxResult.t :=
  let brackets := FEDERAL_BRACKETS filingStatus in
  let totalSourceAmount :=
    fold_left (fun sum s => sum + IncomeSource.amount s) incomeSources 0 in
  let st := ordinaryLoop brackets incomeSources totalSourceAmount
              (OrdState.mk (Math.max 0 taxableIncome) 0 [] 0) in
  OrdinaryTaxResult.mk (OrdState.totalTax st) (OrdState.bracketFill st) (OrdState.marginalRate st).

(** [estimateOrdinaryTax] of strategyGenerator.ts: the same walk, tax only. *)
Fixpoint estimateOrdinaryTaxLoop (brackets : list TaxBracket.t)
    (tax remaining : Q) : Q :=
  match brackets with
  | [] => tax
  | bracket :: rest =>
      if remaining <=? 0 then tax (* break *)
      else
        let bracketSize := num_sub (TaxBracket.max bracket) (TaxBracket.min bracket) in
        let incomeInBracket := num_min remaining bracketSize in
        estimateOrdinaryTaxLoop rest
          (tax + incomeInBracket * TaxBracket.rate bracket)
          (remaining - incomeInBracket)
  end.

Definition estimateOrdinaryTax (taxableIncome : Q) (filingStatus : FilingStatus) : Q :=
  estimateOrdinaryTaxLoop (FEDERAL_BRACKETS filingStatus) 0 taxableIncome.

(** ** engine/capitalGains.ts *)

Module GainsEntry.
Record t : Type := mk { rate : Q; amount : Q; tax : Q }.
End GainsEntry.

Module CapitalGainsResult.
Record t : Type := mk {
  tax : Q;
  effectiveRate : Q;
  bracketBreakdown : list GainsEntry.t
}.
End CapitalGainsResult.

Module GainsState.
Record t : Type := mk {
  totalTax : Q;
  remainingGains : Q;
  bracketBreakdown : list GainsEntry.t;
  incomeProcessed : num
}.
End GainsState.

Fixpoint capitalGainsLoop (brackets : list TaxBracket.t) (st : GainsState.t)
    : GainsState.t :=
  match brackets with
  | [] => st
  | bracket :: rest =>
      if GainsState.remainingGains st <=? 0 then st (* break *)
      else
        let bracketStart := TaxBracket.min bracket in
        let bracketEnd := TaxBracket.max bracket in
        match GainsState.incomeProcessed st with
        | Infinity =>
            (* Infinity >= bracketEnd holds for every bound: continue *)
            capitalGainsLoop rest st
        | Fin processed =>
            if num_ge processed bracketEnd then
              capitalGainsLoop rest st (* continue *)
            else
              let gainsStartInBracket := Math.max bracketStart processed in
              let roomInBracket := num_sub bracketEnd gainsStartInBracket in
              let gainsInBracket := num_min (GainsState.remainingGains st) roomInBracket in
              if gainsInBracket >? 0 then
                let taxInBracket := gainsInBracket * TaxBracket.rate bracket in
                capitalGainsLoop rest
                  (GainsState.mk
                     (GainsState.totalTax st + taxInBracket)
                     (GainsState.remainingGains st - gainsInBracket)
                     (GainsState.bracketBreakdown st ++
                        [GainsEntry.mk (TaxBracket.rate bracket * 100)
                           gainsInBracket taxInBracket])
                     bracketEnd)
              else
                capitalGainsLoop rest
                  (GainsState.mk (GainsState.totalTax st)
                     (GainsState.remainingGains st)
                     (GainsState.bracketBreakdown st) bracketEnd)
        end
  end.

Definition calculateCapitalGainsTax (longTermCapitalGains taxableOrdinaryIncome : Q)
    (filingStatus : FilingStatus) : CapitalGainsResult.t :=
  if longTermCapitalGains <=? 0 then CapitalGainsResult.mk 0 0 []
  else
    let brackets := CAPITAL_GAINS_BRACKETS filingStatus in
    let st := capitalGainsLoop brackets
                (GainsState.mk 0 longTermCapitalGains [] (Fin taxableOrdinaryIncome)) in
    let totalTax := GainsState.totalTax st in
    let effectiveRate :=
      if longTermCapitalGains >? 0
      then totalTax / longTermCapitalGains else 0 in
    CapitalGainsResult.mk totalTax effectiveRate (GainsState.bracketBreakdown st).

(** [getCapitalGainsRate]: the first bracket whose top is at or above the
    income; the last bracket's rate when none is. *)
Fixpoint getCapitalGainsRateFrom (brackets : list TaxBracket.t)
    (totalTaxableIncome : Q) (highest : Q) : Q :=
  match brackets with
  | [] => highest
  | bracket :: rest =>
      if num_le totalTaxableIncome (TaxBracket.max bracket)
      then TaxBracket.rate bracket * 100
      else getCapitalGainsRateFrom rest totalTaxableIncome highest
  end.

Definition getCapitalGainsRate (totalTaxableIncome : Q)
    (filingStatus : FilingStatus) : Q :=
  let brackets := CAPITAL_GAINS_BRACKETS filingStatus in
  getCapitalGainsRateFrom brackets totalTaxableIncome
    (TaxBracket.rate (last brackets (TaxBracket.mk 0 Infinity 0)) * 100).

(** ** engine/socialSecurity.ts *)

Module SSResult.
Record t : Type := mk {
  taxableAmount : Q;
  taxablePercent : Q;
  provisionalIncome : Q
}.
End SSResult.

Definition ssThresholds (filingStatus : FilingStatus) : SSThresholds :=
  match filingStatus with
  | mfj => SS_TAXATION_THRESHOLDS.mfj
  | _ => SS_TAXATION_THRESHOLDS.single
  end.

Definition calculateSocialSecurityTaxable (ssBenefits otherIncome taxExemptInterest : Q)
    (filingStatus : FilingStatus) : SSResult.t :=
  if ssBenefits <=? 0 then SSResult.mk 0 0 0
  else
    let thresholds := ssThresholds filingStatus in
    let provisionalIncome := otherIncome + taxExemptInterest + ssBenefits * 0.5 in
    if provisionalIncome <=? zeroThreshold thresholds then
      (* below the first threshold *)
      SSResult.mk (Math.round 0) 0 provisionalIncome
    else if provisionalIncome <=? fiftyThreshold thresholds then
      (* between the thresholds *)
      let excessOverFirst := provisionalIncome - zeroThreshold thresholds in
      let taxableAmount := Math.min (ssBenefits * 0.5) (excessOverFirst * 0.5) in
      let taxablePercent := (taxableAmount / ssBenefits) * 100 in
      SSResult.mk (Math.round taxableAmount) taxablePercent provisionalIncome
    else
      (* above the second threshold *)
      let baseAmount :=
        Math.min (ssBenefits * 0.5)
                 ((fiftyThreshold thresholds - zeroThreshold thresholds) * 0.5) in
      let excessOverSecond := provisionalIncome - fiftyThreshold thresholds in
      let additionalTaxable := excessOverSecond * 0.85 in
      let taxableAmount :=
        Math.min (ssBenefits * 0.85) (baseAmount + additionalTaxable) in
      let taxablePercent := (taxableAmount / ssBenefits) * 100 in
      SSResult.mk (Math.round taxableAmount) taxablePercent provisionalIncome.

(** ** constants/rmdTables.ts *)

Definition RMD_START_AGE : Z := 73.

Definition UNIFORM_LIFETIME_TABLE : list (Z * Q) :=
  [ (72%Z, 27.4); (73%Z, 26.5); (74%Z, 25.5); (75%Z, 24.6);
    (76%Z, 23.7); (77%Z, 22.9); (78%Z, 22.0); (79%Z, 21.1);
    (80%Z, 20.2); (81%Z, 19.4); (82%Z, 18.5); (83%Z, 17.7);
    (84%Z, 16.8); (85%Z, 16.0); (86%Z, 15.2); (87%Z, 14.4);
    (88%Z, 13.7); (89%Z, 12.9); (90%Z, 12.2); (91%Z, 11.5);
    (92%Z, 10.8); (93%Z, 10.1); (94%Z, 9.5); (95%Z, 8.9);
    (96%Z, 8.4); (97%Z, 7.8); (98%Z, 7.3); (99%Z, 6.8);
    (100%Z, 6.4); (101%Z, 6.0); (102%Z, 5.6); (103%Z, 5.2);
    (104%Z, 4.9); (105%Z, 4.6); (106%Z, 4.3); (107%Z, 4.1);
    (108%Z, 3.9); (109%Z, 3.7); (110%Z, 3.5); (111%Z, 3.4);
    (112%Z, 3.3); (113%Z, 3.1); (114%Z, 3.0); (115%Z, 2.9);
    (116%Z, 2.8); (117%Z, 2.7); (118%Z, 2.5); (119%Z, 2.3);
    (120%Z, 2.0) ].

(** [table[key]]: the entry, or [None] for [undefined]. *)
Fixpoint tableGet (table : list (Z * Q)) (key : Z) : option Q :=
  match table with
  | [] => None
  | (k, v) :: rest => if Z.eqb k key then Some v else tableGet rest key
  end.

Definition getDistributionPeriod (age : Z) : Q :=
  if (age <? RMD_START_AGE)%Z then 0
  else
    match tableGet UNIFORM_LIFETIME_TABLE age with
    | Some period => period
    | None => nullish (tableGet UNIFORM_LIFETIME_TABLE 120) 0
    end.

(** ** engine/rmd.ts *)

Module RMDInfo.
Record t : Type := mk {
  isRequired : bool;
  amount : Q;
  age : Z;
  priorYearBalance : Q;
  distributionPeriod : Q
}.
End RMDInfo.

Definition calculateRMD (age : Z) (priorYearEndBalance : Q) : RMDInfo.t :=
  if ((age <? RMD_START_AGE)%Z
      || (priorYearEndBalance <=? 0))%bool
  then RMDInfo.mk false 0 age priorYearEndBalance 0
  else
    let distributionPeriod := getDistributionPeriod age in
    let amount := Math.round (priorYearEndBalance / distributionPeriod) in
    RMDInfo.mk true amount age priorYearEndBalance distributionPeriod.

(** ** engine/deductions.ts *)

Inductive DeductionType : Type := standard | itemized.

Module Deduction.
Record t : Type := mk { amount : Q; type : DeductionType }.
End Deduction.

Definition calculateDeduction (filingStatus : FilingStatus) (useItemized : bool)
    (itemizedAmount : option Q) : Deduction.t :=
  let standardAmount := STANDARD_DEDUCTION filingStatus in
  if (negb useItemized || negb (truthy itemizedAmount))%bool then
    Deduction.mk standardAmount standard
  else
    let itemizedValue := nullish itemizedAmount 0 in
    if itemizedValue >? standardAmount
    then Deduction.mk itemizedValue itemized
    else Deduction.mk standardAmount standard.

(** ** types/index.ts: portfolio, goal, strategy, breakdown *)

Module TaxableAccount.
Record t : Type := mk { balance : Q; costBasis : Q; unrealizedGains : Q }.
End TaxableAccount.

Module TraditionalAccount.
Record t : Type := mk { balance : Q; priorYearEndBalance : option Q }.
End TraditionalAccount.

Module RothAccount.
Record t : Type := mk { balance : Q }.
End RothAccount.

Module SocialSecurityIncome.
Record t : Type := mk { annualBenefit : Q }.
End SocialSecurityIncome.

Module PensionIncome.
Record t : Type := mk { annualBenefit : Q; cola : Q }.
End PensionIncome.

Module Portfolio.
Record t : Type := mk {
  taxable : option TaxableAccount.t;
  traditional : option TraditionalAccount.t;
  roth : option RothAccount.t;
  socialSecurity : option SocialSecurityIncome.t;
  pension : option PensionIncome.t
}.
End Portfolio.

Inductive StateTaxMethod : Type := stm_none | stm_rate | stm_fixed.

Inductive TargetType : Type := afterTax | gross.

Module IncomeGoal.
Record t : Type := mk {
  targetType : TargetType;
  amount : Q;
  filingStatus : FilingStatus;
  primaryAge : Z;
  spouseAge : option Z;
  useItemizedDeductions : bool;
  itemizedAmount : option Q;
  stateTaxMethod : StateTaxMethod;
  stateTaxRate : option Q;
  stateTaxFixedAmount : option Q;
  planningHorizon : Z
}.
End IncomeGoal.

Module WithdrawalStrategy.
Record t : Type := mk {
  traditionalWithdrawal : Q;
  taxableWithdrawal : Q;
  rothWithdrawal : Q;
  socialSecurityIncome : Q;
  pensionIncome : Q;
  rmdAmount : Q;
  isSystemGenerated : bool
}.
(** Field assignments, [strategy.f = v]. *)
Definition set_traditionalWithdrawal (v : Q) (s : t) : t :=
  mk v (taxableWithdrawal s) (rothWithdrawal s) (socialSecurityIncome s)
     (pensionIncome s) (rmdAmount s) (isSystemGenerated s).
Definition set_taxableWithdrawal (v : Q) (s : t) : t :=
  mk (traditionalWithdrawal s) v (rothWithdrawal s) (socialSecurityIncome s)
     (pensionIncome s) (rmdAmount s) (isSystemGenerated s).
Definition set_rothWithdrawal (v : Q) (s : t) : t :=
  mk (traditionalWithdrawal s) (taxableWithdrawal s) v (socialSecurityIncome s)
     (pensionIncome s) (rmdAmount s) (isSystemGenerated s).
End WithdrawalStrategy.

Module GainsBracket.
Record t : Type := mk { rate : Q; threshold : Q }.
End GainsBracket.

Module TaxBreakdown.
Record t : Type := mk {
  ordinaryIncome : Q;
  qualifiedDividends : Q;
  longTermCapitalGains : Q;
  socialSecurityGross : Q;
  socialSecurityTaxable : Q;
  pensionGross : Q;
  pensionTaxable : Q;
  rothIncome : Q;
  grossIncome : Q;
  adjustedGrossIncome : Q;
  deductions : Q;
  deductionType : DeductionType;
  taxableIncome : Q;
  ordinaryIncomeTax : Q;
  capitalGainsTax : Q;
  stateTax : Q;
  bracketFill : list BracketFill.t;
  capitalGainsRate : Q;
  capitalGainsBracket : GainsBracket.t;
  totalTax : Q;
  afterTaxIncome : Q;
  effectiveRate : Q;
  effectiveRateOnAGI : Q;
  effectiveRateOnTaxable : Q;
  marginalOrdinaryRate : Q;
  marginalCapGainsRate : Q;
  rmdAmount : Q;
  rmdIsSatisfied : bool
}.
End TaxBreakdown.

(** ** engine/calculateTax.ts *)

(** The local [gainsRatio] of [calculateTaxBreakdown]: the account's gains
    over its balance, and 0 when the balance is not positive. *)
Definition gainsRatio (account : TaxableAccount.t) : Q :=
  let balance := TaxableAccount.balance account in
  let costBasis := TaxableAccount.costBasis account in
  if balance >? 0 then (balance - costBasis) / balance else 0.

(** Step 1 of [calculateTaxBreakdown]. *)
Definition longTermCapitalGainsOf (taxable : option TaxableAccount.t)
    (taxableWithdrawal : Q) : Q :=
  match taxable with
  | Some account =>
      if taxableWithdrawal >? 0 then taxableWithdrawal * gainsRatio account else 0
  | None => 0
  end.

(** Step 7: the attributed sources, in the order they are pushed. *)
Definition ordinarySourcesOf (traditionalWithdrawal pensionIncome ssTaxable : Q)
    : list IncomeSource.t :=
  (if traditionalWithdrawal >? 0
   then [IncomeSource.mk acc_traditional traditionalWithdrawal ordinary] else [])
  ++ (if pensionIncome >? 0
      then [IncomeSource.mk acc_pension pensionIncome ordinary] else [])
  ++ (if ssTaxable >? 0
      then [IncomeSource.mk acc_socialSecurity ssTaxable partiallyTaxable] else []).

Definition calculateTaxBreakdown (strategy : WithdrawalStrategy.t)
    (portfolio : Portfolio.t) (goal : IncomeGoal.t) : TaxBreakdown.t :=
  let filingStatus := IncomeGoal.filingStatus goal in
  let traditionalWithdrawal := WithdrawalStrategy.traditionalWithdrawal strategy in
  let taxableWithdrawal := WithdrawalStrategy.taxableWithdrawal strategy in
  let rothWithdrawal := WithdrawalStrategy.rothWithdrawal strategy in
  let socialSecurityIncome := WithdrawalStrategy.socialSecurityIncome strategy in
  let pensionIncome := WithdrawalStrategy.pensionIncome strategy in
  (* Step 1 *)
  let longTermCapitalGains :=
    longTermCapitalGainsOf (Portfolio.taxable portfolio) taxableWithdrawal in
  (* Step 2 *)
  let otherIncomeForSS := traditionalWithdrawal + pensionIncome + longTermCapitalGains in
  let ssResult :=
    calculateSocialSecurityTaxable socialSecurityIncome otherIncomeForSS 0 filingStatus in
  (* Step 3 *)
  let grossIncome :=
    traditionalWithdrawal + taxableWithdrawal + rothWithdrawal
    + socialSecurityIncome + pensionIncome in
  (* Step 4 *)
  let adjustedGrossIncome :=
    traditionalWithdrawal + pensionIncome + longTermCapitalGains
    + SSResult.taxableAmount ssResult in
  (* Step 5 *)
  let deductionResult :=
    calculateDeduction filingStatus (IncomeGoal.useItemizedDeductions goal)
      (IncomeGoal.itemizedAmount goal) in
  (* Step 6 *)
  let ordinaryIncome :=
    traditionalWithdrawal + pensionIncome + SSResult.taxableAmount ssResult in
  let taxableOrdinaryIncome :=
    Math.max 0 (ordinaryIncome - Deduction.amount deductionResult) in
  (* Step 7 *)
  let ordinarySources :=
    ordinarySourcesOf traditionalWithdrawal pensionIncome
      (SSResult.taxableAmount ssResult) in
  (* Step 8 *)
  let ordinaryTaxResult :=
    calculateOrdinaryIncomeTax taxableOrdinaryIncome filingStatus ordinarySources in
  (* Step 9 *)
  let capGainsResult :=
    calculateCapitalGainsTax longTermCapitalGains taxableOrdinaryIncome filingStatus in
  (* Step 10 *)
  let stateTax :=
    match IncomeGoal.stateTaxMethod goal with
    | stm_rate =>
        if truthy (IncomeGoal.stateTaxRate goal)
        then (taxableOrdinaryIncome + longTermCapitalGains)
             * nullish (IncomeGoal.stateTaxRate goal) 0
        else 0
    | stm_fixed =>
        if truthy (IncomeGoal.stateTaxFixedAmount goal)
        then nullish (IncomeGoal.stateTaxFixedAmount goal) 0
        else 0
    | stm_none => 0
    end in
  (* Step 11 *)
  let federalTax :=
    OrdinaryTaxResult.tax ordinaryTaxResult + CapitalGainsResult.tax capGainsResult in
  let totalTax := federalTax + stateTax in
  let afterTaxIncome := grossIncome - totalTax in
  let effectiveRate := if grossIncome >? 0 then totalTax / grossIncome else 0 in
  let effectiveRateOnAGI :=
    if adjustedGrossIncome >? 0 then totalTax / adjustedGrossIncome else 0 in
  let totalTaxableIncome := taxableOrdinaryIncome + longTermCapitalGains in
  let effectiveRateOnTaxable :=
    if totalTaxableIncome >? 0 then totalTax / totalTaxableIncome else 0 in
  let marginalCapGainsRate := getCapitalGainsRate totalTaxableIncome filingStatus in
  TaxBreakdown.mk
    ordinaryIncome
    0
    longTermCapitalGains
    socialSecurityIncome
    (SSResult.taxableAmount ssResult)
    pensionIncome
    pensionIncome
    rothWithdrawal
    grossIncome
    adjustedGrossIncome
    (Deduction.amount deductionResult)
    (Deduction.type deductionResult)
    (taxableOrdinaryIncome + longTermCapitalGains)
    (OrdinaryTaxResult.tax ordinaryTaxResult)
    (CapitalGainsResult.tax capGainsResult)
    stateTax
    (OrdinaryTaxResult.bracketFill ordinaryTaxResult)
    (CapitalGainsResult.effectiveRate capGainsResult * 100)
    (GainsBracket.mk marginalCapGainsRate totalTaxableIncome)
    totalTax
    afterTaxIncome
    effectiveRate
    effectiveRateOnAGI
    effectiveRateOnTaxable
    (OrdinaryTaxResult.marginalRate ordinaryTaxResult * 100)
    marginalCapGainsRate
    (WithdrawalStrategy.rmdAmount strategy)
    ((WithdrawalStrategy.rmdAmount strategy =? 0)
     || (traditionalWithdrawal >=? WithdrawalStrategy.rmdAmount strategy))%bool.

(** A computation that also records the denominator of every division it
    carries out, in program order. *)
Module Traced.
Definition t (A : Type) : Type := (A * list Q)%type.
Definition ret {A : Type} (x : A) : t A := (x, []).
Definition bind {A B : Type} (m : t A) (f : A -> t B) : t B :=
  (fst (f (fst m)), snd m ++ snd (f (fst m))).
(** [x / y], recording [y]. *)
Definition divide (x y : Q) : t Q := (x / y, [y]).
End Traced.

(** The local [gainsRatio] once more, its division recorded. *)
Definition gainsRatioTraced (account : TaxableAccount.t) : Traced.t Q :=
  let balance := TaxableAccount.balance account in
  let costBasis := TaxableAccount.costBasis account in
  if balance >? 0 then Traced.divide (balance - costBasis) balance
  else Traced.ret 0.

(** Step 1 of [calculateTaxBreakdown] once more, its division recorded. *)
Definition longTermCapitalGainsTraced (taxable : option TaxableAccount.t)
    (taxableWithdrawal : Q) : Traced.t Q :=
  match taxable with
  | Some account =>
      if taxableWithdrawal >? 0 then
        Traced.bind (gainsRatioTraced account)
          (fun gainsRatio => Traced.ret (taxableWithdrawal * gainsRatio))
      else Traced.ret 0
  | None => Traced.ret 0
  end.

(** [calculateTaxBreakdown] once more, statement for statement, with every
    [/] the function itself evaluates written [Traced.divide]: the result is
    the breakdown together with the denominators of the divisions that ran
    (the gains ratio of step 1 and the three effective rates of step 11),
    under the guards the source puts round them. *)
Definition calculateTaxBreakdownTraced (strategy : WithdrawalStrategy.t)
    (portfolio : Portfolio.t) (goal : IncomeGoal.t) : Traced.t TaxBreakdown.t :=
  let filingStatus := IncomeGoal.filingStatus goal in
  let traditionalWithdrawal := WithdrawalStrategy.traditionalWithdrawal strategy in
  let taxableWithdrawal := WithdrawalStrategy.taxableWithdrawal strategy in
  let rothWithdrawal := WithdrawalStrategy.rothWithdrawal strategy in
  let socialSecurityIncome := WithdrawalStrategy.socialSecurityIncome strategy in
  let pensionIncome := WithdrawalStrategy.pensionIncome strategy in
  (* Step 1 *)
  Traced.bind
    (longTermCapitalGainsTraced (Portfolio.taxable portfolio) taxableWithdrawal)
    (fun longTermCapitalGains =>
  (* Step 2 *)
  let otherIncomeForSS := traditionalWithdrawal + pensionIncome + longTermCapitalGains in
  let ssResult :=
    calculateSocialSecurityTaxable socialSecurityIncome otherIncomeForSS 0 filingStatus in
  (* Step 3 *)
  let grossIncome :=
    traditionalWithdrawal + taxableWithdrawal + rothWithdrawal
    + socialSecurityIncome + pensionIncome in
  (* Step 4 *)
  let adjustedGrossIncome :=
    traditionalWithdrawal + pensionIncome + longTermCapitalGains
    + SSResult.taxableAmount ssResult in
  (* Step 5 *)
  let deductionResult :=
    calculateDeduction filingStatus (IncomeGoal.useItemizedDeductions goal)
      (IncomeGoal.itemizedAmount goal) in
  (* Step 6 *)
  let ordinaryIncome :=
    traditionalWithdrawal + pensionIncome + SSResult.taxableAmount ssResult in
  let taxableOrdinaryIncome :=
    Math.max 0 (ordinaryIncome - Deduction.amount deductionResult) in
  (* Step 7 *)
  let ordinarySources :=
    ordinarySourcesOf traditionalWithdrawal pensionIncome
      (SSResult.taxableAmount ssResult) in
  (* Step 8 *)
  let ordinaryTaxResult :=
    calculateOrdinaryIncomeTax taxableOrdinaryIncome filingStatus ordinarySources in
  (* Step 9 *)
  let capGainsResult :=
    calculateCapitalGainsTax longTermCapitalGains taxableOrdinaryIncome filingStatus in
  (* Step 10 *)
  let stateTax :=
    match IncomeGoal.stateTaxMethod goal with
    | stm_rate =>
        if truthy (IncomeGoal.stateTaxRate goal)
        then (taxableOrdinaryIncome + longTermCapitalGains)
             * nullish (IncomeGoal.stateTaxRate goal) 0
        else 0
    | stm_fixed =>
        if truthy (IncomeGoal.stateTaxFixedAmount goal)
        then nullish (IncomeGoal.stateTaxFixedAmount goal) 0
        else 0
    | stm_none => 0
    end in
  (* Step 11 *)
  let federalTax :=
    OrdinaryTaxResult.tax ordinaryTaxResult + CapitalGainsResult.tax capGainsResult in
  let totalTax := federalTax + stateTax in
  let afterTaxIncome := grossIncome - totalTax in
  Traced.bind
    (if grossIncome >? 0 then Traced.divide totalTax grossIncome else Traced.ret 0)
    (fun effectiveRate =>
  Traced.bind
    (if adjustedGrossIncome >? 0 then Traced.divide totalTax adjustedGrossIncome
     else Traced.ret 0)
    (fun effectiveRateOnAGI =>
  let totalTaxableIncome := taxableOrdinaryIncome + longTermCapitalGains in
  Traced.bind
    (if totalTaxableIncome >? 0 then Traced.divide totalTax totalTaxableIncome
     else Traced.ret 0)
    (fun effectiveRateOnTaxable =>
  let marginalCapGainsRate := getCapitalGainsRate totalTaxableIncome filingStatus in
  Traced.ret
    (TaxBreakdown.mk
       ordinaryIncome
       0
       longTermCapitalGains
       socialSecurityIncome
       (SSResult.taxableAmount ssResult)
       pensionIncome
       pensionIncome
       rothWithdrawal
       grossIncome
       adjustedGrossIncome
       (Deduction.amount deductionResult)
       (Deduction.type deductionResult)
       (taxableOrdinaryIncome + longTermCapitalGains)
       (OrdinaryTaxResult.tax ordinaryTaxResult)
       (CapitalGainsResult.tax capGainsResult)
       stateTax
       (OrdinaryTaxResult.bracketFill ordinaryTaxResult)
       (CapitalGainsResult.effectiveRate capGainsResult * 100)
       (GainsBracket.mk marginalCapGainsRate totalTaxableIncome)
       totalTax
       afterTaxIncome
       effectiveRate
       effectiveRateOnAGI
       effectiveRateOnTaxable
       (OrdinaryTaxResult.marginalRate ordinaryTaxResult * 100)
       marginalCapGainsRate
       (WithdrawalStrategy.rmdAmount strategy)
       ((WithdrawalStrategy.rmdAmount strategy =? 0)
        || (traditionalWithdrawal >=? WithdrawalStrategy.rmdAmount strategy))%bool))))).

(** The denominators of the divisions [calculateTaxBreakdown] itself
    carries out on an input, in program order, as the traced run of the
    function records them. *)
Definition divisionDenominators (strategy : WithdrawalStrategy.t)
    (portfolio : Portfolio.t) (goal : IncomeGoal.t) : list Q :=
  snd (calculateTaxBreakdownTraced strategy portfolio goal).

(** ** engine/strategyGenerator.ts *)

(** Balances and benefits of absent accounts read as 0 ([?.balance ?? 0]). *)
Definition traditionalBalanceOf (portfolio : Portfolio.t) : Q :=
  match Portfolio.traditional portfolio with
  | Some a => TraditionalAccount.balance a | None => 0 end.
Definition taxableBalanceOf (portfolio : Portfolio.t) : Q :=
  match Portfolio.taxable portfolio with
  | Some a => TaxableAccount.balance a | None => 0 end.
Definition rothBalanceOf (portfolio : Portfolio.t) : Q :=
  match Portfolio.roth portfolio with
  | Some a => RothAccount.balance a | None => 0 end.
Definition ssAnnualOf (portfolio : Portfolio.t) : Q :=
  match Portfolio.socialSecurity portfolio with
  | Some a => SocialSecurityIncome.annualBenefit a | None => 0 end.
Definition pensionAnnualOf (portfolio : Portfolio.t) : Q :=
  match Portfolio.pension portfolio with
  | Some a => PensionIncome.annualBenefit a | None => 0 end.

(** [portfolio.traditional?.priorYearEndBalance ?? traditionalAvailable] *)
Definition priorYearBalanceOf (portfolio : Portfolio.t) : Q :=
  match Portfolio.traditional portfolio with
  | Some a => nullish (TraditionalAccount.priorYearEndBalance a)
                (traditionalBalanceOf portfolio)
  | None => traditionalBalanceOf portfolio
  end.

Module LowBracket.
Record t : Type := mk { max : num; rate : Q }.
End LowBracket.

Definition getLowBrackets (filingStatus : FilingStatus) : list LowBracket.t :=
  map (fun b => LowBracket.mk (TaxBracket.max b) (TaxBracket.rate b))
      (filter (fun b => TaxBracket.rate b <=? 0.12) (FEDERAL_BRACKETS filingStatus)).

Fixpoint estimateGrossLoop (iterations : nat) (gross afterTaxTarget : Q)
    (filingStatus : FilingStatus) (deduction : Q) : Q :=
  match iterations with
  | O => gross
  | S iterations' =>
      let taxableIncome := Math.max 0 (gross - deduction) in
      let estimatedTax := estimateOrdinaryTax taxableIncome filingStatus in
      let afterTax := gross - estimatedTax in
      if Math.abs (afterTax - afterTaxTarget) <? 500 then gross (* break *)
      else estimateGrossLoop iterations' (gross + (afterTaxTarget - afterTax))
             afterTaxTarget filingStatus deduction
  end.

Definition estimateGrossForAfterTax (afterTaxTarget : Q)
    (filingStatus : FilingStatus) (deduction : Q) : Q :=
  estimateGrossLoop 10 afterTaxTarget afterTaxTarget filingStatus deduction.

(** The closure [getCurrentSSTaxable] of [generateStrategy]. *)
Definition getCurrentSSTaxable (ssAnnual pensionAnnual : Q)
    (filingStatus : FilingStatus) (traditionalAmt capGains : Q) : Q :=
  let otherIncome := traditionalAmt + capGains + pensionAnnual in
  SSResult.taxableAmount
    (calculateSocialSecurityTaxable ssAnnual otherIncome 0 filingStatus).

(** Strategy 1, the loop over [bracketsToFill]; the state is
    [(traditionalWithdrawal, remainingNeeded)]. *)
Fixpoint fillLowBrackets (bracketsToFill : list LowBracket.t)
    (ssAnnual pensionAnnual deduction traditionalAvailable : Q)
    (filingStatus : FilingStatus) (st : Q * Q) : Q * Q :=
  match bracketsToFill with
  | [] => st
  | bracket :: rest =>
      let '(traditionalWithdrawal, remainingNeeded) := st in
      if remainingNeeded <=? 0 then st (* break *)
      else if traditionalWithdrawal >=? traditionalAvailable then st (* break *)
      else
        let currentSSTaxable :=
          getCurrentSSTaxable ssAnnual pensionAnnual filingStatus
            traditionalWithdrawal 0 in
        let currentTaxableOrdinary :=
          traditionalWithdrawal + currentSSTaxable - deduction in
        let bracketRoom :=
          num_max 0 (num_sub (LowBracket.max bracket)
                       (Math.max 0 currentTaxableOrdinary)) in
        if num_pos bracketRoom then
          let ssMultiplier := if currentSSTaxable >? 0 then 1.85 else 1.5 in
          let effectiveRoom := num_div bracketRoom ssMultiplier in
          let additionalTraditional :=
            num_min3 effectiveRoom remainingNeeded
              (traditionalAvailable - traditionalWithdrawal) in
          fillLowBrackets rest ssAnnual pensionAnnual deduction
            traditionalAvailable filingStatus
            (traditionalWithdrawal + additionalTraditional,
             remainingNeeded - additionalTraditional)
        else
          fillLowBrackets rest ssAnnual pensionAnnual deduction
            traditionalAvailable filingStatus st
  end.

(** Strategy 2: the taxable withdrawal that keeps gains in the 0% bracket;
    returns [(taxableWithdrawal, remainingNeeded)]. *)
Definition harvestZeroGains (portfolio : Portfolio.t) (filingStatus : FilingStatus)
    (traditionalWithdrawal finalSSTaxable deduction taxableAvailable
     remainingNeeded : Q) : Q * Q :=
  if ((remainingNeeded >? 0) && (taxableAvailable >? 0))%bool then
    match CAPITAL_GAINS_BRACKETS filingStatus with
    | zeroCapGainsBracket :: _ =>
        let currentTaxableIncome :=
          traditionalWithdrawal + finalSSTaxable - deduction in
        if num_lt currentTaxableIncome (TaxBracket.max zeroCapGainsBracket) then
          let zeroRateRoom :=
            num_sub (TaxBracket.max zeroCapGainsBracket)
              (Math.max 0 currentTaxableIncome) in
          let gainsRatio :=
            match Portfolio.taxable portfolio with
            | Some account =>
                (TaxableAccount.balance account - TaxableAccount.costBasis account)
                / TaxableAccount.balance account
            | None => 0.4
            end in
          let maxGainsAt0Pct := zeroRateRoom in
          let maxWithdrawalFor0Pct :=
            if gainsRatio >? 0 then num_div maxGainsAt0Pct gainsRatio
            else Fin taxableAvailable in
          let taxableNeeded :=
            num_min3 maxWithdrawalFor0Pct remainingNeeded taxableAvailable in
          (taxableNeeded, remainingNeeded - taxableNeeded)
        else (0, remainingNeeded)
    | [] => (0, remainingNeeded) (* no bracket table: not reachable *)
    end
  else (0, remainingNeeded).

(** One pass of the body of the refinement loop: adjust, then round. *)
Definition refineAdjust (strategy : WithdrawalStrategy.t) (portfolio : Portfolio.t)
    (difference : Q) : WithdrawalStrategy.t :=
  let adjusted :=
    if difference >? 0 then
      let rothAvailable :=
        rothBalanceOf portfolio - WithdrawalStrategy.rothWithdrawal strategy in
      let traditionalAvailable :=
        traditionalBalanceOf portfolio
        - WithdrawalStrategy.traditionalWithdrawal strategy in
      let taxableAvailable :=
        taxableBalanceOf portfolio - WithdrawalStrategy.taxableWithdrawal strategy in
      if rothAvailable >? 0 then
        WithdrawalStrategy.set_rothWithdrawal
          (Math.min (WithdrawalStrategy.rothWithdrawal strategy + Math.abs difference)
                    (rothBalanceOf portfolio))
          strategy
      else if traditionalAvailable >? 0 then
        let adjustment := Math.abs difference * 1.25 in
        WithdrawalStrategy.set_traditionalWithdrawal
          (Math.min (WithdrawalStrategy.traditionalWithdrawal strategy + adjustment)
                    (traditionalBalanceOf portfolio))
          strategy
      else if taxableAvailable >? 0 then
        let adjustment := Math.abs difference * 1.15 in
        WithdrawalStrategy.set_taxableWithdrawal
          (Math.min (WithdrawalStrategy.taxableWithdrawal strategy + adjustment)
                    (taxableBalanceOf portfolio))
          strategy
      else strategy
    else
      let minTraditional := WithdrawalStrategy.rmdAmount strategy in
      if WithdrawalStrategy.traditionalWithdrawal strategy >? minTraditional then
        let reduction :=
          Math.min (Math.abs difference * 0.8)
                   (WithdrawalStrategy.traditionalWithdrawal strategy - minTraditional) in
        WithdrawalStrategy.set_traditionalWithdrawal
          (WithdrawalStrategy.traditionalWithdrawal strategy - reduction) strategy
      else if WithdrawalStrategy.taxableWithdrawal strategy >? 0 then
        let reduction :=
          Math.min (Math.abs difference * 0.9)
                   (WithdrawalStrategy.taxableWithdrawal strategy) in
        WithdrawalStrategy.set_taxableWithdrawal
          (WithdrawalStrategy.taxableWithdrawal strategy - reduction) strategy
      else if WithdrawalStrategy.rothWithdrawal strategy >? 0 then
        let reduction :=
          Math.min (Math.abs difference)
                   (WithdrawalStrategy.rothWithdrawal strategy) in
        WithdrawalStrategy.set_rothWithdrawal
          (WithdrawalStrategy.rothWithdrawal strategy - reduction) strategy
      else strategy
  in
  WithdrawalStrategy.mk
    (Math.max (Math.round (WithdrawalStrategy.traditionalWithdrawal adjusted))
              (WithdrawalStrategy.rmdAmount adjusted))
    (Math.round (WithdrawalStrategy.taxableWithdrawal adjusted))
    (Math.round (WithdrawalStrategy.rothWithdrawal adjusted))
    (WithdrawalStrategy.socialSecurityIncome adjusted)
    (WithdrawalStrategy.pensionIncome adjusted)
    (WithdrawalStrategy.rmdAmount adjusted)
    (WithdrawalStrategy.isSystemGenerated adjusted).

(** The [while (iterations < maxIterations)] loop, on the iterations left. *)
Fixpoint refineLoop (iterationsLeft : nat) (strategy : WithdrawalStrategy.t)
    (breakdown : TaxBreakdown.t) (portfolio : Portfolio.t) (goal : IncomeGoal.t)
    : WithdrawalStrategy.t :=
  match iterationsLeft with
  | O => strategy
  | S iterationsLeft' =>
      let targetAfterTax := IncomeGoal.amount goal in
      let difference := targetAfterTax - TaxBreakdown.afterTaxIncome breakdown in
      if Math.abs difference <? 500 then strategy (* break *)
      else
        let strategy' := refineAdjust strategy portfolio difference in
        refineLoop iterationsLeft' strategy'
          (calculateTaxBreakdown strategy' portfolio goal) portfolio goal
  end.

Definition refineForAfterTaxTarget (initialStrategy : WithdrawalStrategy.t)
    (portfolio : Portfolio.t) (goal : IncomeGoal.t) : WithdrawalStrategy.t :=
  let maxIterations := 15%nat in
  refineLoop maxIterations initialStrategy
    (calculateTaxBreakdown initialStrategy portfolio goal) portfolio goal.

(** The body of [generateStrategy] up to its constant [strategy]: forced
    income, target resolution, strategies 1 to 5 and the rounding. *)
Definition initialStrategy (portfolio : Portfolio.t) (goal : IncomeGoal.t)
    : WithdrawalStrategy.t :=
  let targetType := IncomeGoal.targetType goal in
  let targetAmount := IncomeGoal.amount goal in
  let filingStatus := IncomeGoal.filingStatus goal in
  let traditionalAvailable := traditionalBalanceOf portfolio in
  let taxableAvailable := taxableBalanceOf portfolio in
  let rothAvailable := rothBalanceOf portfolio in
  let ssAnnual := ssAnnualOf portfolio in
  let pensionAnnual := pensionAnnualOf portfolio in
  let priorYearBalance := priorYearBalanceOf portfolio in
  let rmdInfo := calculateRMD (IncomeGoal.primaryAge goal) priorYearBalance in
  let rmdRequired := RMDInfo.amount rmdInfo in
  let deduction :=
    Deduction.amount
      (calculateDeduction filingStatus (IncomeGoal.useItemizedDeductions goal)
         (IncomeGoal.itemizedAmount goal)) in
  let socialSecurityIncome := ssAnnual in
  let pensionIncome := pensionAnnual in
  let targetGross :=
    match targetType with
    | gross => targetAmount
    | afterTax => estimateGrossForAfterTax targetAmount filingStatus deduction
    end in
  let remainingNeeded0 := targetGross - ssAnnual - pensionAnnual - rmdRequired in
  (* Strategy 1 *)
  let bracketsToFill := getLowBrackets filingStatus in
  let '(traditionalWithdrawal1, remainingNeeded1) :=
    fillLowBrackets bracketsToFill ssAnnual pensionAnnual deduction
      traditionalAvailable filingStatus (rmdRequired, remainingNeeded0) in
  let finalSSTaxable :=
    getCurrentSSTaxable ssAnnual pensionAnnual filingStatus traditionalWithdrawal1 0 in
  (* Strategy 2 *)
  let '(taxableWithdrawal2, remainingNeeded2) :=
    harvestZeroGains portfolio filingStatus traditionalWithdrawal1 finalSSTaxable
      deduction taxableAvailable remainingNeeded1 in
  (* Strategy 3 *)
  let '(rothWithdrawal3, remainingNeeded3) :=
    if ((remainingNeeded2 >? 0) && (rothAvailable >? 0))%bool then
      let rothNeeded := Math.min remainingNeeded2 rothAvailable in
      (rothNeeded, remainingNeeded2 - rothNeeded)
    else (0, remainingNeeded2) in
  (* Strategy 4 *)
  let '(traditionalWithdrawal4, remainingNeeded4) :=
    if ((remainingNeeded3 >? 0) && (traditionalWithdrawal1 <? traditionalAvailable))%bool then
      let additionalTraditional :=
        Math.min remainingNeeded3 (traditionalAvailable - traditionalWithdrawal1) in
      (traditionalWithdrawal1 + additionalTraditional,
       remainingNeeded3 - additionalTraditional)
    else (traditionalWithdrawal1, remainingNeeded3) in
  (* Strategy 5 *)
  let '(taxableWithdrawal5, remainingNeeded5) :=
    if ((remainingNeeded4 >? 0) && (taxableWithdrawal2 <? taxableAvailable))%bool then
      let additionalTaxable :=
        Math.min remainingNeeded4 (taxableAvailable - taxableWithdrawal2) in
      (taxableWithdrawal2 + additionalTaxable, remainingNeeded4 - additionalTaxable)
    else (taxableWithdrawal2, remainingNeeded4) in
  WithdrawalStrategy.mk
    (Math.max (Math.round traditionalWithdrawal4) rmdRequired)
    (Math.round taxableWithdrawal5)
    (Math.round rothWithdrawal3)
    (Math.round socialSecurityIncome)
    (Math.round pensionIncome)
    rmdRequired
    true.

Definition generateStrategy (portfolio : Portfolio.t) (goal : IncomeGoal.t)
    : WithdrawalStrategy.t :=
  let strategy := initialStrategy portfolio goal in
  match IncomeGoal.targetType goal with
  | afterTax => refineForAfterTaxTarget strategy portfolio goal
  | gross => strategy
  end.

(** ** types/index.ts: projection types *)

Module ProjectionAssumptions.
Record t : Type := mk {
  growthRate : Q;
  inflationRate : Q;
  socialSecurityCOLA : Q
}.
End ProjectionAssumptions.

Module YearBalances.
Record t : Type := mk { traditional : Q; taxable : Q; roth : Q; total : Q }.
End YearBalances.

Module YearWithdrawals.
Record t : Type := mk {
  traditional : Q; taxable : Q; roth : Q;
  socialSecurity : Q; pension : Q; total : Q
}.
End YearWithdrawals.

Module YearTaxes.
Record t : Type := mk { federal : Q; state : Q; total : Q }.
End YearTaxes.

Module ProjectionYear.
Record t : Type := mk {
  year : Z;
  age : Z;
  balances : YearBalances.t;
  rmdAmount : Q;
  withdrawals : YearWithdrawals.t;
  taxes : YearTaxes.t;
  afterTaxIncome : Q;
  effectiveRate : Q
}.
End ProjectionYear.

Module RetirementProjection.
Record t : Type := mk {
  startAge : Z;
  endAge : Z;
  assumptions : ProjectionAssumptions.t;
  years : list ProjectionYear.t;
  totalTaxesPaid : Q;
  totalWithdrawals : Q;
  finalPortfolioValue : Q;
  isSustainable : bool;
  depletionAge : option Z
}.
End RetirementProjection.

(** ** engine/projectionEngine.ts *)

Definition DEFAULT_ASSUMPTIONS : ProjectionAssumptions.t :=
  ProjectionAssumptions.mk 0.05 0.025 0.025.

(** The variables [generateRetirementProjection] carries round its loop. *)
Module Running.
Record t : Type := mk {
  traditionalBalance : Q;
  taxableBalance : Q;
  rothBalance : Q;
  taxableCostBasis : Q;
  socialSecurityBenefit : Q;
  pensionBenefit : Q;
  totalTaxesPaid : Q;
  totalWithdrawals : Q;
  depletionAge : option Z;
  years : list ProjectionYear.t
}.
(** [totalBalance] as the loop computes it at the start of a year. *)
Definition totalBalance (r : t) : Q :=
  traditionalBalance r + taxableBalance r + rothBalance r.
End Running.

(** The portfolio snapshot of one year: accounts without a positive
    balance or benefit are [null]. *)
Definition yearPortfolioOf (r : Running.t) (pensionCola : Q) : Portfolio.t :=
  Portfolio.mk
    (if Running.taxableBalance r >? 0
     then Some (TaxableAccount.mk (Running.taxableBalance r)
                  (Running.taxableCostBasis r)
                  (Running.taxableBalance r - Running.taxableCostBasis r))
     else None)
    (if Running.traditionalBalance r >? 0
     then Some (TraditionalAccount.mk (Running.traditionalBalance r)
                  (Some (Running.traditionalBalance r)))
     else None)
    (if Running.rothBalance r >? 0
     then Some (RothAccount.mk (Running.rothBalance r)) else None)
    (if Running.socialSecurityBenefit r >? 0
     then Some (SocialSecurityIncome.mk (Running.socialSecurityBenefit r))
     else None)
    (if Running.pensionBenefit r >? 0
     then Some (PensionIncome.mk (Running.pensionBenefit r) pensionCola)
     else None).

(** The goal of one year: amount inflated, ages moved on. *)
Definition adjustedGoalOf (goal : IncomeGoal.t) (inflationRate : Q)
    (age yearOffset : Z) : IncomeGoal.t :=
  let inflationMultiplier := (1 + inflationRate) ^ yearOffset in
  IncomeGoal.mk
    (IncomeGoal.targetType goal)
    (Math.round (IncomeGoal.amount goal * inflationMultiplier))
    (IncomeGoal.filingStatus goal)
    age
    (match IncomeGoal.spouseAge goal with
     | Some spouse => if (spouse =? 0)%Z then None else Some (spouse + yearOffset)%Z
     | None => None
     end)
    (IncomeGoal.useItemizedDeductions goal)
    (IncomeGoal.itemizedAmount goal)
    (IncomeGoal.stateTaxMethod goal)
    (IncomeGoal.stateTaxRate goal)
    (IncomeGoal.stateTaxFixedAmount goal)
    (IncomeGoal.planningHorizon goal).

(** The body of the year loop at [age]. *)
Definition projectionYearStep (goal : IncomeGoal.t)
    (assumptions : ProjectionAssumptions.t)
    (initial : option (WithdrawalStrategy.t * TaxBreakdown.t))
    (pensionCola : Q) (startAge currentYear : Z)
    (age : Z) (r : Running.t) : Running.t :=
  let yearOffset := (age - startAge)%Z in
  let year := (currentYear + yearOffset)%Z in
  let traditionalBalance := Running.traditionalBalance r in
  let taxableBalance := Running.taxableBalance r in
  let rothBalance := Running.rothBalance r in
  let taxableCostBasis := Running.taxableCostBasis r in
  let socialSecurityBenefit := Running.socialSecurityBenefit r in
  let pensionBenefit := Running.pensionBenefit r in
  (* Check if portfolio is depleted *)
  let totalBalance := traditionalBalance + taxableBalance + rothBalance in
  let depletionAge :=
    match Running.depletionAge r with
    | None => if totalBalance <=? 0 then Some age else None
    | Some recorded => Some recorded
    end in
  let yearPortfolio := yearPortfolioOf r pensionCola in
  let adjustedGoal :=
    adjustedGoalOf goal (ProjectionAssumptions.inflationRate assumptions)
      age yearOffset in
  let isFirstYear := (age =? startAge)%Z in
  let '(strategy, breakdown) :=
    match (if isFirstYear then initial else None) with
    | Some (initialStrategy, initialBreakdown) =>
        (initialStrategy, initialBreakdown)
    | None =>
        if ((totalBalance >? 0) || (socialSecurityBenefit >? 0)
            || (pensionBenefit >? 0))%bool then
          let strategy := generateStrategy yearPortfolio adjustedGoal in
          (strategy, calculateTaxBreakdown strategy yearPortfolio adjustedGoal)
        else
          let strategy :=
            WithdrawalStrategy.mk 0 0 0 socialSecurityBenefit pensionBenefit 0 true in
          (strategy, calculateTaxBreakdown strategy yearPortfolio adjustedGoal)
    end in
  let withdrawalsTotal :=
    WithdrawalStrategy.traditionalWithdrawal strategy
    + WithdrawalStrategy.taxableWithdrawal strategy
    + WithdrawalStrategy.rothWithdrawal strategy
    + WithdrawalStrategy.socialSecurityIncome strategy
    + WithdrawalStrategy.pensionIncome strategy in
  let yearData :=
    ProjectionYear.mk year age
      (YearBalances.mk (Math.round traditionalBalance) (Math.round taxableBalance)
         (Math.round rothBalance) (Math.round totalBalance))
      (WithdrawalStrategy.rmdAmount strategy)
      (YearWithdrawals.mk
         (WithdrawalStrategy.traditionalWithdrawal strategy)
         (WithdrawalStrategy.taxableWithdrawal strategy)
         (WithdrawalStrategy.rothWithdrawal strategy)
         (WithdrawalStrategy.socialSecurityIncome strategy)
         (WithdrawalStrategy.pensionIncome strategy)
         withdrawalsTotal)
      (YearTaxes.mk
         (TaxBreakdown.ordinaryIncomeTax breakdown
          + TaxBreakdown.capitalGainsTax breakdown)
         (TaxBreakdown.stateTax breakdown)
         (TaxBreakdown.totalTax breakdown))
      (TaxBreakdown.afterTaxIncome breakdown)
      (TaxBreakdown.effectiveRate breakdown) in
  (* Apply withdrawals to balances *)
  let traditionalBalance1 :=
    Math.max 0 (traditionalBalance - WithdrawalStrategy.traditionalWithdrawal strategy) in
  let taxableBalance1 :=
    Math.max 0 (taxableBalance - WithdrawalStrategy.taxableWithdrawal strategy) in
  let rothBalance1 :=
    Math.max 0 (rothBalance - WithdrawalStrategy.rothWithdrawal strategy) in
  (* Adjust cost basis proportionally for taxable account *)
  let taxableCostBasis1 :=
    match Portfolio.taxable yearPortfolio with
    | Some account =>
        if WithdrawalStrategy.taxableWithdrawal strategy >? 0 then
          let withdrawalRatio :=
            WithdrawalStrategy.taxableWithdrawal strategy
            / TaxableAccount.balance account in
          Math.max 0 (taxableCostBasis * (1 - withdrawalRatio))
        else taxableCostBasis
    | None => taxableCostBasis
    end in
  (* Apply growth to remaining balances *)
  let growthRate := ProjectionAssumptions.growthRate assumptions in
  let traditionalBalance2 := traditionalBalance1 * (1 + growthRate) in
  let taxableBalance2 := taxableBalance1 * (1 + growthRate) in
  let rothBalance2 := rothBalance1 * (1 + growthRate) in
  let taxableCostBasis2 :=
    if taxableBalance2 >? 0 then
      let gainsPortion := taxableBalance2 - taxableCostBasis1 in
      taxableCostBasis1 + gainsPortion * growthRate
    else taxableCostBasis1 in
  Running.mk
    traditionalBalance2 taxableBalance2 rothBalance2 taxableCostBasis2
    (socialSecurityBenefit
     * (1 + ProjectionAssumptions.socialSecurityCOLA assumptions))
    (pensionBenefit * (1 + pensionCola))
    (Running.totalTaxesPaid r + TaxBreakdown.totalTax breakdown)
    (Running.totalWithdrawals r + withdrawalsTotal)
    depletionAge
    (Running.years r ++ [yearData]).

(** [for (age = startAge; age <= endAge; age++)], on the years left. *)
Fixpoint projectionLoop (goal : IncomeGoal.t)
    (assumptions : ProjectionAssumptions.t)
    (initial : option (WithdrawalStrategy.t * TaxBreakdown.t))
    (pensionCola : Q) (startAge currentYear : Z)
    (yearsLeft : nat) (age : Z) (r : Running.t) : Running.t :=
  match yearsLeft with
  | O => r
  | S yearsLeft' =>
      projectionLoop goal assumptions initial pensionCola startAge currentYear
        yearsLeft' (age + 1)%Z
        (projectionYearStep goal assumptions initial pensionCola startAge
           currentYear age r)
  end.

(** The running variables before the first year. *)
Definition initialRunning (portfolio : Portfolio.t) : Running.t :=
  Running.mk
    (traditionalBalanceOf portfolio)
    (taxableBalanceOf portfolio)
    (rothBalanceOf portfolio)
    (match Portfolio.taxable portfolio with
     | Some a => TaxableAccount.costBasis a | None => 0 end)
    (ssAnnualOf portfolio)
    (pensionAnnualOf portfolio)
    0 0 None [].

Definition pensionColaOf (portfolio : Portfolio.t) : Q :=
  match Portfolio.pension portfolio with
  | Some a => PensionIncome.cola a | None => 0 end.

(** Number of passes of the year loop from [startAge] to [endAge]. *)
Definition loopYears (startAge endAge : Z) : nat :=
  Z.to_nat (endAge - startAge + 1).

(** [generateRetirementProjection]; [initial] is the pair
    [(initialStrategy, initialBreakdown)] when both are given, and
    [currentYear] stands for [new Date().getFullYear()]. *)
Definition generateRetirementProjection (portfolio : Portfolio.t)
    (goal : IncomeGoal.t) (assumptions : ProjectionAssumptions.t)
    (initial : option (WithdrawalStrategy.t * TaxBreakdown.t))
    (currentYear : Z) : RetirementProjection.t :=
  let startAge := IncomeGoal.primaryAge goal in
  let endAge := IncomeGoal.planningHorizon goal in
  let final :=
    projectionLoop goal assumptions initial (pensionColaOf portfolio)
      startAge currentYear (loopYears startAge endAge) startAge
      (initialRunning portfolio) in
  let finalPortfolioValue :=
    Running.traditionalBalance final + Running.taxableBalance final
    + Running.rothBalance final in
  RetirementProjection.mk startAge endAge assumptions
    (Running.years final)
    (Math.round (Running.totalTaxesPaid final))
    (Math.round (Running.totalWithdrawals final))
    (Math.round finalPortfolioValue)
    (match Running.depletionAge final with None => true | Some _ => false end)
    (Running.depletionAge final).

(** The ages of the year loop, each with the [totalBalance] the loop
    computes at the start of that year. *)
Fixpoint yearStartTotals (goal : IncomeGoal.t)
    (assumptions : ProjectionAssumptions.t)
    (initial : option (WithdrawalStrategy.t * TaxBreakdown.t))
    (pensionCola : Q) (startAge currentYear : Z)
    (yearsLeft : nat) (age : Z) (r : Running.t) : list (Z * Q) :=
  match yearsLeft with
  | O => []
  | S yearsLeft' =>
      (age, Running.totalBalance r)
      :: yearStartTotals goal assumptions initial pensionCola startAge currentYear
           yearsLeft' (age + 1)%Z
           (projectionYearStep goal assumptions initial pensionCola startAge
              currentYear age r)
  end.

(** The first age of such a list whose total is at or below zero. *)
Fixpoint firstDepletedAge (totals : list (Z * Q)) : option Z :=
  match totals with
  | [] => None
  | (age, total) :: rest =>
      if total <=? 0 then Some age else firstDepletedAge rest
  end.

(** ** Notions used in the statements below *)

(** The divisor as the RMD rule states it: the Uniform Lifetime Table entry
    of the age, ages beyond 120 reading the age-120 entry. *)
Definition uniformLifetimeDivisor (age : Z) : Q :=
  nullish (tableGet UNIFORM_LIFETIME_TABLE (Z.min age 120)) 0.

(** The upper bound of the last bracket of a table. *)
Definition topOfBrackets (brackets : list TaxBracket.t) : num :=
  TaxBracket.max (last brackets (TaxBracket.mk 0 (Fin 0) 0)).

(** Tax the capital-gains loop adds for [remainingGains] stacked on
    [incomeProcessed], started from empty accumulators. *)
Definition gainsTaxFrom (brackets : list TaxBracket.t) (remainingGains : Q)
    (incomeProcessed : num) : Q :=
  GainsState.totalTax
    (capitalGainsLoop brackets (GainsState.mk 0 remainingGains [] incomeProcessed)).

(** A bracket table whose rates never fall below [floor] and never
    decrease, every bracket bounded except the last, which is unbounded. *)
Inductive stacked : Q -> list TaxBracket.t -> Prop :=
| stacked_top (floor : Q) (b : TaxBracket.t) :
    TaxBracket.max b = Infinity -> floor <= TaxBracket.rate b ->
    stacked floor [b]
| stacked_cons (floor : Q) (b : TaxBracket.t) (top : Q) (rest : list TaxBracket.t) :
    TaxBracket.max b = Fin top -> floor <= TaxBracket.rate b ->
    stacked (TaxBracket.rate b) rest ->
    stacked floor (b :: rest).

(** A portfolio all of whose balances and benefits are at or above zero. *)
Definition portfolioNonNegative (portfolio : Portfolio.t) : Prop :=
  match Portfolio.taxable portfolio with
  | Some a => 0 <= TaxableAccount.balance a
  | None => True
  end
  /\ match Portfolio.traditional portfolio with
     | Some a =>
         0 <= TraditionalAccount.balance a
         /\ match TraditionalAccount.priorYearEndBalance a with
            | Some prior => 0 <= prior
            | None => True
            end
     | None => True
     end
  /\ match Portfolio.roth portfolio with
     | Some a => 0 <= RothAccount.balance a
     | None => True
     end
  /\ match Portfolio.socialSecurity portfolio with
     | Some a => 0 <= SocialSecurityIncome.annualBenefit a
     | None => True
     end
  /\ match Portfolio.pension portfolio with
     | Some a => 0 <= PensionIncome.annualBenefit a
     | None => True
     end.

(** A strategy none of whose amounts is negative. *)
Definition strategyNonNegative (strategy : WithdrawalStrategy.t) : Prop :=
  0 <= WithdrawalStrategy.traditionalWithdrawal strategy
  /\ 0 <= WithdrawalStrategy.taxableWithdrawal strategy
  /\ 0 <= WithdrawalStrategy.rothWithdrawal strategy
  /\ 0 <= WithdrawalStrategy.socialSecurityIncome strategy
  /\ 0 <= WithdrawalStrategy.pensionIncome strategy
  /\ 0 <= WithdrawalStrategy.rmdAmount strategy.

(** ** Concrete inputs used in the examples *)

(** A single filer aged 73 with $500,000 in a traditional account (same
    balance at the end of the prior year) and nothing else. *)
Definition traditionalOnlyPortfolio : Portfolio.t :=
  Portfolio.mk None (Some (TraditionalAccount.mk 500000 (Some 500000)))
    None None None.

Definition mixedPortfolio : Portfolio.t :=
  Portfolio.mk (Some (TaxableAccount.mk 200000 120000 80000))
    (Some (TraditionalAccount.mk 500000 None))
    (Some (RothAccount.mk 100000))
    (Some (SocialSecurityIncome.mk 30000))
    (Some (PensionIncome.mk 12000 0.02)).

Definition emptyTaxablePortfolio : Portfolio.t :=
  Portfolio.mk (Some (TaxableAccount.mk 0 0 0)) None None None None.

Definition goalAt73 (targetType : TargetType) (amount : Q) : IncomeGoal.t :=
  IncomeGoal.mk targetType amount single 73 None false None stm_none None None 95.

Definition noWithdrawals : WithdrawalStrategy.t :=
  WithdrawalStrategy.mk 0 0 0 0 0 0 true.

Definition flatAssumptions : ProjectionAssumptions.t :=
  ProjectionAssumptions.mk 0 0 0.
(** ** Further functions of the engine *)

(** *** engine/taxBrackets.ts *)

Fixpoint findMarginalFrom (brackets : list TaxBracket.t) (taxableIncome : Q)
    (top : TaxBracket.t) : TaxBracket.t :=
  match brackets with
  | [] => top
  | bracket :: rest =>
      if num_le taxableIncome (TaxBracket.max bracket) then bracket
      else findMarginalFrom rest taxableIncome top
  end.

(** [findMarginalBracket]: the first bracket whose top is at or above the
    income, the last bracket of the table when none is. *)
Definition findMarginalBracket (taxableIncome : Q) (filingStatus : FilingStatus)
    : TaxBracket.t :=
  let brackets := FEDERAL_BRACKETS filingStatus in
  findMarginalFrom brackets taxableIncome
    (last brackets (TaxBracket.mk 0 Infinity 0)).

(** *** constants/tax2026.ts and engine/capitalGains.ts *)

Definition NIIT_THRESHOLD (s : FilingStatus) : Q :=
  match s with
  | single => 200000
  | mfj => 250000
  | mfs => 125000
  | hoh => 200000
  end.

Definition NIIT_RATE : Q := 0.038.

Definition calculateNIIT (netInvestmentIncome magi : Q)
    (filingStatus : FilingStatus) : Q :=
  let threshold := NIIT_THRESHOLD filingStatus in
  let excessIncome := Math.max 0 (magi - threshold) in
  if excessIncome <=? 0 then 0
  else
    let niitBase := Math.min netInvestmentIncome excessIncome in
    niitBase * NIIT_RATE.

(** [getZeroPercentCapGainsRoom]; the result is a bound because the
    bracket top it subtracts from is one. *)
Definition getZeroPercentCapGainsRoom (taxableOrdinaryIncome : Q)
    (filingStatus : FilingStatus) : num :=
  let brackets := CAPITAL_GAINS_BRACKETS filingStatus in
  match find (fun b => TaxBracket.rate b =? 0) brackets with
  | None => Fin 0
  | Some zeroRateBracket =>
      num_max 0 (num_sub (TaxBracket.max zeroRateBracket) taxableOrdinaryIncome)
  end.

(** *** engine/socialSecurity.ts *)

Module ThresholdRoom.
Record t : Type := mk { toFiftyPercent : Q; toEightyFivePercent : Q }.
End ThresholdRoom.

Definition getSSThresholdRoom (currentProvisionalIncome : Q)
    (filingStatus : FilingStatus) : ThresholdRoom.t :=
  let thresholds := ssThresholds filingStatus in
  ThresholdRoom.mk
    (Math.max 0 (zeroThreshold thresholds - currentProvisionalIncome))
    (Math.max 0 (fiftyThreshold thresholds - currentProvisionalIncome)).

(** *** engine/rmd.ts *)

Definition isRMDRequired (age : Z) : bool := (age >=? RMD_START_AGE)%Z.

Definition getYearsUntilRMD (currentAge : Z) : Z :=
  if (currentAge >=? RMD_START_AGE)%Z then 0%Z
  else (RMD_START_AGE - currentAge)%Z.

Module ScheduleYear.
Record t : Type := mk {
  year : Z;
  age : Z;
  startBalance : Q;
  rmd : Q;
  totalWithdrawal : Q;
  endBalance : Q
}.
End ScheduleYear.

(** The year loop of [projectRMDSchedule], on the years left; [balance] is
    the running balance and [projections] the entries pushed so far. *)
Fixpoint rmdScheduleLoop (currentAge currentYear : Z)
    (estimatedGrowthRate additionalWithdrawals : Q)
    (yearsLeft : nat) (age : Z) (balance : Q)
    (projections : list ScheduleYear.t) : list ScheduleYear.t :=
  match yearsLeft with
  | O => projections
  | S yearsLeft' =>
      let yearOffset := (age - currentAge)%Z in
      let year := (currentYear + yearOffset)%Z in
      let rmdInfo := calculateRMD age balance in
      let rmd := RMDInfo.amount rmdInfo in
      let totalWithdrawal := Math.min (rmd + additionalWithdrawals) balance in
      let endBalance :=
        Math.max 0 ((balance - totalWithdrawal) * (1 + estimatedGrowthRate)) in
      rmdScheduleLoop currentAge currentYear estimatedGrowthRate
        additionalWithdrawals yearsLeft' (age + 1)%Z endBalance
        (projections ++
           [ScheduleYear.mk year age (Math.round balance) (Math.round rmd)
              (Math.round totalWithdrawal) (Math.round endBalance)])
  end.

(** [projectRMDSchedule]; [currentYear] stands for
    [new Date().getFullYear()], and the two defaulted parameters are passed
    explicitly. *)
Definition projectRMDSchedule (currentAge endAge : Z) (currentBalance : Q)
    (estimatedGrowthRate additionalWithdrawals : Q) (currentYear : Z)
    : list ScheduleYear.t :=
  rmdScheduleLoop currentAge currentYear estimatedGrowthRate
    additionalWithdrawals (loopYears currentAge endAge) currentAge
    currentBalance [].

Definition calculateTotalRMDs (currentAge endAge : Z) (currentBalance : Q)
    (estimatedGrowthRate : Q) (currentYear : Z) : Q :=
  let schedule :=
    projectRMDSchedule currentAge endAge currentBalance estimatedGrowthRate 0
      currentYear in
  fold_left (fun total year => total + ScheduleYear.rmd year) schedule 0.

(** *** engine/calculateTax.ts *)

Definition estimateTaxForGrossIncome (grossTarget : Q)
    (filingStatus : FilingStatus) : Q :=
  let deduction := Deduction.amount (calculateDeduction filingStatus false None) in
  let taxableIncome := Math.max 0 (grossTarget - deduction) in
  OrdinaryTaxResult.tax (calculateOrdinaryIncomeTax taxableIncome filingStatus []).

Fixpoint grossForAfterTaxLoop (iterations : nat) (grossEstimate afterTaxTarget : Q)
    (filingStatus : FilingStatus) : Q :=
  match iterations with
  | O => grossEstimate
  | S iterations' =>
      let estimatedTax := estimateTaxForGrossIncome grossEstimate filingStatus in
      let calculatedAfterTax := grossEstimate - estimatedTax in
      let difference := afterTaxTarget - calculatedAfterTax in
      if Math.abs difference <? 100 then grossEstimate (* break *)
      else grossForAfterTaxLoop iterations' (grossEstimate + difference)
             afterTaxTarget filingStatus
  end.

(** [calculateGrossForAfterTax]; the portfolio argument is unused by the
    source and [maxIterations] (default 20) is passed explicitly. *)
Definition calculateGrossForAfterTax (afterTaxTarget : Q)
    (filingStatus : FilingStatus) (_portfolio : Portfolio.t)
    (maxIterations : nat) : Q :=
  Math.round
    (grossForAfterTaxLoop maxIterations (afterTaxTarget / 0.75) afterTaxTarget
       filingStatus).

(** *** engine/guardrails.ts *)

Module GuardrailsConfig.
Record t : Type := mk {
  initialRate : Q;
  upperBuffer : Q;
  lowerBuffer : Q;
  adjustmentPercent : Q
}.
End GuardrailsConfig.

Inductive GuardrailStatus : Type := within | above | below.

Module GuardrailsResult.
Record t : Type := mk {
  currentRate : Q;
  initialRate : Q;
  upperGuardrail : Q;
  lowerGuardrail : Q;
  status : GuardrailStatus;
  sustainableWithdrawal : Q;
  maxSafeWithdrawal : Q
}.
End GuardrailsResult.

Definition DEFAULT_GUARDRAILS : GuardrailsConfig.t :=
  GuardrailsConfig.mk 0.05 0.20 0.20 0.10.

Definition calculateGuardrails (portfolioValue currentWithdrawal fixedIncome : Q)
    (config : GuardrailsConfig.t) : GuardrailsResult.t :=
  let portfolioWithdrawal := Math.max 0 (currentWithdrawal - fixedIncome) in
  let currentRate :=
    if portfolioValue >? 0 then portfolioWithdrawal / portfolioValue else 0 in
  let upperGuardrail :=
    GuardrailsConfig.initialRate config * (1 + GuardrailsConfig.upperBuffer config) in
  let lowerGuardrail :=
    GuardrailsConfig.initialRate config * (1 - GuardrailsConfig.lowerBuffer config) in
  let sustainableWithdrawal :=
    portfolioValue * GuardrailsConfig.initialRate config + fixedIncome in
  let maxSafeWithdrawal := portfolioValue * upperGuardrail + fixedIncome in
  let status :=
    if currentRate >? upperGuardrail then above
    else if ((currentRate <? lowerGuardrail) && (currentRate >? 0))%bool then below
    else within in
  GuardrailsResult.mk currentRate (GuardrailsConfig.initialRate config)
    upperGuardrail lowerGuardrail status sustainableWithdrawal maxSafeWithdrawal.

Module GuardrailsAssessment.
Record t : Type := mk {
  isSustainable : bool;
  isRisky : bool;
  sustainableIncome : Q;
  maxIncome : Q;
  withdrawalRate : Q
}.
End GuardrailsAssessment.

Definition getGuardrailsAssessment (portfolioValue targetIncome fixedIncome : Q)
    : GuardrailsAssessment.t :=
  let result :=
    calculateGuardrails portfolioValue targetIncome fixedIncome DEFAULT_GUARDRAILS in
  let isSustainable :=
    match GuardrailsResult.status result with above => false | _ => true end in
  let isRisky :=
    GuardrailsResult.currentRate result >? GuardrailsResult.initialRate result in
  GuardrailsAssessment.mk isSustainable isRisky
    (GuardrailsResult.sustainableWithdrawal result)
    (GuardrailsResult.maxSafeWithdrawal result)
    (GuardrailsResult.currentRate result).

(** *** engine/strategyGenerator.ts: the validator *)

(** The messages [validateStrategy] can push, by what they report; the RMD
    message carries the amount it prints. *)
Inductive ValidationError : Type :=
| TraditionalExceedsBalance
| TaxableExceedsBalance
| RothExceedsBalance
| SocialSecurityExceedsBenefit
| PensionExceedsBenefit
| RmdNotSatisfied (rmdAmount : Q).

Module Validation.
Record t : Type := mk { valid : bool; errors : list ValidationError }.
End Validation.

Definition validateStrategy (strategy : WithdrawalStrategy.t)
    (portfolio : Portfolio.t) : Validation.t :=
  let errors :=
    (if WithdrawalStrategy.traditionalWithdrawal strategy
        >? traditionalBalanceOf portfolio
     then [TraditionalExceedsBalance] else [])
    ++ (if WithdrawalStrategy.taxableWithdrawal strategy
           >? taxableBalanceOf portfolio
        then [TaxableExceedsBalance] else [])
    ++ (if WithdrawalStrategy.rothWithdrawal strategy >? rothBalanceOf portfolio
        then [RothExceedsBalance] else [])
    ++ (if WithdrawalStrategy.socialSecurityIncome strategy >? ssAnnualOf portfolio
        then [SocialSecurityExceedsBenefit] else [])
    ++ (if WithdrawalStrategy.pensionIncome strategy >? pensionAnnualOf portfolio
        then [PensionExceedsBenefit] else [])
    ++ (if ((WithdrawalStrategy.rmdAmount strategy >? 0)
            && (WithdrawalStrategy.traditionalWithdrawal strategy
                <? WithdrawalStrategy.rmdAmount strategy))%bool
        then [RmdNotSatisfied (WithdrawalStrategy.rmdAmount strategy)] else [])
  in
  Validation.mk (match errors with [] => true | _ :: _ => false end) errors.

(** *** engine/projectionEngine.ts: views of a projection *)

(** [array.filter((element, index) => ...)], the index starting at [index]. *)
Fixpoint filterIndexed {A : Type} (keep : A -> nat -> bool) (index : nat)
    (l : list A) : list A :=
  match l with
  | [] => []
  | x :: rest =>
      if keep x index then x :: filterIndexed keep (S index) rest
      else filterIndexed keep (S index) rest
  end.

Definition milestoneAges : list Z := [73; 80; 85; 90; 95; 100]%Z.

Definition getSummaryYears (projection : RetirementProjection.t)
    : list ProjectionYear.t :=
  let years := RetirementProjection.years projection in
  filterIndexed
    (fun year index =>
       if ((index =? 0)%nat || (index =? length years - 1)%nat)%bool then true
       else if (Z.rem (ProjectionYear.age year
                       - RetirementProjection.startAge projection) 5 =? 0)%Z
       then true
       else if existsb (Z.eqb (ProjectionYear.age year)) milestoneAges then true
       else
         match RetirementProjection.depletionAge projection with
         | Some depletion => (depletion =? ProjectionYear.age year)%Z
         | None => false
         end)
    0 years.

Module ProjectionStats.
Record t : Type := mk {
  averageEffectiveRate : Q;
  peakTaxYear : option ProjectionYear.t;
  yearsInRetirement : nat;
  totalAfterTaxIncome : Q
}.
End ProjectionStats.

(** The accumulators of the loop of [getProjectionStats]. *)
Module StatsState.
Record t : Type := mk {
  totalIncome : Q;
  totalTax : Q;
  totalAfterTaxIncome : Q;
  peakTaxYear : option ProjectionYear.t
}.
End StatsState.

Definition statsStep (st : StatsState.t) (year : ProjectionYear.t) : StatsState.t :=
  StatsState.mk
    (StatsState.totalIncome st
     + YearWithdrawals.total (ProjectionYear.withdrawals year))
    (StatsState.totalTax st + YearTaxes.total (ProjectionYear.taxes year))
    (StatsState.totalAfterTaxIncome st + ProjectionYear.afterTaxIncome year)
    (match StatsState.peakTaxYear st with
     | None => Some year
     | Some peak =>
         if YearTaxes.total (ProjectionYear.taxes year)
            >? YearTaxes.total (ProjectionYear.taxes peak)
         then Some year else Some peak
     end).

Definition getProjectionStats (projection : RetirementProjection.t)
    : ProjectionStats.t :=
  let years := RetirementProjection.years projection in
  let yearsInRetirement := length years in
  match years with
  | [] => ProjectionStats.mk 0 None 0 0
  | _ :: _ =>
      let st := fold_left statsStep years (StatsState.mk 0 0 0 None) in
      let averageEffectiveRate :=
        if StatsState.totalIncome st >? 0
        then StatsState.totalTax st / StatsState.totalIncome st else 0 in
      ProjectionStats.mk averageEffectiveRate (StatsState.peakTaxYear st)
        yearsInRetirement (Math.round (StatsState.totalAfterTaxIncome st))
  end.

(** ** Further notions used in the statements below *)

(** A table whose brackets follow one another from [lo] upwards without gap
    or overlap, the last one unbounded. *)
Fixpoint contiguousFrom (lo : Q) (brackets : list TaxBracket.t) : Prop :=
  match brackets with
  | [] => False
  | b :: rest =>
      TaxBracket.min b == lo
      /\ match TaxBracket.max b with
         | Infinity => rest = []
         | Fin hi => lo < hi /\ contiguousFrom hi rest
         end
  end.

(** Every rate of the table lies in [[lo, hi]] and no bounded bracket has
    its top below its start. *)
Definition ratesWithin (lo hi : Q) (brackets : list TaxBracket.t) : Prop :=
  Forall (fun b =>
            lo <= TaxBracket.rate b /\ TaxBracket.rate b <= hi
            /\ match TaxBracket.max b with
               | Fin top => TaxBracket.min b <= top
               | Infinity => True
               end)
         brackets.

(** A portfolio in whole dollars: every balance is a non-negative whole
    number, every benefit a whole number, and the prior-year-end traditional
    balance (the current one when unset) is not above the current balance. *)
Definition wholeDollarPortfolio (portfolio : Portfolio.t) : Prop :=
  (0 <= traditionalBalanceOf portfolio
   /\ Math.round (traditionalBalanceOf portfolio) == traditionalBalanceOf portfolio)
  /\ (0 <= taxableBalanceOf portfolio
      /\ Math.round (taxableBalanceOf portfolio) == taxableBalanceOf portfolio)
  /\ (0 <= rothBalanceOf portfolio
      /\ Math.round (rothBalanceOf portfolio) == rothBalanceOf portfolio)
  /\ Math.round (ssAnnualOf portfolio) == ssAnnualOf portfolio
  /\ Math.round (pensionAnnualOf portfolio) == pensionAnnualOf portfolio
  /\ priorYearBalanceOf portfolio <= traditionalBalanceOf portfolio.

(** The sum of the five amounts of a strategy. *)
Definition strategyTotal (strategy : WithdrawalStrategy.t) : Q :=
  WithdrawalStrategy.traditionalWithdrawal strategy
  + WithdrawalStrategy.taxableWithdrawal strategy
  + WithdrawalStrategy.rothWithdrawal strategy
  + WithdrawalStrategy.socialSecurityIncome strategy
  + WithdrawalStrategy.pensionIncome strategy.

(** An amount in whole dollars. *)
Definition wholeAmount (x : Q) : Prop := Math.round x == x.

(** The three withdrawals of a strategy are whole dollars, as those of
    [generateStrategy] always are. *)
Definition wholeDollarStrategy (strategy : WithdrawalStrategy.t) : Prop :=
  wholeAmount (WithdrawalStrategy.traditionalWithdrawal strategy)
  /\ wholeAmount (WithdrawalStrategy.taxableWithdrawal strategy)
  /\ wholeAmount (WithdrawalStrategy.rothWithdrawal strategy).

(** A projection starts in whole dollars: the three balances of the
    portfolio and, when a first-year strategy is passed in, its three
    withdrawals. *)
Definition wholeDollarStart (portfolio : Portfolio.t)
    (initial : option (WithdrawalStrategy.t * TaxBreakdown.t)) : Prop :=
  wholeAmount (traditionalBalanceOf portfolio)
  /\ wholeAmount (taxableBalanceOf portfolio)
  /\ wholeAmount (rothBalanceOf portfolio)
  /\ match initial with
     | Some (strategy, _) => wholeDollarStrategy strategy
     | None => True
     end.

(** A year of a projection that withdraws the whole portfolio: from each
    account at least the balance the year records for it. *)
Definition withdrawsEverything (year : ProjectionYear.t) : Prop :=
  YearBalances.traditional (ProjectionYear.balances year)
  <= YearWithdrawals.traditional (ProjectionYear.withdrawals year)
  /\ YearBalances.taxable (ProjectionYear.balances year)
     <= YearWithdrawals.taxable (ProjectionYear.withdrawals year)
  /\ YearBalances.roth (ProjectionYear.balances year)
     <= YearWithdrawals.roth (ProjectionYear.withdrawals year).

(** The running balances of the projection loop are whole dollars. *)
Definition wholeRunning (r : Running.t) : Prop :=
  wholeAmount (Running.traditionalBalance r)
  /\ wholeAmount (Running.taxableBalance r)
  /\ wholeAmount (Running.rothBalance r).

(** * Properties *)

(** ** Arithmetic helpers *)

Lemma Qltb_true (x y : Q) : (x <? y) = true <-> x < y.
Proof.
  unfold Qltb; destruct (Qlt_le_dec x y) as [H | H]; split; intro K;
    try reflexivity; try assumption; try discriminate.
  exfalso; apply (Qlt_not_le _ _ K); exact H.
Qed.

Lemma Qltb_false (x y : Q) : (x <? y) = false <-> y <= x.
Proof.
  unfold Qltb; destruct (Qlt_le_dec x y) as [H | H]; split; intro K;
    try reflexivity; try assumption; try discriminate.
  exfalso; apply (Qlt_not_le _ _ H); exact K.
Qed.

Lemma Qleb_true (x y : Q) : (x <=? y) = true <-> x <= y.
Proof.
  unfold Qleb; destruct (Qlt_le_dec y x) as [H | H]; split; intro K;
    try reflexivity; try assumption; try discriminate.
  exfalso; apply (Qlt_not_le _ _ H); exact K.
Qed.

Lemma Qleb_false (x y : Q) : (x <=? y) = false <-> y < x.
Proof.
  unfold Qleb; destruct (Qlt_le_dec y x) as [H | H]; split; intro K;
    try reflexivity; try assumption; try discriminate.
  exfalso; apply (Qlt_not_le _ _ K); exact H.
Qed.

(** Split on a given boolean comparison, leaving its meaning as a
    hypothesis. *)
Ltac cmp_le x y :=
  let E := fresh "E" in
  destruct (Qleb x y) eqn:E; [apply Qleb_true in E | apply Qleb_false in E].

Ltac cmp_lt x y :=
  let E := fresh "E" in
  destruct (Qltb x y) eqn:E; [apply Qltb_true in E | apply Qltb_false in E].

(** Split on some boolean comparison of the goal. *)
Ltac cmp_goal :=
  match goal with
  | |- context [Qltb ?x ?y] =>
      let E := fresh "E" in
      destruct (Qltb x y) eqn:E; [apply Qltb_true in E | apply Qltb_false in E]
  | |- context [Qleb ?x ?y] =>
      let E := fresh "E" in
      destruct (Qleb x y) eqn:E; [apply Qleb_true in E | apply Qleb_false in E]
  end.

(** Replace one [Qmin] or [Qmax] of the goal or of a hypothesis by a
    variable with its two defining cases. *)
Ltac minmax_at a b spec op :=
  let H := fresh "Hm" in let K := fresh "Km" in let m := fresh "m" in
  destruct (spec a b) as [[H K] | [H K]];
  set (m := op a b) in *; clearbody m.

Ltac minmax_goal :=
  match goal with
  | |- context [Qmin ?a ?b] => minmax_at a b Q.min_spec Qmin
  | |- context [Qmax ?a ?b] => minmax_at a b Q.max_spec Qmax
  | _ : context [Qmin ?a ?b] |- _ => minmax_at a b Q.min_spec Qmin
  | _ : context [Qmax ?a ?b] |- _ => minmax_at a b Q.max_spec Qmax
  end.

Lemma round_mono (x y : Q) : x <= y -> Math.round x <= Math.round y.
Proof.
  intro H. unfold Math.round. rewrite <- Zle_Qle.
  apply Qfloor_resp_le. lra.
Qed.

Lemma round_Z (z : Z) : Math.round (inject_Z z) == inject_Z z.
Proof.
  unfold Math.round.
  assert (H : Qfloor (inject_Z z + 0.5) = z).
  { pose proof (Qfloor_le (inject_Z z + 0.5)) as H1.
    pose proof (Qlt_floor (inject_Z z + 0.5)) as H2.
    assert (A : inject_Z (Qfloor (inject_Z z + 0.5)) < inject_Z (z + 1)).
    { rewrite inject_Z_plus. apply Qle_lt_trans with (inject_Z z + 0.5); [exact H1 | ].
      change (inject_Z 1) with 1. lra. }
    assert (B : inject_Z (z - 1) < inject_Z (Qfloor (inject_Z z + 0.5))).
    { rewrite inject_Z_plus in H2. change (inject_Z 1) with 1 in H2.
      replace (z - 1)%Z with (z + (-1))%Z by lia.
      rewrite inject_Z_plus. change (inject_Z (-1)) with (-1). lra. }
    rewrite <- Zlt_Qlt in A, B. lia. }
  rewrite H. reflexivity.
Qed.

Lemma round_nonneg (x : Q) : 0 <= x -> 0 <= Math.round x.
Proof.
  intro H. apply Qle_trans with (Math.round 0).
  - vm_compute. discriminate.
  - apply round_mono; exact H.
Qed.

Lemma round_upper (x : Q) : Math.round x <= x + 0.5.
Proof. unfold Math.round. apply Qfloor_le. Qed.

Lemma round_lower (x : Q) : x - 0.5 < Math.round x.
Proof.
  unfold Math.round. pose proof (Qlt_floor (x + 0.5)) as H.
  rewrite inject_Z_plus in H. change (inject_Z 1) with 1 in H. lra.
Qed.

(** ** Social Security taxability (engine/socialSecurity.ts) *)

Ltac ss_cases :=
  unfold calculateSocialSecurityTaxable, ssThresholds,
         SS_TAXATION_THRESHOLDS.single, SS_TAXATION_THRESHOLDS.mfj;
  cbn [zeroThreshold fiftyThreshold SSResult.taxableAmount
       SSResult.taxablePercent SSResult.provisionalIncome];
  repeat (cmp_goal; cbn [SSResult.taxableAmount SSResult.taxablePercent
                         SSResult.provisionalIncome]).

Ltac round_le :=
  first [ apply Qle_refl
        | apply round_mono; unfold Math.min, Math.max; repeat minmax_goal; lra
        | exfalso; lra ].

Lemma ss_taxable_mono (B e : Q) (s : FilingStatus) (o1 o2 : Q) :
  0 < B -> o1 <= o2 ->
  SSResult.taxableAmount (calculateSocialSecurityTaxable B o1 e s)
  <= SSResult.taxableAmount (calculateSocialSecurityTaxable B o2 e s).
Proof.
  intros HB Ho. destruct s; ss_cases; round_le.
Qed.

Lemma ss_taxable_cap (B o e : Q) (s : FilingStatus) :
  0 < B ->
  SSResult.taxableAmount (calculateSocialSecurityTaxable B o e s)
  <= Math.round (0.85 * B).
Proof.
  intros HB. destruct s; ss_cases; round_le.
Qed.

Lemma ss_taxable_nonneg (B o e : Q) (s : FilingStatus) :
  0 <= SSResult.taxableAmount (calculateSocialSecurityTaxable B o e s).
Proof.
  destruct s; ss_cases; try apply Qle_refl;
    try (apply round_nonneg; unfold Math.min; repeat minmax_goal; lra).
Qed.

(** C4 as stated fails: with a benefit of $10 and other income of $100,000
    (single filer) the unrounded taxable amount is 8.5 = 0.85 * 10, and
    rounding to whole dollars returns 9, above 0.85 * benefit. *)
Lemma ss_taxable_cap_counterexample :
  0 < 10 /\
  ~ (SSResult.taxableAmount (calculateSocialSecurityTaxable 10 100000 0 single)
     <= 0.85 * 10).
Proof.
  split; [reflexivity | ].
  intro H. vm_compute in H. apply H. reflexivity.
Qed.

(** C4 (amended): for a fixed benefit B > 0, tax-exempt interest and filing
    status, the taxable amount is non-decreasing in other income, and it
    never exceeds 0.85 * B rounded to whole dollars (so it stays within half
    a dollar of 0.85 * B). *)
Theorem ss_taxable_monotone_and_capped (B e : Q) (s : FilingStatus) :
  0 < B ->
  (forall o1 o2, o1 <= o2 ->
     SSResult.taxableAmount (calculateSocialSecurityTaxable B o1 e s)
     <= SSResult.taxableAmount (calculateSocialSecurityTaxable B o2 e s))
  /\ (forall o,
        SSResult.taxableAmount (calculateSocialSecurityTaxable B o e s)
        <= Math.round (0.85 * B)
        /\ SSResult.taxableAmount (calculateSocialSecurityTaxable B o e s)
           <= 0.85 * B + 0.5).
Proof.
  intro HB. split.
  - intros o1 o2 Ho. apply ss_taxable_mono; assumption.
  - intro o. split.
    + apply ss_taxable_cap; exact HB.
    + apply Qle_trans with (Math.round (0.85 * B)).
      * apply ss_taxable_cap; exact HB.
      * apply round_upper.
Qed.

Lemma ss_taxable_monotone_and_capped_witness :
  0 < 10 /\
  (SSResult.taxableAmount (calculateSocialSecurityTaxable 10 30000 0 single)
   <= SSResult.taxableAmount (calculateSocialSecurityTaxable 10 100000 0 single))
  /\ SSResult.taxableAmount (calculateSocialSecurityTaxable 10 100000 0 single)
     <= Math.round (0.85 * 10).
Proof.
  assert (HB : 0 < 10) by reflexivity.
  split; [exact HB | ].
  destruct (ss_taxable_monotone_and_capped 10 0 single HB) as [Hmono Hcap].
  split.
  - apply Hmono. vm_compute. discriminate.
  - apply (Hcap 100000).
Defined.

(** C5 as stated fails for benefits under one dollar: with B = 0.50 and
    other income 25000.75 the provisional income is exactly 25001, the
    unrounded taxable amount is min(0.25, 0.50) = 0.25, and it rounds to 0. *)
Lemma ss_one_dollar_above_counterexample :
  0 < 0.5 /\
  25000.75 + 0 + 0.5 * 0.5 == 25001 /\
  ~ (0 < SSResult.taxableAmount
           (calculateSocialSecurityTaxable 0.5 25000.75 0 single)).
Proof.
  split; [reflexivity | ]. split; [reflexivity | ].
  intro H. vm_compute in H. discriminate H.
Qed.

(** C5 (amended): for a single filer with benefit B > 0, provisional income
    of exactly $25,000 gives taxable amount 0; and with benefit B >= 1,
    provisional income of exactly $25,001 gives a taxable amount > 0
    (it is $1). *)
Theorem ss_zero_threshold_boundary (B o e : Q) :
  0 < B ->
  (o + e + 0.5 * B == 25000 ->
     SSResult.taxableAmount (calculateSocialSecurityTaxable B o e single) == 0)
  /\ (1 <= B -> o + e + 0.5 * B == 25001 ->
        0 < SSResult.taxableAmount (calculateSocialSecurityTaxable B o e single)
        /\ SSResult.taxableAmount (calculateSocialSecurityTaxable B o e single) == 1).
Proof.
  intro HB. split.
  - intro Hp. ss_cases; try (exfalso; lra). reflexivity.
  - intros H1 Hp.
    assert (R : SSResult.taxableAmount (calculateSocialSecurityTaxable B o e single) == 1).
    { ss_cases; try (exfalso; lra).
      assert (Hmin : Math.min (B * 0.5) ((o + e + B * 0.5 - 25000) * 0.5) == 0.5).
      { unfold Math.min. repeat minmax_goal; lra. }
      unfold Math.round. rewrite Hmin. reflexivity. }
    split; [rewrite R; reflexivity | exact R].
Qed.

Lemma ss_zero_threshold_boundary_witness :
  SSResult.taxableAmount (calculateSocialSecurityTaxable 20000 15000 0 single) == 0
  /\ 0 < SSResult.taxableAmount (calculateSocialSecurityTaxable 20000 15001 0 single).
Proof.
  assert (HB : 0 < 20000) by reflexivity.
  split.
  - apply (proj1 (ss_zero_threshold_boundary 20000 15000 0 HB)). reflexivity.
  - apply (proj2 (ss_zero_threshold_boundary 20000 15001 0 HB)).
    + vm_compute. discriminate.
    + reflexivity.
Defined.

(** C9: with no benefit (ssBenefits <= 0) the calculator short-circuits:
    taxable amount, taxable percent and the reported provisional income are
    all 0, whatever the other income and the tax-exempt interest. *)
Theorem ss_no_benefit_short_circuit (B o e : Q) (s : FilingStatus) :
  B <= 0 ->
  calculateSocialSecurityTaxable B o e s = SSResult.mk 0 0 0.
Proof.
  intro HB. unfold calculateSocialSecurityTaxable.
  cmp_goal; [reflexivity | exfalso; lra].
Qed.

Lemma ss_no_benefit_short_circuit_witness :
  SSResult.provisionalIncome (calculateSocialSecurityTaxable 0 40000 500 single) = 0
  /\ ~ (40000 + 500 + 0 * 0.5 == 0).
Proof.
  split.
  - rewrite (ss_no_benefit_short_circuit 0 40000 500 single); [reflexivity | ].
    vm_compute. discriminate.
  - intro H. vm_compute in H. discriminate H.
Defined.

(** ** Required minimum distributions (engine/rmd.ts, constants/rmdTables.ts) *)

Lemma tableGet_beyond (table : list (Z * Q)) (bound key : Z) :
  Forall (fun entry => (fst entry <= bound)%Z) table ->
  (bound < key)%Z -> tableGet table key = None.
Proof.
  induction 1 as [ | [k v] rest Hk _ IH]; intro Hlt; simpl.
  - reflexivity.
  - simpl in Hk. destruct (Z.eqb_spec k key) as [-> | _]; [lia | exact (IH Hlt)].
Qed.

Lemma table_keys_bounded :
  Forall (fun entry => (fst entry <= 120)%Z) UNIFORM_LIFETIME_TABLE.
Proof. unfold UNIFORM_LIFETIME_TABLE. repeat constructor; simpl; lia. Qed.

Lemma table_covers_rmd_ages (age : Z) :
  (73 <= age <= 120)%Z -> tableGet UNIFORM_LIFETIME_TABLE age <> None.
Proof.
  intro H.
  assert (Hall : forallb
            (fun a => match tableGet UNIFORM_LIFETIME_TABLE a with
                      | Some _ => true | None => false end)
            (map Z.of_nat (seq 73 48)) = true) by (vm_compute; reflexivity).
  rewrite forallb_forall in Hall.
  specialize (Hall age).
  assert (Hin : In age (map Z.of_nat (seq 73 48))).
  { apply in_map_iff. exists (Z.to_nat age). split; [lia | apply in_seq; lia]. }
  apply Hall in Hin. destruct (tableGet UNIFORM_LIFETIME_TABLE age); congruence.
Qed.

Lemma getDistributionPeriod_clamped (age : Z) :
  (73 <= age)%Z -> getDistributionPeriod age = uniformLifetimeDivisor age.
Proof.
  intro H. unfold getDistributionPeriod, uniformLifetimeDivisor, RMD_START_AGE.
  destruct (Z.ltb_spec age 73) as [Hlt | _]; [lia | ].
  destruct (Z_le_gt_dec age 120) as [Hle | Hgt].
  - rewrite Z.min_l by exact Hle.
    pose proof (table_covers_rmd_ages age (conj H Hle)) as Hsome.
    destruct (tableGet UNIFORM_LIFETIME_TABLE age); [reflexivity | congruence].
  - rewrite Z.min_r by lia.
    rewrite (tableGet_beyond _ 120 age table_keys_bounded) by lia.
    reflexivity.
Qed.

(** C6: below age 73, or with a balance that is not positive, no RMD is
    required and the amount is 0; from age 73 on with a positive balance B
    the RMD is required and amounts to round(B / D(age)), D being the
    Uniform Lifetime Table divisor with ages beyond 120 reading the age-120
    entry; D(73) = 26.5, so at 73 the amount is round(B / 26.5). *)
Theorem calculateRMD_rule (age : Z) (B : Q) :
  ((age < 73)%Z \/ B <= 0 ->
     RMDInfo.isRequired (calculateRMD age B) = false
     /\ RMDInfo.amount (calculateRMD age B) = 0)
  /\ ((73 <= age)%Z /\ 0 < B ->
        RMDInfo.isRequired (calculateRMD age B) = true
        /\ RMDInfo.amount (calculateRMD age B)
           = Math.round (B / uniformLifetimeDivisor age))
  /\ uniformLifetimeDivisor 73 = 26.5
  /\ uniformLifetimeDivisor 121 = uniformLifetimeDivisor 120
  /\ (0 < B -> RMDInfo.amount (calculateRMD 73 B) = Math.round (B / 26.5)).
Proof.
  assert (Hreq : (73 <= age)%Z /\ 0 < B ->
      calculateRMD age B
      = RMDInfo.mk true (Math.round (B / getDistributionPeriod age)) age B
          (getDistributionPeriod age)).
  { intros [Ha Hb]. unfold calculateRMD, RMD_START_AGE.
    destruct (Z.ltb_spec age 73) as [Hlt | _]; [lia | ].
    cmp_goal; [exfalso; lra | reflexivity]. }
  split; [ | split; [ | split; [ | split]]].
  - intros [Ha | Hb]; unfold calculateRMD, RMD_START_AGE.
    + destruct (Z.ltb_spec age 73) as [_ | Hge]; [ | lia]. split; reflexivity.
    + destruct (age <? 73)%Z; simpl; [split; reflexivity | ].
      cmp_goal; [split; reflexivity | exfalso; lra].
  - intros [Ha Hb]. rewrite (Hreq (conj Ha Hb)). simpl.
    rewrite (getDistributionPeriod_clamped age Ha). split; reflexivity.
  - reflexivity.
  - reflexivity.
  - intro Hb. unfold calculateRMD, RMD_START_AGE.
    change (73 <? 73)%Z with false. simpl.
    cmp_goal; [exfalso; lra | reflexivity].
Qed.

Lemma calculateRMD_rule_witness :
  (RMDInfo.isRequired (calculateRMD 72 500000) = false
   /\ RMDInfo.amount (calculateRMD 72 500000) = 0)
  /\ (RMDInfo.isRequired (calculateRMD 73 500000) = true
      /\ RMDInfo.amount (calculateRMD 73 500000)
         = Math.round (500000 / uniformLifetimeDivisor 73))
  /\ RMDInfo.amount (calculateRMD 73 500000) = Math.round (500000 / 26.5).
Proof.
  split; [ | split].
  - apply (proj1 (calculateRMD_rule 72 500000)). left. lia.
  - apply (proj1 (proj2 (calculateRMD_rule 73 500000))).
    split; [lia | reflexivity].
  - apply (proj2 (proj2 (proj2 (proj2 (calculateRMD_rule 73 500000))))).
    reflexivity.
Defined.

Example calculateRMD_500000_at_73 :
  RMDInfo.amount (calculateRMD 73 500000) == 18868.
Proof. vm_compute. reflexivity. Qed.

(** ** Ordinary-income brackets (engine/taxBrackets.ts) *)

Lemma Qsum_app (l1 l2 : list Q) : Qsum (l1 ++ l2) == Qsum l1 + Qsum l2.
Proof.
  induction l1 as [ | x l1 IH]; simpl.
  - lra.
  - rewrite IH. lra.
Qed.

Lemma ordinaryLoop_done (brackets : list TaxBracket.t)
    (srcs : list IncomeSource.t) (total : Q) (st : OrdState.t) :
  OrdState.remainingIncome st <= 0 ->
  ordinaryLoop brackets srcs total st = st.
Proof.
  intro H. destruct brackets as [ | b rest]; simpl; [reflexivity | ].
  cmp_le (OrdState.remainingIncome st) 0; [reflexivity | exfalso; lra].
Qed.

(** What the bracket walk preserves: income placed plus income left, and
    the tax total against the per-bracket taxes. *)
Lemma ordinaryLoop_balance (brackets : list TaxBracket.t)
    (srcs : list IncomeSource.t) (total : Q) (st : OrdState.t) :
  let st' := ordinaryLoop brackets srcs total st in
  Qsum (map BracketFill.incomeInBracket (OrdState.bracketFill st'))
    + OrdState.remainingIncome st'
  == Qsum (map BracketFill.incomeInBracket (OrdState.bracketFill st))
     + OrdState.remainingIncome st
  /\ Qsum (map BracketFill.taxFromBracket (OrdState.bracketFill st'))
       - OrdState.totalTax st'
     == Qsum (map BracketFill.taxFromBracket (OrdState.bracketFill st))
        - OrdState.totalTax st.
Proof.
  revert st. induction brackets as [ | b rest IH]; intro st; simpl.
  - split; reflexivity.
  - cmp_le (OrdState.remainingIncome st) 0; [split; reflexivity | ].
    match goal with
    | |- context [ordinaryLoop rest srcs total ?s] => destruct (IH s) as [H1 H2]
    end.
    cbn [OrdState.bracketFill OrdState.remainingIncome OrdState.totalTax] in H1, H2.
    rewrite !map_app, !Qsum_app in H1, H2.
    cbn [map Qsum fold_right BracketFill.incomeInBracket
         BracketFill.taxFromBracket] in H1, H2.
    split; lra.
Qed.

Lemma ordinaryLoop_remaining_nonneg (brackets : list TaxBracket.t)
    (srcs : list IncomeSource.t) (total : Q) (st : OrdState.t) :
  0 <= OrdState.remainingIncome st ->
  0 <= OrdState.remainingIncome (ordinaryLoop brackets srcs total st).
Proof.
  revert st. induction brackets as [ | b rest IH]; intros st H; simpl.
  - exact H.
  - cmp_le (OrdState.remainingIncome st) 0; [exact H | ].
    apply IH. cbn [OrdState.remainingIncome].
    destruct (TaxBracket.max b) as [top | ]; simpl.
    + pose proof (Q.le_min_l (OrdState.remainingIncome st) (top - TaxBracket.min b)).
      lra.
    + lra.
Qed.

Lemma ordinaryLoop_exhausts (brackets : list TaxBracket.t)
    (srcs : list IncomeSource.t) (total : Q) (st : OrdState.t) :
  Exists (fun b => TaxBracket.max b = Infinity) brackets ->
  OrdState.remainingIncome (ordinaryLoop brackets srcs total st) <= 0.
Proof.
  intro Hex. revert st.
  induction Hex as [b rest Hb | b rest _ IH]; intro st; simpl.
  - cmp_le (OrdState.remainingIncome st) 0; [assumption | ].
    rewrite Hb. cbn [num_sub num_min].
    rewrite ordinaryLoop_done; cbn [OrdState.remainingIncome]; lra.
  - cmp_le (OrdState.remainingIncome st) 0; [assumption | apply IH].
Qed.

Lemma federal_top_unbounded (s : FilingStatus) :
  Exists (fun b => TaxBracket.max b = Infinity) (FEDERAL_BRACKETS s)
  /\ topOfBrackets (FEDERAL_BRACKETS s) = Infinity.
Proof.
  destruct s; (split; [ | reflexivity]);
    unfold FEDERAL_BRACKETS; do 6 apply Exists_cons_tl;
    apply Exists_cons_hd; reflexivity.
Qed.

(** C2: for every taxable income I >= 0, filing status and list of
    attributed sources, the incomeInBracket entries of the returned fill sum
    to min(I, top of the highest bracket), which is I because the top
    bracket is unbounded, and the taxFromBracket entries sum to the returned
    tax. *)
Theorem ordinary_bracket_coverage (I : Q) (s : FilingStatus)
    (srcs : list IncomeSource.t) :
  0 <= I ->
  let result := calculateOrdinaryIncomeTax I s srcs in
  Qsum (map BracketFill.incomeInBracket (OrdinaryTaxResult.bracketFill result))
    == num_min I (topOfBrackets (FEDERAL_BRACKETS s))
  /\ Qsum (map BracketFill.incomeInBracket (OrdinaryTaxResult.bracketFill result))
     == I
  /\ Qsum (map BracketFill.taxFromBracket (OrdinaryTaxResult.bracketFill result))
     == OrdinaryTaxResult.tax result.
Proof.
  intros HI result. subst result. unfold calculateOrdinaryIncomeTax.
  cbn [OrdinaryTaxResult.bracketFill OrdinaryTaxResult.tax].
  set (total := fold_left _ srcs 0).
  set (st0 := OrdState.mk (Math.max 0 I) 0 [] 0).
  destruct (ordinaryLoop_balance (FEDERAL_BRACKETS s) srcs total st0) as [H1 H2].
  pose proof (ordinaryLoop_exhausts (FEDERAL_BRACKETS s) srcs total st0
                (proj1 (federal_top_unbounded s))) as Hle.
  assert (H0 : 0 <= OrdState.remainingIncome st0).
  { subst st0. cbn [OrdState.remainingIncome]. unfold Math.max.
    apply Q.le_max_l. }
  pose proof (ordinaryLoop_remaining_nonneg (FEDERAL_BRACKETS s) srcs total st0 H0)
    as Hge.
  assert (Hmax : Math.max 0 I == I).
  { unfold Math.max. apply Q.max_r. exact HI. }
  subst st0.
  cbn [OrdState.bracketFill OrdState.remainingIncome OrdState.totalTax map Qsum
       fold_right] in H1, H2.
  rewrite (proj2 (federal_top_unbounded s)). cbn [num_min].
  repeat split; lra.
Qed.

Lemma ordinary_bracket_coverage_witness :
  Qsum (map BracketFill.incomeInBracket
          (OrdinaryTaxResult.bracketFill
             (calculateOrdinaryIncomeTax 60000 single
                [IncomeSource.mk acc_traditional 50000 ordinary;
                 IncomeSource.mk acc_pension 26100 ordinary])))
  == 60000.
Proof.
  apply (ordinary_bracket_coverage 60000 single
           [IncomeSource.mk acc_traditional 50000 ordinary;
            IncomeSource.mk acc_pension 26100 ordinary]).
  vm_compute. discriminate.
Defined.

Example ordinary_tax_60000_single :
  OrdinaryTaxResult.tax (calculateOrdinaryIncomeTax 60000 single []) == 7912.
Proof. vm_compute. reflexivity. Qed.

Example ordinary_fill_60000_single :
  map BracketFill.incomeInBracket
    (OrdinaryTaxResult.bracketFill (calculateOrdinaryIncomeTax 60000 single []))
  = [12400 - 0; 50400 - 12400; 60000 - (12400 - 0) - (50400 - 12400)].
Proof. vm_compute. reflexivity. Qed.

(** ** Capital-gains stacking (engine/capitalGains.ts) *)

Lemma capitalGainsLoop_done (brackets : list TaxBracket.t) (st : GainsState.t) :
  GainsState.remainingGains st <= 0 -> capitalGainsLoop brackets st = st.
Proof.
  intro H. destruct brackets as [ | b rest]; simpl; [reflexivity | ].
  cmp_le (GainsState.remainingGains st) 0; [reflexivity | exfalso; lra].
Qed.

(** The tax total is an accumulator: the walk adds the same amount whatever
    total and breakdown it starts from. *)
Lemma capitalGainsLoop_acc (brackets : list TaxBracket.t) :
  forall (t R : Q) (bd : list GainsEntry.t) (P : num),
    GainsState.totalTax (capitalGainsLoop brackets (GainsState.mk t R bd P))
    == t + gainsTaxFrom brackets R P.
Proof.
  unfold gainsTaxFrom.
  induction brackets as [ | b rest IH]; intros t R bd P; simpl.
  - lra.
  - cbn [GainsState.remainingGains GainsState.incomeProcessed
         GainsState.totalTax GainsState.bracketBreakdown].
    cmp_le R 0; [simpl; lra | ].
    destruct P as [p | ]; [ | apply IH].
    destruct (num_ge p (TaxBracket.max b)); [apply IH | ].
    match goal with
    | |- context [Qltb 0 ?g] => cmp_lt 0 g
    end.
    + rewrite IH. symmetry. rewrite IH. lra.
    + apply IH.
Qed.

Lemma gainsTaxFrom_done (brackets : list TaxBracket.t) (R : Q) (P : num) :
  R <= 0 -> gainsTaxFrom brackets R P == 0.
Proof.
  intro H. unfold gainsTaxFrom. rewrite capitalGainsLoop_done; [reflexivity | exact H].
Qed.

(** One bracket of the walk, as an equation on the tax added. *)
Lemma gainsTaxFrom_cons (b : TaxBracket.t) (rest : list TaxBracket.t) (R p : Q) :
  0 < R ->
  gainsTaxFrom (b :: rest) R (Fin p)
  == if num_ge p (TaxBracket.max b) then gainsTaxFrom rest R (Fin p)
     else
       let g := num_min R (num_sub (TaxBracket.max b)
                             (Math.max (TaxBracket.min b) p)) in
       if g >? 0
       then g * TaxBracket.rate b + gainsTaxFrom rest (R - g) (TaxBracket.max b)
       else gainsTaxFrom rest R (TaxBracket.max b).
Proof.
  intro HR. unfold gainsTaxFrom at 1. simpl.
  cbn [GainsState.remainingGains GainsState.incomeProcessed
       GainsState.totalTax GainsState.bracketBreakdown].
  cmp_le R 0; [exfalso; lra | ].
  destruct (num_ge p (TaxBracket.max b)); [reflexivity | ].
  cbv zeta.
  match goal with
  | |- context [Qltb 0 ?g] => cmp_lt 0 g
  end.
  - rewrite capitalGainsLoop_acc. lra.
  - rewrite capitalGainsLoop_acc. lra.
Qed.

(** Each further dollar of gains is taxed at the table's lowest rate at
    least. *)
Lemma gainsTaxFrom_slope (floor : Q) (brackets : list TaxBracket.t) :
  stacked floor brackets ->
  forall p R' R'', 0 <= R'' -> R'' <= R' ->
    floor * (R' - R'')
    <= gainsTaxFrom brackets R' (Fin p) - gainsTaxFrom brackets R'' (Fin p).
Proof.
  induction 1 as [floor b Hb Hr | floor b top rest Hb Hr Hrest IH];
    intros p R' R'' H0 Hle.
  - (* the unbounded top bracket *)
    destruct (Qlt_le_dec 0 R') as [HR' | HR'].
    + rewrite (gainsTaxFrom_cons b [] R' p HR'). rewrite Hb.
      cbn [num_ge num_sub num_min]. cbv zeta.
      cmp_lt 0 R'; [ | exfalso; lra].
      destruct (Qlt_le_dec 0 R'') as [HR'' | HR''].
      * rewrite (gainsTaxFrom_cons b [] R'' p HR''). rewrite Hb.
        cbn [num_ge num_sub num_min]. cbv zeta.
        cmp_lt 0 R''; [ | exfalso; lra].
        rewrite !gainsTaxFrom_done by lra. nra.
      * rewrite (gainsTaxFrom_done _ R'') by exact HR''.
        assert (Z0 : R'' == 0) by lra. rewrite Z0.
        rewrite !gainsTaxFrom_done by lra. nra.
    + assert (Z0 : R'' == 0) by lra. assert (Z1 : R' == 0) by lra.
      rewrite !gainsTaxFrom_done by lra. rewrite Z0, Z1. lra.
  - (* a bounded bracket *)
    destruct (Qlt_le_dec 0 R') as [HR' | HR'];
      [ | assert (Z0 : R'' == 0) by lra; assert (Z1 : R' == 0) by lra;
          rewrite !gainsTaxFrom_done by lra; rewrite Z0, Z1; lra ].
    rewrite (gainsTaxFrom_cons b rest R' p HR'). rewrite Hb.
    destruct (Qlt_le_dec 0 R'') as [HR'' | HR''].
    + rewrite (gainsTaxFrom_cons b rest R'' p HR''). rewrite Hb.
      cbn [num_ge num_sub num_min]. cbv zeta.
      cmp_le top p.
      * pose proof (IH p R' R'' H0 Hle). nra.
      * set (room := top - Math.max (TaxBracket.min b) p).
        destruct (Q.min_spec R' room) as [[A1 A2] | [A1 A2]];
        destruct (Q.min_spec R'' room) as [[B1 B2] | [B1 B2]];
        set (g' := Qmin R' room) in *; set (g'' := Qmin R'' room) in *;
        clearbody g' g'';
        cmp_lt 0 g'; cmp_lt 0 g''; try (exfalso; lra);
        first
          [ pose proof (IH top (R' - g') (R'' - g'') ltac:(lra) ltac:(lra)); nra
          | pose proof (IH top R' (R'' - g'') ltac:(lra) ltac:(lra)); nra
          | pose proof (IH top (R' - g') R'' ltac:(lra) ltac:(lra)); nra
          | pose proof (IH top R' R'' ltac:(lra) ltac:(lra)); nra ].
    + rewrite (gainsTaxFrom_done _ R'') by exact HR''.
      assert (Z0 : R'' == 0) by lra. rewrite Z0.
      cbn [num_ge num_sub num_min]. cbv zeta.
      cmp_le top p.
      * pose proof (IH p R' 0 ltac:(lra) ltac:(lra)) as K.
        rewrite (gainsTaxFrom_done rest 0) in K by lra. nra.
      * set (room := top - Math.max (TaxBracket.min b) p).
        destruct (Q.min_spec R' room) as [[A1 A2] | [A1 A2]];
        set (g' := Qmin R' room) in *; clearbody g';
        cmp_lt 0 g';
        first
          [ pose proof (IH top (R' - g') 0 ltac:(lra) ltac:(lra)) as K;
            rewrite (gainsTaxFrom_done rest 0) in K by lra; nra
          | pose proof (IH top R' 0 ltac:(lra) ltac:(lra)) as K;
            rewrite (gainsTaxFrom_done rest 0) in K by lra; nra ].
Qed.

(** Raising the income the gains stack on never lowers the tax. *)
Lemma gainsTaxFrom_mono (floor : Q) (brackets : list TaxBracket.t) :
  stacked floor brackets ->
  forall R p1 p2, p1 <= p2 ->
    gainsTaxFrom brackets R (Fin p1) <= gainsTaxFrom brackets R (Fin p2).
Proof.
  induction 1 as [floor b Hb Hr | floor b top rest Hb Hr Hrest IH];
    intros R p1 p2 Hp;
    (destruct (Qlt_le_dec 0 R) as [HR | HR];
     [ | rewrite !gainsTaxFrom_done by exact HR; lra]).
  - rewrite (gainsTaxFrom_cons b [] R p1 HR), (gainsTaxFrom_cons b [] R p2 HR).
    rewrite Hb. cbn [num_ge num_sub num_min]. cbv zeta. lra.
  - rewrite (gainsTaxFrom_cons b rest R p1 HR), (gainsTaxFrom_cons b rest R p2 HR).
    rewrite Hb. cbn [num_ge num_sub num_min]. cbv zeta.
    pose proof (gainsTaxFrom_slope _ _ Hrest) as Slope.
    cmp_le top p1; cmp_le top p2; try (exfalso; lra).
    + apply IH; exact Hp.
    + (* the first walk takes gains in this bracket, the second skips it *)
      set (room1 := top - Math.max (TaxBracket.min b) p1).
      destruct (Q.min_spec R room1) as [[A1 A2] | [A1 A2]];
      set (g1 := Qmin R room1) in *; clearbody g1;
      cmp_lt 0 g1;
      pose proof (IH R top p2 ltac:(lra));
      first
        [ pose proof (Slope top R (R - g1) ltac:(lra) ltac:(lra)); nra
        | lra ].
    + (* both walks take gains in this bracket *)
      unfold Math.max.
      pose proof (Q.max_le_compat_l p1 p2 (TaxBracket.min b) Hp) as Hmax.
      set (s1 := Qmax (TaxBracket.min b) p1) in *.
      set (s2 := Qmax (TaxBracket.min b) p2) in *. clearbody s1 s2.
      destruct (Q.min_spec R (top - s1)) as [[A1 A2] | [A1 A2]];
      destruct (Q.min_spec R (top - s2)) as [[B1 B2] | [B1 B2]];
      set (g1 := Qmin R (top - s1)) in *; set (g2 := Qmin R (top - s2)) in *;
      clearbody g1 g2;
      cmp_lt 0 g1; cmp_lt 0 g2; try (exfalso; lra);
      first
        [ pose proof (Slope top (R - g2) (R - g1) ltac:(lra) ltac:(lra)); nra
        | pose proof (Slope top R (R - g1) ltac:(lra) ltac:(lra)); nra
        | lra ].
Qed.

Lemma capital_gains_stacked (s : FilingStatus) :
  stacked 0 (CAPITAL_GAINS_BRACKETS s).
Proof.
  destruct s; unfold CAPITAL_GAINS_BRACKETS;
    (eapply stacked_cons; [reflexivity | simpl; lra | ]);
    (eapply stacked_cons; [reflexivity | simpl; lra | ]);
    (apply stacked_top; [reflexivity | simpl; lra]).
Qed.

Lemma calculateCapitalGainsTax_tax (G O : Q) (s : FilingStatus) :
  CapitalGainsResult.tax (calculateCapitalGainsTax G O s)
  == gainsTaxFrom (CAPITAL_GAINS_BRACKETS s) G (Fin O).
Proof.
  unfold calculateCapitalGainsTax. cmp_le G 0.
  - cbn [CapitalGainsResult.tax]. rewrite gainsTaxFrom_done by exact E. reflexivity.
  - cbn [CapitalGainsResult.tax]. reflexivity.
Qed.

(** C3: for fixed long-term gains G >= 0 and filing status, the tax of
    calculateCapitalGainsTax is non-decreasing in the taxable ordinary
    income the gains stack on: O1 <= O2 (both >= 0) gives
    tax(G, O1) <= tax(G, O2). *)
Theorem capital_gains_tax_monotone_in_ordinary_income
    (G O1 O2 : Q) (s : FilingStatus) :
  0 <= G -> 0 <= O1 -> O1 <= O2 ->
  CapitalGainsResult.tax (calculateCapitalGainsTax G O1 s)
  <= CapitalGainsResult.tax (calculateCapitalGainsTax G O2 s).
Proof.
  intros _ _ HO. rewrite !calculateCapitalGainsTax_tax.
  apply (gainsTaxFrom_mono 0 _ (capital_gains_stacked s)). exact HO.
Qed.

Lemma capital_gains_tax_monotone_in_ordinary_income_witness :
  CapitalGainsResult.tax (calculateCapitalGainsTax 20000 40000 single)
  <= CapitalGainsResult.tax (calculateCapitalGainsTax 20000 540000 single).
Proof.
  apply (capital_gains_tax_monotone_in_ordinary_income 20000 40000 540000 single);
    vm_compute; discriminate.
Defined.

Example capital_gains_tax_stacking_single :
  CapitalGainsResult.tax (calculateCapitalGainsTax 20000 40000 single) == 1582.5
  /\ CapitalGainsResult.tax (calculateCapitalGainsTax 20000 540000 single) == 3725.
Proof. split; vm_compute; reflexivity. Qed.

(** ** Tax breakdown (engine/calculateTax.ts) *)

Lemma guarded_ratio_zero (n d : Q) :
  d <= 0 -> (if d >? 0 then n / d else 0) = 0.
Proof. intro H. cmp_lt 0 d; [exfalso; lra | reflexivity]. Qed.

Lemma breakdown_effectiveRate (s : WithdrawalStrategy.t) (p : Portfolio.t)
    (g : IncomeGoal.t) :
  let b := calculateTaxBreakdown s p g in
  TaxBreakdown.effectiveRate b
  = (if TaxBreakdown.grossIncome b >? 0
     then TaxBreakdown.totalTax b / TaxBreakdown.grossIncome b else 0)
  /\ TaxBreakdown.effectiveRateOnAGI b
     = (if TaxBreakdown.adjustedGrossIncome b >? 0
        then TaxBreakdown.totalTax b / TaxBreakdown.adjustedGrossIncome b else 0)
  /\ TaxBreakdown.effectiveRateOnTaxable b
     = (if TaxBreakdown.taxableIncome b >? 0
        then TaxBreakdown.totalTax b / TaxBreakdown.taxableIncome b else 0).
Proof. repeat split. Qed.

Lemma breakdown_longTermCapitalGains (s : WithdrawalStrategy.t) (p : Portfolio.t)
    (g : IncomeGoal.t) :
  TaxBreakdown.longTermCapitalGains (calculateTaxBreakdown s p g)
  = longTermCapitalGainsOf (Portfolio.taxable p)
      (WithdrawalStrategy.taxableWithdrawal s).
Proof. reflexivity. Qed.

Lemma guarded_divide_value (c : bool) (n d : Q) :
  fst (if c then Traced.divide n d else Traced.ret 0) = if c then n / d else 0.
Proof. destruct c; reflexivity. Qed.

Lemma guarded_divide_denominators (d n : Q) :
  Forall (fun x => 0 < x)
    (snd (if d >? 0 then Traced.divide n d else Traced.ret 0)).
Proof. cmp_lt 0 d; repeat constructor; assumption. Qed.

Lemma longTermCapitalGainsTraced_value (taxable : option TaxableAccount.t) (w : Q) :
  fst (longTermCapitalGainsTraced taxable w) = longTermCapitalGainsOf taxable w.
Proof.
  unfold longTermCapitalGainsTraced, longTermCapitalGainsOf, gainsRatioTraced,
    gainsRatio.
  destruct taxable as [account | ]; [ | reflexivity].
  destruct (w >? 0); [ | reflexivity]. cbv zeta.
  destruct (TaxableAccount.balance account >? 0); reflexivity.
Qed.

Lemma longTermCapitalGainsTraced_denominators (taxable : option TaxableAccount.t)
    (w : Q) :
  Forall (fun x => 0 < x) (snd (longTermCapitalGainsTraced taxable w)).
Proof.
  unfold longTermCapitalGainsTraced, gainsRatioTraced.
  destruct taxable as [account | ]; [ | constructor].
  destruct (w >? 0); [ | constructor]. cbv zeta.
  cmp_lt 0 (TaxableAccount.balance account); repeat constructor; assumption.
Qed.

(** The traced run returns the breakdown of [calculateTaxBreakdown]. *)
Lemma calculateTaxBreakdownTraced_value (s : WithdrawalStrategy.t) (p : Portfolio.t)
    (g : IncomeGoal.t) :
  fst (calculateTaxBreakdownTraced s p g) = calculateTaxBreakdown s p g.
Proof.
  unfold calculateTaxBreakdownTraced, calculateTaxBreakdown.
  cbv beta zeta delta [Traced.bind Traced.ret]. cbn [fst].
  rewrite !guarded_divide_value, !longTermCapitalGainsTraced_value.
  reflexivity.
Qed.

(** Every denominator the traced run records is strictly positive. *)
Lemma calculateTaxBreakdownTraced_denominators (s : WithdrawalStrategy.t)
    (p : Portfolio.t) (g : IncomeGoal.t) :
  Forall (fun d => 0 < d) (snd (calculateTaxBreakdownTraced s p g)).
Proof.
  unfold calculateTaxBreakdownTraced.
  cbv beta zeta delta [Traced.bind Traced.ret]. cbn [snd].
  apply Forall_app; split; [apply longTermCapitalGainsTraced_denominators | ].
  apply Forall_app; split; [apply guarded_divide_denominators | ].
  apply Forall_app; split; [apply guarded_divide_denominators | ].
  apply Forall_app; split; [apply guarded_divide_denominators | constructor].
Qed.

(** C7: the ratios of calculateTaxBreakdown are guarded.  With a gross
    income of 0 the effective rate is 0, with an AGI of 0 the rate on AGI is
    0, with a taxable income (taxable ordinary income + gains) of 0 the rate
    on taxable income is 0, and with a taxable-account balance of 0 the gains
    ratio is 0 (so no capital gains arise); and every division the function
    carries out has a strictly positive denominator: the denominators are
    those recorded by the traced run of the function, which returns the same
    breakdown. *)
Theorem breakdown_ratios_guarded (s : WithdrawalStrategy.t) (p : Portfolio.t)
    (g : IncomeGoal.t) :
  (TaxBreakdown.grossIncome (calculateTaxBreakdown s p g) == 0 ->
   TaxBreakdown.effectiveRate (calculateTaxBreakdown s p g) = 0)
  /\ (TaxBreakdown.adjustedGrossIncome (calculateTaxBreakdown s p g) == 0 ->
      TaxBreakdown.effectiveRateOnAGI (calculateTaxBreakdown s p g) = 0)
  /\ (TaxBreakdown.taxableIncome (calculateTaxBreakdown s p g) == 0 ->
      TaxBreakdown.effectiveRateOnTaxable (calculateTaxBreakdown s p g) = 0)
  /\ (forall account, Portfolio.taxable p = Some account ->
        TaxableAccount.balance account == 0 ->
        gainsRatio account = 0
        /\ TaxBreakdown.longTermCapitalGains (calculateTaxBreakdown s p g) == 0)
  /\ Forall (fun d => 0 < d) (divisionDenominators s p g)
  /\ fst (calculateTaxBreakdownTraced s p g) = calculateTaxBreakdown s p g.
Proof.
  pose proof (breakdown_effectiveRate s p g) as R. cbv zeta in R.
  pose proof (breakdown_longTermCapitalGains s p g) as L.
  pose proof (calculateTaxBreakdownTraced_denominators s p g) as D.
  pose proof (calculateTaxBreakdownTraced_value s p g) as V.
  unfold divisionDenominators.
  revert R L D V. generalize (calculateTaxBreakdownTraced s p g) as traced.
  generalize (calculateTaxBreakdown s p g) as b.
  intros b traced [R1 [R2 R3]] L D V.
  split; [ | split; [ | split; [ | split; [ | split]]]].
  - intro H. rewrite R1. apply guarded_ratio_zero.
    revert H. generalize (TaxBreakdown.grossIncome b). intros; lra.
  - intro H. rewrite R2. apply guarded_ratio_zero.
    revert H. generalize (TaxBreakdown.adjustedGrossIncome b). intros; lra.
  - intro H. rewrite R3. apply guarded_ratio_zero.
    revert H. generalize (TaxBreakdown.taxableIncome b). intros; lra.
  - intros account Hacc Hbal.
    assert (Hr : gainsRatio account = 0).
    { unfold gainsRatio. apply guarded_ratio_zero.
      revert Hbal. generalize (TaxableAccount.balance account). intros; lra. }
    split; [exact Hr | ].
    rewrite L. unfold longTermCapitalGainsOf. rewrite Hacc.
    cmp_lt 0 (WithdrawalStrategy.taxableWithdrawal s); [ | reflexivity].
    rewrite Hr. apply Qmult_0_r.
  - exact D.
  - exact V.
Qed.

Lemma breakdown_ratios_guarded_witness :
  TaxBreakdown.effectiveRate
    (calculateTaxBreakdown noWithdrawals emptyTaxablePortfolio (goalAt73 gross 0))
  = 0
  /\ TaxBreakdown.effectiveRateOnAGI
       (calculateTaxBreakdown noWithdrawals emptyTaxablePortfolio (goalAt73 gross 0))
     = 0
  /\ TaxBreakdown.effectiveRateOnTaxable
       (calculateTaxBreakdown noWithdrawals emptyTaxablePortfolio (goalAt73 gross 0))
     = 0
  /\ gainsRatio (TaxableAccount.mk 0 0 0) = 0
  /\ TaxBreakdown.longTermCapitalGains
       (calculateTaxBreakdown noWithdrawals emptyTaxablePortfolio (goalAt73 gross 0))
     == 0.
Proof.
  pose proof (breakdown_ratios_guarded noWithdrawals emptyTaxablePortfolio
                (goalAt73 gross 0)) as [H1 [H2 [H3 [H4 _]]]].
  split; [ | split; [ | split]].
  - apply H1. vm_compute. reflexivity.
  - apply H2. vm_compute. reflexivity.
  - apply H3. vm_compute. reflexivity.
  - apply (H4 (TaxableAccount.mk 0 0 0)); reflexivity.
Defined.

(** ** Withdrawal strategy (engine/strategyGenerator.ts) *)

Ltac strategy_fields :=
  cbn [WithdrawalStrategy.traditionalWithdrawal WithdrawalStrategy.taxableWithdrawal
       WithdrawalStrategy.rothWithdrawal WithdrawalStrategy.socialSecurityIncome
       WithdrawalStrategy.pensionIncome WithdrawalStrategy.rmdAmount
       WithdrawalStrategy.isSystemGenerated
       WithdrawalStrategy.set_traditionalWithdrawal
       WithdrawalStrategy.set_taxableWithdrawal
       WithdrawalStrategy.set_rothWithdrawal] in *.

(** A pass of the refinement loop leaves the RMD amount and the forced
    incomes as they are, and ends with the traditional withdrawal at or
    above the RMD amount. *)
Lemma refineAdjust_rmd (s : WithdrawalStrategy.t) (p : Portfolio.t) (d : Q) :
  WithdrawalStrategy.rmdAmount (refineAdjust s p d) = WithdrawalStrategy.rmdAmount s
  /\ WithdrawalStrategy.socialSecurityIncome (refineAdjust s p d)
     = WithdrawalStrategy.socialSecurityIncome s
  /\ WithdrawalStrategy.pensionIncome (refineAdjust s p d)
     = WithdrawalStrategy.pensionIncome s
  /\ WithdrawalStrategy.rmdAmount s
     <= WithdrawalStrategy.traditionalWithdrawal (refineAdjust s p d).
Proof.
  unfold refineAdjust. cbv zeta.
  repeat cmp_goal; strategy_fields;
    (split; [reflexivity | split; [reflexivity | split; [reflexivity | ]]]);
    unfold Math.max; apply Q.le_max_r.
Qed.

Lemma refineLoop_rmd (n : nat) :
  forall (s : WithdrawalStrategy.t) (b : TaxBreakdown.t) (p : Portfolio.t)
         (g : IncomeGoal.t),
    WithdrawalStrategy.rmdAmount s <= WithdrawalStrategy.traditionalWithdrawal s ->
    WithdrawalStrategy.rmdAmount (refineLoop n s b p g)
    = WithdrawalStrategy.rmdAmount s
    /\ WithdrawalStrategy.rmdAmount s
       <= WithdrawalStrategy.traditionalWithdrawal (refineLoop n s b p g).
Proof.
  induction n as [ | n IH]; intros s b p g H; cbn [refineLoop]; cbv zeta.
  - split; [reflexivity | exact H].
  - cmp_lt (Math.abs (IncomeGoal.amount g - TaxBreakdown.afterTaxIncome b)) 500.
    + split; [reflexivity | exact H].
    + destruct (refineAdjust_rmd s p
                  (IncomeGoal.amount g - TaxBreakdown.afterTaxIncome b))
        as [R1 [_ [_ R2]]].
      match goal with
      | |- context [refineLoop n ?s' ?b' p g] =>
          destruct (IH s' b' p g) as [I1 I2]; [rewrite R1; exact R2 | ]
      end.
      rewrite R1 in I1, I2. split; assumption.
Qed.

Lemma initialStrategy_rmd (p : Portfolio.t) (g : IncomeGoal.t) :
  WithdrawalStrategy.rmdAmount (initialStrategy p g)
  = RMDInfo.amount (calculateRMD (IncomeGoal.primaryAge g) (priorYearBalanceOf p))
  /\ WithdrawalStrategy.rmdAmount (initialStrategy p g)
     <= WithdrawalStrategy.traditionalWithdrawal (initialStrategy p g).
Proof.
  unfold initialStrategy. cbv zeta.
  repeat match goal with
         | |- context [let '(_, _) := ?e in _] => destruct e
         end.
  strategy_fields. split; [reflexivity | ].
  unfold Math.max. apply Q.le_max_r.
Qed.

(** C1: for every portfolio with a traditional account and every goal with
    primaryAge >= 73, the strategy of generateStrategy has
    traditionalWithdrawal >= rmdAmount, rmdAmount being the RMD computed on
    the prior-year-end balance (the current balance when none is given);
    this holds for any goal amount and for gross and after-tax targets
    alike. *)
Theorem generateStrategy_rmd_floor (p : Portfolio.t) (g : IncomeGoal.t)
    (account : TraditionalAccount.t) :
  Portfolio.traditional p = Some account ->
  (73 <= IncomeGoal.primaryAge g)%Z ->
  WithdrawalStrategy.rmdAmount (generateStrategy p g)
  = RMDInfo.amount
      (calculateRMD (IncomeGoal.primaryAge g)
         (nullish (TraditionalAccount.priorYearEndBalance account)
            (TraditionalAccount.balance account)))
  /\ WithdrawalStrategy.rmdAmount (generateStrategy p g)
     <= WithdrawalStrategy.traditionalWithdrawal (generateStrategy p g).
Proof.
  intros Hacc _.
  assert (Hprior : priorYearBalanceOf p
                   = nullish (TraditionalAccount.priorYearEndBalance account)
                       (TraditionalAccount.balance account)).
  { unfold priorYearBalanceOf, traditionalBalanceOf. rewrite Hacc. reflexivity. }
  destruct (initialStrategy_rmd p g) as [I1 I2]. rewrite Hprior in I1.
  unfold generateStrategy. cbv zeta.
  destruct (IncomeGoal.targetType g).
  - unfold refineForAfterTaxTarget. cbv zeta.
    match goal with
    | |- context [refineLoop ?n ?s ?b p g] =>
        destruct (refineLoop_rmd n s b p g I2) as [L1 L2]
    end.
    rewrite L1. split; [exact I1 | exact L2].
  - split; [exact I1 | exact I2].
Qed.

Lemma tableGet_nonneg (table : list (Z * Q)) (key : Z) (v : Q) :
  Forall (fun entry => 0 <= snd entry) table ->
  tableGet table key = Some v -> 0 <= v.
Proof.
  induction 1 as [ | [k w] rest Hw _ IH]; simpl; intro H.
  - discriminate.
  - destruct (Z.eqb k key); [injection H as <-; exact Hw | exact (IH H)].
Qed.

Lemma table_values_nonneg :
  Forall (fun entry => 0 <= snd entry) UNIFORM_LIFETIME_TABLE.
Proof. unfold UNIFORM_LIFETIME_TABLE. repeat constructor; simpl; discriminate. Qed.

Lemma getDistributionPeriod_nonneg (age : Z) : 0 <= getDistributionPeriod age.
Proof.
  unfold getDistributionPeriod. destruct (age <? RMD_START_AGE)%Z; [lra | ].
  destruct (tableGet UNIFORM_LIFETIME_TABLE age) as [v | ] eqn:E.
  - exact (tableGet_nonneg _ _ _ table_values_nonneg E).
  - vm_compute. discriminate.
Qed.

Lemma Qdiv_nonneg (x y : Q) : 0 <= x -> 0 <= y -> 0 <= x / y.
Proof.
  intros Hx Hy. unfold Qdiv. apply Qmult_le_0_compat; [exact Hx | ].
  apply Qinv_le_0_compat; exact Hy.
Qed.

Lemma calculateRMD_amount_nonneg (age : Z) (B : Q) :
  0 <= RMDInfo.amount (calculateRMD age B).
Proof.
  unfold calculateRMD. destruct (age <? RMD_START_AGE)%Z; simpl; [lra | ].
  cmp_le B 0; cbn [RMDInfo.amount]; [lra | ].
  apply round_nonneg. apply Qdiv_nonneg; [lra | apply getDistributionPeriod_nonneg].
Qed.

Lemma Qabs_nonneg' (x : Q) : 0 <= Math.abs x.
Proof. unfold Math.abs. apply Qabs_nonneg. Qed.

(** A pass of the refinement loop keeps every amount at or above zero. *)
Lemma refineAdjust_nonneg (s : WithdrawalStrategy.t) (p : Portfolio.t) (d : Q) :
  strategyNonNegative s -> strategyNonNegative (refineAdjust s p d).
Proof.
  unfold strategyNonNegative. intros [H1 [H2 [H3 [H4 [H5 H6]]]]].
  pose proof (Qabs_nonneg' d) as Habs.
  unfold refineAdjust. cbv zeta.
  repeat cmp_goal; strategy_fields;
    (split; [unfold Math.max;
             apply Qle_trans with (WithdrawalStrategy.rmdAmount s);
             [exact H6 | apply Q.le_max_r] | ]);
    (split; [apply round_nonneg | split; [apply round_nonneg | ]]);
    try (split; [assumption | split; assumption]);
    try assumption;
    unfold Math.min; repeat minmax_goal; lra.
Qed.

Lemma refineLoop_nonneg (n : nat) :
  forall (s : WithdrawalStrategy.t) (b : TaxBreakdown.t) (p : Portfolio.t)
         (g : IncomeGoal.t),
    strategyNonNegative s -> strategyNonNegative (refineLoop n s b p g).
Proof.
  induction n as [ | n IH]; intros s b p g H; cbn [refineLoop]; cbv zeta.
  - exact H.
  - cmp_lt (Math.abs (IncomeGoal.amount g - TaxBreakdown.afterTaxIncome b)) 500.
    + exact H.
    + apply IH. apply refineAdjust_nonneg. exact H.
Qed.

Lemma zero_rate_bracket (s : FilingStatus) :
  exists (top rate : Q) (rest : list TaxBracket.t),
    CAPITAL_GAINS_BRACKETS s = TaxBracket.mk 0 (Fin top) rate :: rest /\ 0 < top.
Proof.
  destruct s; simpl; eexists; eexists; eexists; (split; [reflexivity | reflexivity]).
Qed.

(** Strategy 2 never takes a negative amount from the taxable account. *)
Lemma harvestZeroGains_nonneg (p : Portfolio.t) (s : FilingStatus)
    (tw ssTaxable deduction available remaining : Q) :
  0 <= fst (harvestZeroGains p s tw ssTaxable deduction available remaining).
Proof.
  unfold harvestZeroGains.
  cmp_lt 0 remaining; [ | simpl; lra].
  cmp_lt 0 available; [ | simpl; lra].
  cbn [andb].
  destruct (zero_rate_bracket s) as [top [rate [rest [Hb Htop]]]]. rewrite Hb.
  cbn [TaxBracket.max num_lt num_sub]. cbv zeta.
  cmp_lt (tw + ssTaxable - deduction) top; [ | simpl; lra].
  match goal with
  | |- context [Qltb 0 ?r] => set (ratio := r); cmp_lt 0 ratio
  end; cbn [fst num_div num_min3].
  - assert (Hroom : 0 <= (top - Math.max 0 (tw + ssTaxable - deduction)) / ratio).
    { apply Qdiv_nonneg; [ | lra]. unfold Math.max. minmax_goal; lra. }
    repeat minmax_goal; lra.
  - repeat minmax_goal; lra.
Qed.

Lemma initialStrategy_nonneg (p : Portfolio.t) (g : IncomeGoal.t) :
  0 <= ssAnnualOf p -> 0 <= pensionAnnualOf p ->
  strategyNonNegative (initialStrategy p g).
Proof.
  intros Hss Hpen. unfold strategyNonNegative, initialStrategy. cbv zeta.
  set (rmd := RMDInfo.amount _).
  assert (Hrmd : 0 <= rmd) by apply calculateRMD_amount_nonneg.
  destruct (fillLowBrackets _ _ _ _ _ _ _) as [tw1 rem1].
  match goal with
  | |- context [harvestZeroGains ?a ?b ?c ?d ?e ?f ?h] =>
      pose proof (harvestZeroGains_nonneg a b c d e f h) as Hh;
      destruct (harvestZeroGains a b c d e f h) as [tx2 rem2]
  end.
  cbn [fst] in Hh.
  cmp_lt 0 rem2; cmp_lt 0 (rothBalanceOf p); cbn [andb];
    (match goal with
     | |- context [Qltb 0 ?r && Qltb tw1 ?a] =>
         cmp_lt 0 r; cmp_lt tw1 a; cbn [andb]
     end);
    (match goal with
     | |- context [Qltb 0 ?r && Qltb tx2 ?a] =>
         cmp_lt 0 r; cmp_lt tx2 a; cbn [andb]
     end);
    strategy_fields;
    (split; [unfold Math.max; apply Qle_trans with rmd;
             [exact Hrmd | apply Q.le_max_r] | ]);
    (split; [apply round_nonneg | split; [apply round_nonneg | ]]);
    try (split; [apply round_nonneg; assumption
                | split; [apply round_nonneg; assumption | assumption]]);
    unfold Math.min; repeat minmax_goal; lra.
Qed.

(** C10: for a portfolio whose balances and benefits are all >= 0 and any
    income goal (any amount, gross or after-tax), every amount of the
    strategy of generateStrategy (traditionalWithdrawal, taxableWithdrawal,
    rothWithdrawal, socialSecurityIncome, pensionIncome, rmdAmount) is
    >= 0. *)
Theorem generateStrategy_nonnegative (p : Portfolio.t) (g : IncomeGoal.t) :
  portfolioNonNegative p ->
  0 <= WithdrawalStrategy.traditionalWithdrawal (generateStrategy p g)
  /\ 0 <= WithdrawalStrategy.taxableWithdrawal (generateStrategy p g)
  /\ 0 <= WithdrawalStrategy.rothWithdrawal (generateStrategy p g)
  /\ 0 <= WithdrawalStrategy.socialSecurityIncome (generateStrategy p g)
  /\ 0 <= WithdrawalStrategy.pensionIncome (generateStrategy p g)
  /\ 0 <= WithdrawalStrategy.rmdAmount (generateStrategy p g).
Proof.
  intros [_ [_ [_ [Hss Hpen]]]].
  assert (Hss' : 0 <= ssAnnualOf p).
  { unfold ssAnnualOf. destruct (Portfolio.socialSecurity p); [exact Hss | lra]. }
  assert (Hpen' : 0 <= pensionAnnualOf p).
  { unfold pensionAnnualOf. destruct (Portfolio.pension p); [exact Hpen | lra]. }
  pose proof (initialStrategy_nonneg p g Hss' Hpen') as Hinit.
  change (strategyNonNegative (generateStrategy p g)).
  unfold generateStrategy. cbv zeta.
  destruct (IncomeGoal.targetType g).
  - unfold refineForAfterTaxTarget. cbv zeta. apply refineLoop_nonneg. exact Hinit.
  - exact Hinit.
Qed.

Lemma generateStrategy_rmd_floor_witness :
  WithdrawalStrategy.rmdAmount
    (generateStrategy
       traditionalOnlyPortfolio
       (goalAt73 afterTax 0))
  <= WithdrawalStrategy.traditionalWithdrawal
       (generateStrategy
          traditionalOnlyPortfolio
          (goalAt73 afterTax 0)).
Proof.
  apply (generateStrategy_rmd_floor
           traditionalOnlyPortfolio
           (goalAt73 afterTax 0)
           (TraditionalAccount.mk 500000 (Some 500000))).
  - reflexivity.
  - simpl. lia.
Defined.

Example generateStrategy_gross_50000_at_73 :
  WithdrawalStrategy.rmdAmount
    (generateStrategy traditionalOnlyPortfolio (goalAt73 gross 50000)) == 18868
  /\ WithdrawalStrategy.traditionalWithdrawal
       (generateStrategy traditionalOnlyPortfolio (goalAt73 gross 50000)) == 50000
  /\ TaxBreakdown.rmdIsSatisfied
       (calculateTaxBreakdown
          (generateStrategy traditionalOnlyPortfolio (goalAt73 gross 50000))
          traditionalOnlyPortfolio (goalAt73 gross 50000)) = true.
Proof. repeat split; vm_compute; reflexivity. Qed.

Example generateStrategy_afterTax_0_at_73 :
  WithdrawalStrategy.rmdAmount
    (generateStrategy traditionalOnlyPortfolio (goalAt73 afterTax 0)) == 18868
  /\ WithdrawalStrategy.traditionalWithdrawal
       (generateStrategy traditionalOnlyPortfolio (goalAt73 afterTax 0)) == 18868.
Proof. split; vm_compute; reflexivity. Qed.

Lemma generateStrategy_nonnegative_witness :
  0 <= WithdrawalStrategy.taxableWithdrawal
         (generateStrategy
            mixedPortfolio
            (goalAt73 afterTax 90000)).
Proof.
  apply (generateStrategy_nonnegative
           mixedPortfolio
           (goalAt73 afterTax 90000)).
  unfold portfolioNonNegative. simpl.
  repeat split; discriminate.
Defined.

(** ** Projection (engine/projectionEngine.ts) *)

Section Projection.
Variable goal : IncomeGoal.t.
Variable assumptions : ProjectionAssumptions.t.
Variable initial : option (WithdrawalStrategy.t * TaxBreakdown.t).
Variable pensionCola : Q.
Variables startAge currentYear : Z.

(** One year records the depletion age exactly when none is recorded yet
    and the total at the start of the year is at or below zero. *)
Lemma projectionYearStep_depletionAge (age : Z) (r : Running.t) :
  Running.depletionAge
    (projectionYearStep goal assumptions initial pensionCola startAge
       currentYear age r)
  = match Running.depletionAge r with
    | None => if Running.totalBalance r <=? 0 then Some age else None
    | Some recorded => Some recorded
    end.
Proof.
  unfold projectionYearStep. cbv zeta.
  match goal with
  | |- context [let '(_, _) := ?e in _] => destruct e as [strategy breakdown]
  end.
  reflexivity.
Qed.

Lemma projectionLoop_depletionAge (n : nat) :
  forall (age : Z) (r : Running.t),
    Running.depletionAge
      (projectionLoop goal assumptions initial pensionCola startAge
         currentYear n age r)
    = match Running.depletionAge r with
      | None =>
          firstDepletedAge
            (yearStartTotals goal assumptions initial pensionCola startAge
               currentYear n age r)
      | Some recorded => Some recorded
      end.
Proof.
  induction n as [ | n IH]; intros age r;
    cbn [projectionLoop yearStartTotals firstDepletedAge].
  - destruct (Running.depletionAge r); reflexivity.
  - rewrite IH. rewrite projectionYearStep_depletionAge.
    destruct (Running.depletionAge r) as [recorded | ]; [reflexivity | ].
    destruct (Running.totalBalance r <=? 0); reflexivity.
Qed.
End Projection.

(** [firstDepletedAge] is the first age of the list whose total is at or
    below zero: every earlier total is positive. *)
Lemma firstDepletedAge_first (l : list (Z * Q)) (age : Z) :
  firstDepletedAge l = Some age <->
  exists before total after,
    l = before ++ (age, total) :: after
    /\ total <= 0
    /\ Forall (fun entry => 0 < snd entry) before.
Proof.
  induction l as [ | [a t] l IH]; simpl.
  - split; [discriminate | ].
    intros [before [total [after [H _]]]]. destruct before; discriminate.
  - cmp_le t 0.
    + split.
      * intro H. injection H as <-. exists [], t, l. repeat split; [exact E | constructor].
      * intros [before [total [after [H [Ht Hb]]]]].
        destruct before as [ | [a' t'] before].
        -- simpl in H. injection H as -> _ _. reflexivity.
        -- simpl in H. injection H as <- <- _. inversion Hb as [ | ? ? Hpos _].
           simpl in Hpos. exfalso; lra.
    + rewrite IH. split.
      * intros [before [total [after [H [Ht Hb]]]]].
        exists ((a, t) :: before), total, after. subst l.
        repeat split; [exact Ht | constructor; [exact E | exact Hb]].
      * intros [before [total [after [H [Ht Hb]]]]].
        destruct before as [ | [a' t'] before].
        -- simpl in H. injection H as <- <- _. exfalso; lra.
        -- simpl in H. injection H as _ _ ->. inversion Hb as [ | ? ? _ Hrest].
           exists before, total, after. repeat split; assumption.
Qed.

Lemma firstDepletedAge_none (l : list (Z * Q)) :
  firstDepletedAge l = None <-> Forall (fun entry => 0 < snd entry) l.
Proof.
  induction l as [ | [a t] l IH]; simpl.
  - split; [constructor | reflexivity].
  - cmp_le t 0.
    + split; [discriminate | ]. intro H. inversion H as [ | ? ? Hpos _].
      simpl in Hpos. exfalso; lra.
    + rewrite IH. split.
      * intro H. constructor; [exact E | exact H].
      * intro H. inversion H; assumption.
Qed.

(** * Further properties *)

(** ** Ordinary-income brackets: bounds, monotonicity, attribution *)

Lemma estimateOrdinaryTaxLoop_done (brackets : list TaxBracket.t) (t R : Q) :
  R <= 0 -> estimateOrdinaryTaxLoop brackets t R = t.
Proof.
  intro H. destruct brackets as [ | b rest]; simpl; [reflexivity | ].
  cmp_le R 0; [reflexivity | exfalso; lra].
Qed.

Lemma estimateOrdinaryTaxLoop_acc (brackets : list TaxBracket.t) :
  forall t R,
    estimateOrdinaryTaxLoop brackets t R
    == t + estimateOrdinaryTaxLoop brackets 0 R.
Proof.
  induction brackets as [ | b rest IH]; intros t R; simpl.
  - lra.
  - cmp_le R 0; [lra | ].
    rewrite IH. symmetry. rewrite IH. lra.
Qed.

(** The calculator and the quick estimate walk the brackets alike. *)
Lemma ordinaryLoop_totalTax (brackets : list TaxBracket.t)
    (srcs : list IncomeSource.t) (total : Q) :
  forall st,
    OrdState.totalTax (ordinaryLoop brackets srcs total st)
    = estimateOrdinaryTaxLoop brackets (OrdState.totalTax st)
        (OrdState.remainingIncome st).
Proof.
  induction brackets as [ | b rest IH]; intro st; simpl.
  - reflexivity.
  - cmp_le (OrdState.remainingIncome st) 0; [reflexivity | ].
    rewrite IH. reflexivity.
Qed.

(** One bracket of the walk, as an equation on the tax added. *)
Lemma estimateOrdinaryTaxLoop_cons (b : TaxBracket.t) (rest : list TaxBracket.t)
    (R : Q) :
  0 < R ->
  estimateOrdinaryTaxLoop (b :: rest) 0 R
  == num_min R (num_sub (TaxBracket.max b) (TaxBracket.min b)) * TaxBracket.rate b
     + estimateOrdinaryTaxLoop rest 0
         (R - num_min R (num_sub (TaxBracket.max b) (TaxBracket.min b))).
Proof.
  intro HR. simpl. cmp_le R 0; [exfalso; lra | ].
  rewrite estimateOrdinaryTaxLoop_acc. lra.
Qed.

Lemma ratesWithin_inv (lo hi : Q) (b : TaxBracket.t) (rest : list TaxBracket.t) :
  ratesWithin lo hi (b :: rest) ->
  (lo <= TaxBracket.rate b /\ TaxBracket.rate b <= hi
   /\ match TaxBracket.max b with
      | Fin top => TaxBracket.min b <= top
      | Infinity => True
      end)
  /\ ratesWithin lo hi rest.
Proof. intro H. inversion H; subst. split; assumption. Qed.

(** The income a bracket takes lies between 0 and what is left. *)
Lemma bracket_take_range (b : TaxBracket.t) (R : Q) :
  0 <= R ->
  match TaxBracket.max b with
  | Fin top => TaxBracket.min b <= top
  | Infinity => True
  end ->
  0 <= num_min R (num_sub (TaxBracket.max b) (TaxBracket.min b))
  /\ num_min R (num_sub (TaxBracket.max b) (TaxBracket.min b)) <= R.
Proof.
  intros HR Hb. destruct (TaxBracket.max b) as [top | ]; simpl.
  - minmax_goal; lra.
  - lra.
Qed.

Lemma bracket_take_mono (b : TaxBracket.t) (R1 R2 : Q) :
  R1 <= R2 ->
  num_min R1 (num_sub (TaxBracket.max b) (TaxBracket.min b))
  <= num_min R2 (num_sub (TaxBracket.max b) (TaxBracket.min b))
  /\ R1 - num_min R1 (num_sub (TaxBracket.max b) (TaxBracket.min b))
     <= R2 - num_min R2 (num_sub (TaxBracket.max b) (TaxBracket.min b)).
Proof.
  intro H. destruct (TaxBracket.max b) as [top | ]; simpl.
  - repeat minmax_goal; lra.
  - lra.
Qed.

Lemma estimateOrdinaryTaxLoop_range (lo hi : Q) (brackets : list TaxBracket.t) :
  0 <= lo -> lo <= hi -> ratesWithin lo hi brackets ->
  forall R, 0 <= R ->
    0 <= estimateOrdinaryTaxLoop brackets 0 R
    /\ estimateOrdinaryTaxLoop brackets 0 R <= hi * R.
Proof.
  intros Hlo Hhi. induction brackets as [ | b rest IH]; intros Hok R HR.
  - simpl. split; [lra | ]. apply Qmult_le_0_compat; lra.
  - destruct (ratesWithin_inv _ _ _ _ Hok) as [[Hr1 [Hr2 Hsize]] Hrest].
    destruct (Qlt_le_dec 0 R) as [Hpos | Hzero].
    + rewrite (estimateOrdinaryTaxLoop_cons b rest R Hpos).
      destruct (bracket_take_range b R HR Hsize) as [T1 T2].
      set (take := num_min R _) in *. clearbody take.
      destruct (IH Hrest (R - take) ltac:(lra)) as [I1 I2].
      split; nra.
    + rewrite estimateOrdinaryTaxLoop_done by exact Hzero.
      split; [lra | ]. apply Qmult_le_0_compat; lra.
Qed.

(** With an unbounded bracket in the table all the income is taxed, at the
    lowest rate at least. *)
Lemma estimateOrdinaryTaxLoop_floor (lo hi : Q) (brackets : list TaxBracket.t) :
  0 <= lo -> lo <= hi -> ratesWithin lo hi brackets ->
  Exists (fun b => TaxBracket.max b = Infinity) brackets ->
  forall R, 0 <= R -> lo * R <= estimateOrdinaryTaxLoop brackets 0 R.
Proof.
  intros Hlo Hhi Hok Hex. revert Hok.
  induction Hex as [b rest Hb | b rest Hex IH]; intros Hok R HR;
    destruct (ratesWithin_inv _ _ _ _ Hok) as [[Hr1 [Hr2 Hsize]] Hrest];
    (destruct (Qlt_le_dec 0 R) as [Hpos | Hzero];
     [ | rewrite estimateOrdinaryTaxLoop_done by exact Hzero;
         assert (Z0 : R == 0) by lra; rewrite Z0; lra ]);
    rewrite (estimateOrdinaryTaxLoop_cons b rest R Hpos).
  - rewrite Hb. cbn [num_sub num_min].
    rewrite (estimateOrdinaryTaxLoop_done rest 0 (R - R)) by lra. nra.
  - destruct (bracket_take_range b R HR Hsize) as [T1 T2].
    set (take := num_min R _) in *. clearbody take.
    pose proof (IH Hrest (R - take) ltac:(lra)). nra.
Qed.

(** More income never lowers the tax, and a further dollar never costs
    more than the highest rate. *)
Lemma estimateOrdinaryTaxLoop_slope (lo hi : Q) (brackets : list TaxBracket.t) :
  0 <= lo -> lo <= hi -> ratesWithin lo hi brackets ->
  forall R1 R2, R1 <= R2 ->
    estimateOrdinaryTaxLoop brackets 0 R1 <= estimateOrdinaryTaxLoop brackets 0 R2
    /\ estimateOrdinaryTaxLoop brackets 0 R2 - estimateOrdinaryTaxLoop brackets 0 R1
       <= hi * (R2 - R1).
Proof.
  intros Hlo Hhi. induction brackets as [ | b rest IH]; intros Hok R1 R2 HR.
  - simpl. split; [lra | ]. assert (0 <= hi * (R2 - R1)); [ | lra].
    apply Qmult_le_0_compat; lra.
  - destruct (ratesWithin_inv _ _ _ _ Hok) as [[Hr1 [Hr2 Hsize]] Hrest].
    destruct (Qlt_le_dec 0 R1) as [Hpos1 | Hzero1].
    + assert (Hpos2 : 0 < R2) by lra.
      rewrite (estimateOrdinaryTaxLoop_cons b rest R1 Hpos1).
      rewrite (estimateOrdinaryTaxLoop_cons b rest R2 Hpos2).
      destruct (bracket_take_mono b R1 R2 HR) as [M1 M2].
      set (take1 := num_min R1 _) in *. set (take2 := num_min R2 _) in *.
      clearbody take1 take2.
      destruct (IH Hrest (R1 - take1) (R2 - take2) M2) as [I1 I2].
      split; nra.
    + rewrite (estimateOrdinaryTaxLoop_done _ 0 R1) by exact Hzero1.
      destruct (Qlt_le_dec 0 R2) as [Hpos2 | Hzero2].
      * destruct (estimateOrdinaryTaxLoop_range lo hi (b :: rest) Hlo Hhi Hok R2
                    ltac:(lra)) as [B1 B2].
        split; [lra | ]. nra.
      * rewrite (estimateOrdinaryTaxLoop_done _ 0 R2) by exact Hzero2.
        split; [lra | ]. assert (0 <= hi * (R2 - R1)); [ | lra].
        apply Qmult_le_0_compat; lra.
Qed.

Lemma federal_rates (s : FilingStatus) :
  ratesWithin 0.10 0.37 (FEDERAL_BRACKETS s).
Proof.
  destruct s; unfold ratesWithin, FEDERAL_BRACKETS;
    repeat (apply Forall_cons; [simpl; repeat split; discriminate | ]);
    apply Forall_nil.
Qed.

Lemma calculateOrdinaryIncomeTax_tax (I : Q) (s : FilingStatus)
    (srcs : list IncomeSource.t) :
  OrdinaryTaxResult.tax (calculateOrdinaryIncomeTax I s srcs)
  = estimateOrdinaryTaxLoop (FEDERAL_BRACKETS s) 0 (Math.max 0 I).
Proof.
  unfold calculateOrdinaryIncomeTax. cbn [OrdinaryTaxResult.tax].
  rewrite ordinaryLoop_totalTax. reflexivity.
Qed.

(** X1: the federal tax on I >= 0 lies between 10% and 37% of I. *)
Theorem ordinary_tax_between_lowest_and_highest_rate (I : Q) (s : FilingStatus)
    (srcs : list IncomeSource.t) :
  0 <= I ->
  0.10 * I <= OrdinaryTaxResult.tax (calculateOrdinaryIncomeTax I s srcs)
  /\ OrdinaryTaxResult.tax (calculateOrdinaryIncomeTax I s srcs) <= 0.37 * I.
Proof.
  intro HI. rewrite calculateOrdinaryIncomeTax_tax.
  assert (Hmax : Math.max 0 I == I) by (unfold Math.max; apply Q.max_r; exact HI).
  assert (H0 : 0 <= Math.max 0 I) by (unfold Math.max; apply Q.le_max_l).
  pose proof (estimateOrdinaryTaxLoop_floor 0.10 0.37 _ ltac:(lra) ltac:(lra)
                (federal_rates s) (proj1 (federal_top_unbounded s)) _ H0) as L.
  destruct (estimateOrdinaryTaxLoop_range 0.10 0.37 _ ltac:(lra) ltac:(lra)
              (federal_rates s) _ H0) as [_ U].
  revert L U. generalize (estimateOrdinaryTaxLoop (FEDERAL_BRACKETS s) 0 (Math.max 0 I)).
  intros t L U. rewrite Hmax in L, U. split; assumption.
Qed.

Lemma ordinary_tax_between_lowest_and_highest_rate_witness :
  0.10 * 60000
  <= OrdinaryTaxResult.tax (calculateOrdinaryIncomeTax 60000 single [])
  /\ OrdinaryTaxResult.tax (calculateOrdinaryIncomeTax 60000 single [])
     <= 0.37 * 60000.
Proof.
  apply (ordinary_tax_between_lowest_and_highest_rate 60000 single []).
  vm_compute. discriminate.
Defined.

(** X2: in exact arithmetic (amounts as rationals), the federal tax never
    falls when taxable income rises, and a rise of d dollars raises it by at
    most 0.37 * d; this holds for any incomes, negative ones included.  (In
    the floating-point numbers of the source the difference of two taxes can
    exceed 0.37 * d in its last digits.) *)
Theorem ordinary_tax_monotone_and_lipschitz (I1 I2 : Q) (s : FilingStatus)
    (srcs1 srcs2 : list IncomeSource.t) :
  I1 <= I2 ->
  OrdinaryTaxResult.tax (calculateOrdinaryIncomeTax I1 s srcs1)
  <= OrdinaryTaxResult.tax (calculateOrdinaryIncomeTax I2 s srcs2)
  /\ OrdinaryTaxResult.tax (calculateOrdinaryIncomeTax I2 s srcs2)
     - OrdinaryTaxResult.tax (calculateOrdinaryIncomeTax I1 s srcs1)
     <= 0.37 * (I2 - I1).
Proof.
  intro HI. rewrite !calculateOrdinaryIncomeTax_tax.
  assert (Hm : Math.max 0 I1 <= Math.max 0 I2
               /\ Math.max 0 I2 - Math.max 0 I1 <= I2 - I1).
  { unfold Math.max. repeat minmax_goal; lra. }
  destruct Hm as [Hm1 Hm2].
  destruct (estimateOrdinaryTaxLoop_slope 0.10 0.37 _ ltac:(lra) ltac:(lra)
              (federal_rates s) _ _ Hm1) as [S1 S2].
  split; [exact S1 | ]. lra.
Qed.

Lemma ordinary_tax_monotone_and_lipschitz_witness :
  OrdinaryTaxResult.tax (calculateOrdinaryIncomeTax 50000 single [])
  <= OrdinaryTaxResult.tax (calculateOrdinaryIncomeTax 60000 single []).
Proof.
  apply (ordinary_tax_monotone_and_lipschitz 50000 60000 single [] []).
  vm_compute. discriminate.
Defined.

(** X3: income at or below zero is not taxed: the tax is 0, no bracket is
    filled and the marginal rate is 0. *)
Theorem ordinary_tax_of_nonpositive_income (I : Q) (s : FilingStatus)
    (srcs : list IncomeSource.t) :
  I <= 0 ->
  calculateOrdinaryIncomeTax I s srcs = OrdinaryTaxResult.mk 0 [] 0.
Proof.
  intro HI. unfold calculateOrdinaryIncomeTax.
  rewrite ordinaryLoop_done.
  - reflexivity.
  - cbn [OrdState.remainingIncome]. unfold Math.max. apply Q.max_lub; lra.
Qed.

Lemma ordinary_tax_of_nonpositive_income_witness :
  calculateOrdinaryIncomeTax (-500) mfj [] = OrdinaryTaxResult.mk 0 [] 0.
Proof.
  apply (ordinary_tax_of_nonpositive_income (-500) mfj []).
  vm_compute. discriminate.
Defined.

(** X4: the quick estimate of the strategy generator and the full
    calculator return the same tax, for every income, filing status and
    list of attributed sources. *)
Theorem estimateOrdinaryTax_agrees_with_calculator (I : Q) (s : FilingStatus)
    (srcs : list IncomeSource.t) :
  estimateOrdinaryTax I s
  = OrdinaryTaxResult.tax (calculateOrdinaryIncomeTax I s srcs).
Proof.
  rewrite calculateOrdinaryIncomeTax_tax. unfold estimateOrdinaryTax, Math.max.
  destruct (Qlt_le_dec 0 I) as [Hpos | Hneg].
  - unfold Qmax, GenericMinMax.gmax.
    destruct (Qcompare 0 I) eqn:E.
    + apply Qeq_alt in E. exfalso; lra.
    + reflexivity.
    + apply Qgt_alt in E. exfalso; lra.
  - rewrite (estimateOrdinaryTaxLoop_done _ 0 I) by exact Hneg.
    rewrite estimateOrdinaryTaxLoop_done; [reflexivity | ].
    apply Q.max_lub; lra.
Qed.

Lemma fold_left_amounts (l : list IncomeSource.t) :
  forall a,
    fold_left (fun sum s => sum + IncomeSource.amount s) l a
    == a + Qsum (map IncomeSource.amount l).
Proof.
  induction l as [ | s l IH]; intro a; simpl.
  - lra.
  - rewrite IH. lra.
Qed.

Lemma distributeSources_sum (srcs : list IncomeSource.t) (T x : Q) :
  Forall (fun s => 0 <= IncomeSource.amount s) srcs -> 0 < T -> 0 <= x ->
  Qsum (map IncomeSource.amount (distributeSources srcs T x))
  == x * (Qsum (map IncomeSource.amount srcs) / T).
Proof.
  intros Hall HT Hx. induction Hall as [ | s rest Hs _ IH]; simpl.
  - unfold Qdiv. ring.
  - assert (Hshare : 0 <= x * (IncomeSource.amount s / T)).
    { apply Qmult_le_0_compat; [exact Hx | apply Qdiv_nonneg; lra]. }
    cmp_lt 0 (x * (IncomeSource.amount s / T)); simpl; rewrite IH.
    + unfold Qdiv. ring.
    + assert (Z0 : x * (IncomeSource.amount s / T) == 0) by lra.
      unfold Qdiv in *.
      rewrite <- (Qplus_0_l (x * (Qsum (map IncomeSource.amount rest) * / T))).
      rewrite <- Z0. ring.
Qed.

(** Every fill the walk pushes carries sources that add up to the income
    placed in its bracket. *)
Lemma ordinaryLoop_attribution (lo hi : Q) (brackets : list TaxBracket.t)
    (srcs : list IncomeSource.t) (total : Q) :
  ratesWithin lo hi brackets ->
  Forall (fun s => 0 <= IncomeSource.amount s) srcs ->
  total == Qsum (map IncomeSource.amount srcs) -> 0 < total ->
  forall st,
    Forall (fun f => Qsum (map IncomeSource.amount (BracketFill.sources f))
                     == BracketFill.incomeInBracket f)
           (OrdState.bracketFill st) ->
    Forall (fun f => Qsum (map IncomeSource.amount (BracketFill.sources f))
                     == BracketFill.incomeInBracket f)
           (OrdState.bracketFill (ordinaryLoop brackets srcs total st)).
Proof.
  intros Hok Hsrc Htotal Hpos.
  induction brackets as [ | b rest IH]; intros st Hst; simpl.
  - exact Hst.
  - destruct (ratesWithin_inv _ _ _ _ Hok) as [[_ [_ Hsize]] Hrest].
    cmp_le (OrdState.remainingIncome st) 0; [exact Hst | ].
    apply (IH Hrest). cbn [OrdState.bracketFill].
    apply Forall_app. split; [exact Hst | ].
    apply Forall_cons; [ | apply Forall_nil].
    cbn [BracketFill.sources BracketFill.incomeInBracket].
    destruct (bracket_take_range b (OrdState.remainingIncome st) ltac:(lra) Hsize)
      as [T1 _].
    set (take := num_min _ _) in *. clearbody take.
    destruct srcs as [ | s0 srcs'].
    + simpl in Htotal. exfalso; lra.
    + cmp_lt 0 total; [ | exfalso; lra].
      rewrite (distributeSources_sum _ total take Hsrc Hpos T1).
      rewrite <- Htotal. field. lra.
Qed.

(** X5: in exact arithmetic (amounts as rationals), when the attributed
    sources have non-negative amounts with a positive total, the sources
    recorded on each bracket fill add up to the income placed in that
    bracket.  (In the floating-point numbers of the source the shares
    incomeInBracket * (amount / total) add up to it only to within rounding
    in the last digits.) *)
Theorem bracket_sources_add_up_to_bracket_income (I : Q) (s : FilingStatus)
    (srcs : list IncomeSource.t) :
  Forall (fun src => 0 <= IncomeSource.amount src) srcs ->
  0 < Qsum (map IncomeSource.amount srcs) ->
  Forall (fun f => Qsum (map IncomeSource.amount (BracketFill.sources f))
                   == BracketFill.incomeInBracket f)
         (OrdinaryTaxResult.bracketFill (calculateOrdinaryIncomeTax I s srcs)).
Proof.
  intros Hsrc Hpos. unfold calculateOrdinaryIncomeTax.
  cbn [OrdinaryTaxResult.bracketFill].
  apply (ordinaryLoop_attribution 0.10 0.37 _ _ _ (federal_rates s) Hsrc).
  - rewrite fold_left_amounts. lra.
  - rewrite fold_left_amounts. lra.
  - apply Forall_nil.
Qed.

Lemma bracket_sources_add_up_to_bracket_income_witness :
  Forall (fun f => Qsum (map IncomeSource.amount (BracketFill.sources f))
                   == BracketFill.incomeInBracket f)
         (OrdinaryTaxResult.bracketFill
            (calculateOrdinaryIncomeTax 60000 single
               [IncomeSource.mk acc_traditional 50000 ordinary;
                IncomeSource.mk acc_pension 26100 ordinary])).
Proof.
  apply (bracket_sources_add_up_to_bracket_income 60000 single
           [IncomeSource.mk acc_traditional 50000 ordinary;
            IncomeSource.mk acc_pension 26100 ordinary]).
  - repeat constructor; simpl; discriminate.
  - vm_compute. reflexivity.
Defined.

(** ** Marginal bracket *)

Lemma findMarginalFrom_compat (brackets : list TaxBracket.t) (x y : Q)
    (top : TaxBracket.t) :
  x == y -> findMarginalFrom brackets x top = findMarginalFrom brackets y top.
Proof.
  intro H. induction brackets as [ | b rest IH]; simpl; [reflexivity | ].
  destruct (TaxBracket.max b) as [q | ]; simpl; [ | reflexivity].
  cmp_le x q; cmp_le y q; try (exfalso; lra); [reflexivity | exact IH].
Qed.

Lemma ordinaryLoop_marginal (brackets : list TaxBracket.t)
    (srcs : list IncomeSource.t) (total : Q) (top : TaxBracket.t) :
  forall lo st,
    contiguousFrom lo brackets ->
    0 < OrdState.remainingIncome st ->
    OrdState.marginalRate (ordinaryLoop brackets srcs total st)
    = TaxBracket.rate
        (findMarginalFrom brackets (lo + OrdState.remainingIncome st) top).
Proof.
  induction brackets as [ | b rest IH]; intros lo st Hc HR; simpl in Hc.
  - contradiction.
  - destruct Hc as [Hmin Hc]. simpl.
    cmp_le (OrdState.remainingIncome st) 0; [exfalso; lra | ].
    destruct (TaxBracket.max b) as [hi | ] eqn:Hmax.
    + destruct Hc as [Hlt Hc]. cbn [num_sub num_min num_le].
      destruct (Q.min_spec (OrdState.remainingIncome st) (hi - TaxBracket.min b))
        as [[A1 A2] | [A1 A2]].
      * (* the income ends in this bracket *)
        rewrite ordinaryLoop_done by (cbn [OrdState.remainingIncome]; lra).
        cbn [OrdState.marginalRate].
        cmp_lt 0 (Qmin (OrdState.remainingIncome st) (hi - TaxBracket.min b));
          [ | exfalso; lra].
        cmp_le (lo + OrdState.remainingIncome st) hi; [reflexivity | exfalso; lra].
      * destruct (Qlt_le_dec (hi - TaxBracket.min b) (OrdState.remainingIncome st))
          as [Hmore | Hexact].
        -- (* the income goes on above this bracket *)
           rewrite (IH hi _ Hc) by (cbn [OrdState.remainingIncome]; lra).
           cbn [OrdState.remainingIncome].
           cmp_le (lo + OrdState.remainingIncome st) hi; [exfalso; lra | ].
           f_equal. apply findMarginalFrom_compat. lra.
        -- (* the income fills this bracket exactly *)
           rewrite ordinaryLoop_done by (cbn [OrdState.remainingIncome]; lra).
           cbn [OrdState.marginalRate].
           cmp_lt 0 (Qmin (OrdState.remainingIncome st) (hi - TaxBracket.min b));
             [ | exfalso; lra].
           cmp_le (lo + OrdState.remainingIncome st) hi;
             [reflexivity | exfalso; lra].
    + subst rest. cbn [num_sub num_min num_le ordinaryLoop OrdState.marginalRate].
      cmp_lt 0 (OrdState.remainingIncome st); [reflexivity | exfalso; lra].
Qed.

Lemma federal_contiguous (s : FilingStatus) :
  contiguousFrom 0 (FEDERAL_BRACKETS s).
Proof.
  destruct s; simpl; repeat split; reflexivity.
Qed.

(** X6: for a positive taxable income the marginal rate the calculator
    reports is the rate of the bracket [findMarginalBracket] returns for
    that income (an income exactly at a bracket's top belongs to that
    bracket in both). *)
Theorem marginal_rate_is_rate_of_marginal_bracket (I : Q) (s : FilingStatus)
    (srcs : list IncomeSource.t) :
  0 < I ->
  OrdinaryTaxResult.marginalRate (calculateOrdinaryIncomeTax I s srcs)
  = TaxBracket.rate (findMarginalBracket I s).
Proof.
  intro HI. unfold calculateOrdinaryIncomeTax, findMarginalBracket.
  cbn [OrdinaryTaxResult.marginalRate]. cbv zeta.
  rewrite (ordinaryLoop_marginal _ _ _
             (last (FEDERAL_BRACKETS s) (TaxBracket.mk 0 Infinity 0)) 0 _
             (federal_contiguous s)).
  - cbn [OrdState.remainingIncome]. f_equal. apply findMarginalFrom_compat.
    unfold Math.max. rewrite Q.max_r by lra. lra.
  - cbn [OrdState.remainingIncome]. unfold Math.max.
    apply Qlt_le_trans with I; [exact HI | apply Q.le_max_r].
Qed.

Lemma marginal_rate_is_rate_of_marginal_bracket_witness :
  OrdinaryTaxResult.marginalRate (calculateOrdinaryIncomeTax 50400 single [])
  = TaxBracket.rate (findMarginalBracket 50400 single).
Proof.
  apply (marginal_rate_is_rate_of_marginal_bracket 50400 single []).
  reflexivity.
Defined.

Example marginal_rate_at_bracket_top :
  OrdinaryTaxResult.marginalRate (calculateOrdinaryIncomeTax 50400 single []) = 0.12
  /\ OrdinaryTaxResult.marginalRate (calculateOrdinaryIncomeTax 50401 single []) = 0.22.
Proof. split; vm_compute; reflexivity. Qed.

(** ** Capital gains: bounds, the 0% room, coverage *)

Lemma gainsTaxFrom_nil (R : Q) (P : num) : gainsTaxFrom [] R P == 0.
Proof. reflexivity. Qed.

Lemma gainsTaxFrom_processed_all (brackets : list TaxBracket.t) (R : Q) :
  gainsTaxFrom brackets R Infinity == 0.
Proof.
  unfold gainsTaxFrom. induction brackets as [ | b rest IH]; simpl.
  - reflexivity.
  - cbn [GainsState.remainingGains GainsState.incomeProcessed].
    cmp_le R 0; [reflexivity | exact IH].
Qed.

(** One bracket of the walk, for any gains left. *)
Lemma gainsTaxFrom_step (b : TaxBracket.t) (rest : list TaxBracket.t) (R p : Q) :
  gainsTaxFrom (b :: rest) R (Fin p)
  == if R <=? 0 then 0
     else if num_ge p (TaxBracket.max b) then gainsTaxFrom rest R (Fin p)
     else
       let g := num_min R (num_sub (TaxBracket.max b)
                             (Math.max (TaxBracket.min b) p)) in
       if g >? 0
       then g * TaxBracket.rate b + gainsTaxFrom rest (R - g) (TaxBracket.max b)
       else gainsTaxFrom rest R (TaxBracket.max b).
Proof.
  cmp_le R 0.
  - apply gainsTaxFrom_done. exact E.
  - apply gainsTaxFrom_cons. exact E.
Qed.

Lemma percent_of_rate (r : Q) : r * 100 / 100 == r.
Proof. field. Qed.

(** Unroll the walk over a table written out in full, deciding every
    comparison it makes and dropping the cases that cannot arise. *)
Ltac gains_walk :=
  rewrite ?calculateCapitalGainsTax_tax;
  unfold CAPITAL_GAINS_BRACKETS, Math.max, Math.min;
  repeat first
    [ rewrite gainsTaxFrom_processed_all
    | rewrite gainsTaxFrom_nil
    | rewrite gainsTaxFrom_step;
      cbn [TaxBracket.max TaxBracket.min TaxBracket.rate
           num_ge num_sub num_min];
      cbv zeta; unfold Math.max;
      repeat cmp_goal; repeat minmax_goal; try (exfalso; lra) ].

Ltac gains_cases :=
  repeat cmp_goal; repeat minmax_goal; rewrite ?percent_of_rate; lra.

(** X7: capital gains at or below zero (a loss) give the zero result, no
    negative tax; and for gains G >= 0 the tax lies between 0 and 20% of
    G, whatever the ordinary income they stack on. *)
Theorem capital_gains_tax_range (G O : Q) (s : FilingStatus) :
  (G <= 0 -> calculateCapitalGainsTax G O s = CapitalGainsResult.mk 0 0 [])
  /\ (0 <= G ->
      0 <= CapitalGainsResult.tax (calculateCapitalGainsTax G O s)
      /\ CapitalGainsResult.tax (calculateCapitalGainsTax G O s) <= 0.20 * G).
Proof.
  split.
  - intro H. unfold calculateCapitalGainsTax. cmp_le G 0; [reflexivity | exfalso; lra].
  - intro H. split; destruct s; gains_walk; gains_cases.
Qed.

Lemma capital_gains_tax_range_witness :
  calculateCapitalGainsTax (-3000) 40000 single = CapitalGainsResult.mk 0 0 []
  /\ CapitalGainsResult.tax (calculateCapitalGainsTax 20000 540000 single)
     <= 0.20 * 20000.
Proof.
  split.
  - apply (proj1 (capital_gains_tax_range (-3000) 40000 single)).
    vm_compute. discriminate.
  - apply (proj2 (capital_gains_tax_range 20000 540000 single)).
    vm_compute. discriminate.
Defined.

(** X8: gains that fit in the room [getZeroPercentCapGainsRoom] reports
    above a non-negative ordinary income are taxed nothing. *)
Theorem gains_within_zero_percent_room_are_untaxed (G O : Q) (s : FilingStatus) :
  0 <= O ->
  num_le G (getZeroPercentCapGainsRoom O s) = true ->
  CapitalGainsResult.tax (calculateCapitalGainsTax G O s) == 0.
Proof.
  intros HO Hroom.
  destruct s; unfold getZeroPercentCapGainsRoom in Hroom;
    simpl in Hroom; apply Qleb_true in Hroom;
    unfold Math.max in Hroom; gains_walk; gains_cases.
Qed.

Lemma gains_within_zero_percent_room_are_untaxed_witness :
  CapitalGainsResult.tax (calculateCapitalGainsTax 9450 40000 single) == 0.
Proof.
  apply (gains_within_zero_percent_room_are_untaxed 9450 40000 single).
  - vm_compute. discriminate.
  - vm_compute. reflexivity.
Defined.

(** X9: the tax on gains G >= 0 stacked on ordinary income O >= 0 is at
    most G times the rate [getCapitalGainsRate] gives for the total
    O + G (a percentage): no dollar of gains is taxed above the marginal
    capital-gains rate. *)
Theorem capital_gains_tax_at_most_marginal_rate (G O : Q) (s : FilingStatus) :
  0 <= G -> 0 <= O ->
  CapitalGainsResult.tax (calculateCapitalGainsTax G O s)
  <= G * (getCapitalGainsRate (O + G) s / 100).
Proof.
  intros HG HO.
  destruct s; unfold getCapitalGainsRate; simpl getCapitalGainsRateFrom;
    gains_walk; gains_cases.
Qed.

Lemma capital_gains_tax_at_most_marginal_rate_witness :
  CapitalGainsResult.tax (calculateCapitalGainsTax 20000 40000 single)
  <= 20000 * (getCapitalGainsRate (40000 + 20000) single / 100).
Proof.
  apply (capital_gains_tax_at_most_marginal_rate 20000 40000 single);
    vm_compute; discriminate.
Defined.

Ltac gains_state :=
  cbn [GainsState.totalTax GainsState.remainingGains GainsState.bracketBreakdown
       GainsState.incomeProcessed GainsEntry.amount GainsEntry.tax
       GainsEntry.rate] in *.

(** What the capital-gains walk preserves: gains placed plus gains left,
    and the tax total against the per-bracket taxes. *)
Lemma capitalGainsLoop_balance (brackets : list TaxBracket.t) :
  forall st,
    Qsum (map GainsEntry.amount
            (GainsState.bracketBreakdown (capitalGainsLoop brackets st)))
      + GainsState.remainingGains (capitalGainsLoop brackets st)
    == Qsum (map GainsEntry.amount (GainsState.bracketBreakdown st))
       + GainsState.remainingGains st
    /\ Qsum (map GainsEntry.tax
               (GainsState.bracketBreakdown (capitalGainsLoop brackets st)))
         - GainsState.totalTax (capitalGainsLoop brackets st)
       == Qsum (map GainsEntry.tax (GainsState.bracketBreakdown st))
          - GainsState.totalTax st.
Proof.
  induction brackets as [ | b rest IH]; intro st; simpl.
  - split; reflexivity.
  - cmp_le (GainsState.remainingGains st) 0; [split; reflexivity | ].
    destruct (GainsState.incomeProcessed st) as [p | ]; [ | apply IH].
    destruct (num_ge p (TaxBracket.max b)); [apply IH | ].
    match goal with
    | |- context [Qltb 0 ?g] => cmp_lt 0 g
    end;
      match goal with
      | |- context [capitalGainsLoop rest ?s] => destruct (IH s) as [H1 H2]
      end;
      gains_state.
    + rewrite !map_app, !Qsum_app in H1, H2. simpl in H1, H2. split; lra.
    + split; lra.
Qed.

Lemma capitalGainsLoop_remaining_nonneg (brackets : list TaxBracket.t) :
  forall st,
    0 <= GainsState.remainingGains st ->
    0 <= GainsState.remainingGains (capitalGainsLoop brackets st).
Proof.
  induction brackets as [ | b rest IH]; intros st H; simpl.
  - exact H.
  - cmp_le (GainsState.remainingGains st) 0; [exact H | ].
    destruct (GainsState.incomeProcessed st) as [p | ]; [ | apply IH; exact H].
    destruct (num_ge p (TaxBracket.max b)); [apply IH; exact H | ].
    match goal with
    | |- context [Qltb 0 ?g] => cmp_lt 0 g
    end; apply IH; gains_state; [ | exact H].
    destruct (num_sub (TaxBracket.max b) (Math.max (TaxBracket.min b) p));
      simpl in *; [minmax_goal; lra | lra].
Qed.

Lemma capitalGainsLoop_exhausts (floor : Q) (brackets : list TaxBracket.t) :
  stacked floor brackets ->
  forall st p,
    GainsState.incomeProcessed st = Fin p ->
    GainsState.remainingGains (capitalGainsLoop brackets st) <= 0.
Proof.
  induction 1 as [floor b Hb Hr | floor b top rest Hb Hr Hrest IH];
    intros st p HP; simpl;
    (cmp_le (GainsState.remainingGains st) 0; [assumption | ]);
    rewrite HP, Hb; cbn [num_ge num_sub num_min].
  - cmp_lt 0 (GainsState.remainingGains st); [ | exfalso; lra].
    gains_state. lra.
  - cmp_le top p.
    + apply (IH st p HP).
    + match goal with
      | |- context [Qltb 0 ?g] => cmp_lt 0 g
      end; apply (IH _ top); reflexivity.
Qed.

(** X10: in exact arithmetic (amounts as rationals), for gains G >= 0 the
    per-bracket amounts of the breakdown add up to G, its per-bracket taxes
    add up to the returned tax, and the effective rate times G gives the tax
    back.  (In the floating-point numbers of the source the quotient
    tax / G times G can differ from the tax in its last digits.) *)
Theorem capital_gains_breakdown_coverage (G O : Q) (s : FilingStatus) :
  0 <= G ->
  Qsum (map GainsEntry.amount
          (CapitalGainsResult.bracketBreakdown (calculateCapitalGainsTax G O s)))
  == G
  /\ Qsum (map GainsEntry.tax
             (CapitalGainsResult.bracketBreakdown (calculateCapitalGainsTax G O s)))
     == CapitalGainsResult.tax (calculateCapitalGainsTax G O s)
  /\ CapitalGainsResult.effectiveRate (calculateCapitalGainsTax G O s) * G
     == CapitalGainsResult.tax (calculateCapitalGainsTax G O s).
Proof.
  intro HG. unfold calculateCapitalGainsTax. cmp_le G 0.
  - cbn [CapitalGainsResult.bracketBreakdown CapitalGainsResult.tax
         CapitalGainsResult.effectiveRate map Qsum fold_right].
    repeat split; lra.
  - cbn [CapitalGainsResult.bracketBreakdown CapitalGainsResult.tax
         CapitalGainsResult.effectiveRate].
    set (st0 := GainsState.mk 0 G [] (Fin O)).
    destruct (capitalGainsLoop_balance (CAPITAL_GAINS_BRACKETS s) st0) as [H1 H2].
    pose proof (capitalGainsLoop_exhausts 0 _ (capital_gains_stacked s) st0 O
                  eq_refl) as Hle.
    pose proof (capitalGainsLoop_remaining_nonneg (CAPITAL_GAINS_BRACKETS s) st0)
      as Hge.
    subst st0. gains_state. simpl in H1, H2. specialize (Hge ltac:(lra)).
    cmp_lt 0 G; [ | exfalso; lra].
    repeat split; try lra.
    field. lra.
Qed.

Lemma capital_gains_breakdown_coverage_witness :
  Qsum (map GainsEntry.amount
          (CapitalGainsResult.bracketBreakdown
             (calculateCapitalGainsTax 20000 540000 single)))
  == 20000.
Proof.
  apply (capital_gains_breakdown_coverage 20000 540000 single).
  vm_compute. discriminate.
Defined.

(** X11: the net investment income tax is 0 when MAGI does not exceed the
    filing status's threshold; for a non-negative net investment income it
    is never negative and never more than 3.8% of that income nor 3.8% of the
    excess of MAGI over the threshold. *)
Theorem niit_zero_below_threshold_and_capped (nii magi : Q) (s : FilingStatus) :
  (magi <= NIIT_THRESHOLD s -> calculateNIIT nii magi s = 0)
  /\ (0 <= nii ->
      0 <= calculateNIIT nii magi s
      /\ calculateNIIT nii magi s <= 0.038 * nii
      /\ calculateNIIT nii magi s <= 0.038 * Math.max 0 (magi - NIIT_THRESHOLD s)).
Proof.
  unfold calculateNIIT, NIIT_RATE, Math.max, Math.min. cbv zeta. split.
  - intro H. cmp_goal; [reflexivity | ]. exfalso. revert E. minmax_goal; lra.
  - intro H. cmp_goal; repeat minmax_goal; repeat split; lra.
Qed.

Lemma niit_zero_below_threshold_and_capped_witness :
  calculateNIIT 50000 180000 single = 0
  /\ calculateNIIT 50000 230000 single <= 0.038 * 50000.
Proof.
  split.
  - apply (proj1 (niit_zero_below_threshold_and_capped 50000 180000 single)).
    vm_compute. discriminate.
  - apply (proj2 (niit_zero_below_threshold_and_capped 50000 230000 single)).
    vm_compute. discriminate.
Defined.

(** ** Social Security: percentages and threshold room *)

Lemma percent_bound (t B c : Q) :
  0 < B -> t * 100 <= c * B -> t / B * 100 <= c.
Proof.
  intros HB H.
  assert (t / B <= c * 0.01).
  { apply Qle_shift_div_r; [exact HB | lra]. }
  lra.
Qed.

Lemma percent_nonneg (t B : Q) : 0 < B -> 0 <= t -> 0 <= t / B * 100.
Proof.
  intros HB H. assert (0 <= t / B) by (apply Qdiv_nonneg; lra). lra.
Qed.

(** X12: in exact arithmetic (amounts as rationals), the taxable percent
    reported for Social Security lies between 0 and 85, and at or below the
    second threshold it is at most 50.  (In the floating-point numbers of the
    source (amount / benefit) * 100 can come out as 85.00000000000001.) *)
Theorem ss_taxable_percent_range (B o e : Q) (s : FilingStatus) :
  0 <= SSResult.taxablePercent (calculateSocialSecurityTaxable B o e s)
  /\ SSResult.taxablePercent (calculateSocialSecurityTaxable B o e s) <= 85
  /\ (o + e + B * 0.5 <= fiftyThreshold (ssThresholds s) ->
      SSResult.taxablePercent (calculateSocialSecurityTaxable B o e s) <= 50).
Proof.
  destruct s; ss_cases; repeat split; intros; try lra;
    try (apply percent_nonneg; [lra | unfold Math.min; repeat minmax_goal; lra]);
    try (apply percent_bound; [lra | unfold Math.min; repeat minmax_goal; lra]).
Qed.

Lemma ss_taxable_percent_range_witness :
  SSResult.taxablePercent (calculateSocialSecurityTaxable 20000 20000 0 single) <= 50.
Proof.
  apply (ss_taxable_percent_range 20000 20000 0 single).
  vm_compute. discriminate.
Defined.

(** X13: while [getSSThresholdRoom] reports room left below the first
    threshold for the provisional income of a benefit, none of the benefit
    is taxable. *)
Theorem ss_untaxed_while_room_below_first_threshold (B o e : Q) (s : FilingStatus) :
  0 < ThresholdRoom.toFiftyPercent (getSSThresholdRoom (o + e + B * 0.5) s) ->
  SSResult.taxableAmount (calculateSocialSecurityTaxable B o e s) == 0.
Proof.
  unfold getSSThresholdRoom. cbn [ThresholdRoom.toFiftyPercent].
  unfold Math.max. intro H.
  destruct s; revert H;
    unfold ssThresholds, SS_TAXATION_THRESHOLDS.single, SS_TAXATION_THRESHOLDS.mfj;
    cbn [zeroThreshold]; intro H; ss_cases;
    try reflexivity; exfalso; revert H; minmax_goal; lra.
Qed.

Lemma ss_untaxed_while_room_below_first_threshold_witness :
  SSResult.taxableAmount (calculateSocialSecurityTaxable 20000 10000 0 single) == 0.
Proof.
  apply (ss_untaxed_while_room_below_first_threshold 20000 10000 0 single).
  vm_compute. reflexivity.
Defined.

(** ** Required minimum distributions: size, helpers, schedule *)

Lemma tableGet_at_least (c : Q) (table : list (Z * Q)) (key : Z) (v : Q) :
  Forall (fun entry => c <= snd entry) table ->
  tableGet table key = Some v -> c <= v.
Proof.
  induction 1 as [ | [k w] rest Hw _ IH]; simpl; intro H.
  - discriminate.
  - destruct (Z.eqb k key); [injection H as <-; exact Hw | exact (IH H)].
Qed.

Lemma table_divisors_at_least_two :
  Forall (fun entry => 2 <= snd entry) UNIFORM_LIFETIME_TABLE.
Proof. unfold UNIFORM_LIFETIME_TABLE. repeat constructor; simpl; discriminate. Qed.

Lemma getDistributionPeriod_at_least_two (age : Z) :
  (73 <= age)%Z -> 2 <= getDistributionPeriod age.
Proof.
  intro H. unfold getDistributionPeriod, RMD_START_AGE.
  destruct (Z.ltb_spec age 73) as [Hlt | _]; [lia | ].
  destruct (tableGet UNIFORM_LIFETIME_TABLE age) as [v | ] eqn:E.
  - exact (tableGet_at_least 2 _ _ _ table_divisors_at_least_two E).
  - vm_compute. discriminate.
Qed.

Lemma calculateRMD_required (age : Z) (B : Q) :
  (73 <= age)%Z -> 0 < B ->
  RMDInfo.amount (calculateRMD age B)
  = Math.round (B / getDistributionPeriod age).
Proof.
  intros Ha Hb. unfold calculateRMD, RMD_START_AGE.
  destruct (Z.ltb_spec age 73) as [Hlt | _]; [lia | ].
  cmp_le B 0; [exfalso; lra | reflexivity].
Qed.

Lemma calculateRMD_not_required (age : Z) (B : Q) :
  (age < 73)%Z \/ B <= 0 -> RMDInfo.amount (calculateRMD age B) = 0.
Proof.
  intros [Ha | Hb]; unfold calculateRMD, RMD_START_AGE.
  - destruct (Z.ltb_spec age 73) as [_ | Hge]; [reflexivity | lia].
  - destruct (age <? 73)%Z; simpl; [reflexivity | ].
    cmp_le B 0; [reflexivity | exfalso; lra].
Qed.

Lemma rounded_half_at_most (x B : Q) :
  0 <= B -> x <= B * 0.5 -> Math.round x <= B.
Proof.
  intros HB Hx. pose proof (round_upper x) as Hup.
  unfold Math.round in *.
  destruct (Z_le_gt_dec (Qfloor (x + 0.5)) 0) as [Hz | Hz].
  - apply Qle_trans with 0; [ | exact HB].
    change 0 with (inject_Z 0). rewrite <- Zle_Qle. exact Hz.
  - assert (H1 : 1 <= inject_Z (Qfloor (x + 0.5))).
    { change 1 with (inject_Z 1). rewrite <- Zle_Qle. lia. }
    lra.
Qed.

Lemma calculateRMD_amount_le_balance (age : Z) (B : Q) :
  0 <= B -> RMDInfo.amount (calculateRMD age B) <= B.
Proof.
  intro HB.
  destruct (Z_lt_ge_dec age 73) as [Ha | Ha].
  - rewrite calculateRMD_not_required by (left; exact Ha). exact HB.
  - destruct (Qlt_le_dec 0 B) as [Hpos | Hzero].
    + rewrite calculateRMD_required by (try lia; exact Hpos).
      pose proof (getDistributionPeriod_at_least_two age ltac:(lia)) as HD.
      apply rounded_half_at_most; [exact HB | ].
      apply Qle_shift_div_r; [lra | nra].
    + rewrite calculateRMD_not_required by (right; exact Hzero). exact HB.
Qed.

(** X14: the RMD never exceeds the balance it is computed on (for a
    balance >= 0), and for a fixed age it never falls when the balance
    rises. *)
Theorem rmd_within_balance_and_monotone (age : Z) (B1 B2 : Q) :
  0 <= B1 -> B1 <= B2 ->
  RMDInfo.amount (calculateRMD age B1) <= B1
  /\ RMDInfo.amount (calculateRMD age B1) <= RMDInfo.amount (calculateRMD age B2).
Proof.
  intros H1 H12. split; [apply calculateRMD_amount_le_balance; exact H1 | ].
  destruct (Z_lt_ge_dec age 73) as [Ha | Ha].
  - rewrite !calculateRMD_not_required by (left; exact Ha). lra.
  - destruct (Qlt_le_dec 0 B1) as [Hpos | Hzero].
    + rewrite !calculateRMD_required by (try lia; lra).
      pose proof (getDistributionPeriod_at_least_two age ltac:(lia)) as HD.
      apply round_mono. unfold Qdiv. apply Qmult_le_compat_r; [exact H12 | ].
      apply Qinv_le_0_compat. lra.
    + rewrite (calculateRMD_not_required age B1) by (right; exact Hzero).
      apply calculateRMD_amount_nonneg.
Qed.

Lemma rmd_within_balance_and_monotone_witness :
  RMDInfo.amount (calculateRMD 120 1) <= 1
  /\ RMDInfo.amount (calculateRMD 120 1) <= RMDInfo.amount (calculateRMD 120 500000).
Proof.
  apply (rmd_within_balance_and_monotone 120 1 500000); vm_compute; discriminate.
Defined.

(** X15: waiting the years [getYearsUntilRMD] reports reaches an age at
    which [isRMDRequired] holds; the wait is never negative and is 0 exactly
    at the ages where an RMD is required; and [calculateRMD] reports a
    required distribution only at such ages. *)
Theorem years_until_rmd_reach_rmd_age (age : Z) (B : Q) :
  isRMDRequired (age + getYearsUntilRMD age) = true
  /\ (0 <= getYearsUntilRMD age)%Z
  /\ (getYearsUntilRMD age = 0%Z <-> isRMDRequired age = true)
  /\ (RMDInfo.isRequired (calculateRMD age B) = true -> isRMDRequired age = true).
Proof.
  unfold isRMDRequired, getYearsUntilRMD, calculateRMD, RMD_START_AGE.
  destruct (Z.geb_spec age 73) as [Hge | Hlt].
  - split; [apply Z.geb_le; lia | ].
    split; [lia | ]. split; [split; reflexivity | reflexivity].
  - split; [apply Z.geb_le; lia | ].
    split; [lia | ]. split; [split; intro H; [lia | discriminate] | ].
    destruct (Z.ltb_spec age 73) as [_ | Hge]; [ | lia]. simpl. discriminate.
Qed.

Lemma years_until_rmd_reach_rmd_age_witness :
  isRMDRequired (65 + getYearsUntilRMD 65) = true
  /\ (RMDInfo.isRequired (calculateRMD 80 100000) = true -> isRMDRequired 80 = true).
Proof.
  split.
  - apply (years_until_rmd_reach_rmd_age 65 0).
  - apply (years_until_rmd_reach_rmd_age 80 100000).
Defined.

Section RmdSchedule.
Variables currentAge currentYear : Z.
Variables estimatedGrowthRate additionalWithdrawals : Q.

(** The entries pushed so far stay in front of those a further run adds. *)
Lemma rmdScheduleLoop_acc (n : nat) :
  forall age balance projections,
    rmdScheduleLoop currentAge currentYear estimatedGrowthRate
      additionalWithdrawals n age balance projections
    = projections
      ++ rmdScheduleLoop currentAge currentYear estimatedGrowthRate
           additionalWithdrawals n age balance [].
Proof.
  induction n as [ | n IH]; intros age balance projections;
    cbn [rmdScheduleLoop]; cbv zeta.
  - rewrite app_nil_r. reflexivity.
  - rewrite IH. symmetry. rewrite IH. rewrite app_assoc. reflexivity.
Qed.

(** The entry of one year followed by the schedule from the next year on. *)
Lemma rmdScheduleLoop_unfold (n : nat) (age : Z) (balance : Q) :
  rmdScheduleLoop currentAge currentYear estimatedGrowthRate
    additionalWithdrawals (S n) age balance []
  = ScheduleYear.mk (currentYear + (age - currentAge)) age
      (Math.round balance)
      (Math.round (RMDInfo.amount (calculateRMD age balance)))
      (Math.round (Math.min (RMDInfo.amount (calculateRMD age balance)
                             + additionalWithdrawals) balance))
      (Math.round
         (Math.max 0
            ((balance
              - Math.min (RMDInfo.amount (calculateRMD age balance)
                          + additionalWithdrawals) balance)
             * (1 + estimatedGrowthRate))))
    :: rmdScheduleLoop currentAge currentYear estimatedGrowthRate
         additionalWithdrawals n (age + 1)
         (Math.max 0
            ((balance
              - Math.min (RMDInfo.amount (calculateRMD age balance)
                          + additionalWithdrawals) balance)
             * (1 + estimatedGrowthRate)))
         [].
Proof.
  cbn [rmdScheduleLoop]. cbv zeta. rewrite rmdScheduleLoop_acc. reflexivity.
Qed.

Lemma rmdScheduleLoop_length (n : nat) :
  forall age balance,
    length (rmdScheduleLoop currentAge currentYear estimatedGrowthRate
              additionalWithdrawals n age balance []) = n.
Proof.
  induction n as [ | n IH]; intros age balance.
  - reflexivity.
  - rewrite rmdScheduleLoop_unfold. simpl. rewrite IH. reflexivity.
Qed.

Lemma rmdScheduleLoop_entries (n : nat) :
  forall age balance,
    Forall (fun e =>
              (age <= ScheduleYear.age e < age + Z.of_nat n)%Z
              /\ ScheduleYear.totalWithdrawal e <= ScheduleYear.startBalance e
              /\ 0 <= ScheduleYear.endBalance e
              /\ 0 <= ScheduleYear.rmd e
              /\ ((ScheduleYear.age e < 73)%Z -> ScheduleYear.rmd e == 0))
           (rmdScheduleLoop currentAge currentYear estimatedGrowthRate
              additionalWithdrawals n age balance []).
Proof.
  induction n as [ | n IH]; intros age balance.
  - apply Forall_nil.
  - rewrite rmdScheduleLoop_unfold. apply Forall_cons.
    + cbn [ScheduleYear.age ScheduleYear.totalWithdrawal ScheduleYear.startBalance
           ScheduleYear.endBalance ScheduleYear.rmd].
      split; [lia | ]. split; [ | split; [ | split]].
      * apply round_mono. unfold Math.min. apply Q.le_min_r.
      * apply round_nonneg. unfold Math.max. apply Q.le_max_l.
      * apply round_nonneg. apply calculateRMD_amount_nonneg.
      * intro Hage. rewrite calculateRMD_not_required by (left; exact Hage).
        reflexivity.
    + eapply Forall_impl; [ | apply IH].
      intros e [Hage Hrest]. split; [lia | exact Hrest].
Qed.

Lemma rmdScheduleLoop_chain (n : nat) :
  forall age balance i e1 e2,
    nth_error (rmdScheduleLoop currentAge currentYear estimatedGrowthRate
                 additionalWithdrawals n age balance []) i = Some e1 ->
    nth_error (rmdScheduleLoop currentAge currentYear estimatedGrowthRate
                 additionalWithdrawals n age balance []) (S i) = Some e2 ->
    ScheduleYear.startBalance e2 = ScheduleYear.endBalance e1
    /\ ScheduleYear.age e2 = (ScheduleYear.age e1 + 1)%Z
    /\ ScheduleYear.year e2 = (ScheduleYear.year e1 + 1)%Z.
Proof.
  induction n as [ | n IH]; intros age balance i e1 e2 H1 H2.
  - destruct i; discriminate.
  - rewrite rmdScheduleLoop_unfold in H1, H2.
    destruct i as [ | i].
    + simpl in H1. injection H1 as <-.
      change (nth_error (?x :: ?l) 1) with (nth_error l 0) in H2.
      destruct n as [ | n]; [discriminate | ].
      rewrite rmdScheduleLoop_unfold in H2. simpl in H2. injection H2 as <-.
      cbn [ScheduleYear.startBalance ScheduleYear.endBalance ScheduleYear.age
           ScheduleYear.year].
      repeat split; lia.
    + change (nth_error (?x :: ?l) (S ?k)) with (nth_error l k) in H1, H2.
      exact (IH _ _ _ _ _ H1 H2).
Qed.

(** The ages and calendar years of the entries count up from the first. *)
Lemma rmdScheduleLoop_ages (n : nat) :
  forall age balance,
    map ScheduleYear.age
      (rmdScheduleLoop currentAge currentYear estimatedGrowthRate
         additionalWithdrawals n age balance [])
    = map (fun i => (age + Z.of_nat i)%Z) (seq 0 n)
    /\ map ScheduleYear.year
         (rmdScheduleLoop currentAge currentYear estimatedGrowthRate
            additionalWithdrawals n age balance [])
       = map (fun i => (currentYear + (age + Z.of_nat i - currentAge))%Z) (seq 0 n).
Proof.
  induction n as [ | n IH]; intros age balance.
  - split; reflexivity.
  - rewrite rmdScheduleLoop_unfold. cbn [map seq ScheduleYear.age ScheduleYear.year].
    match goal with
    | |- context [rmdScheduleLoop _ _ _ _ n (age + 1)%Z ?b []] =>
        destruct (IH (age + 1)%Z b) as [I1 I2]
    end.
    rewrite I1, I2. rewrite <- !seq_shift, !map_map.
    split; f_equal.
    + f_equal. lia.
    + apply map_ext. intro i. lia.
    + f_equal. lia.
    + apply map_ext. intro i. lia.
Qed.
End RmdSchedule.

(** X16: the RMD schedule has exactly one entry per age from currentAge to
    endAge, in order, with calendar years counting up from the current one
    (no entry when endAge is below currentAge), and the first entry starts
    with the current balance rounded; in every entry the total withdrawal is
    at most the start balance, the end balance and the RMD are not negative,
    and the RMD is 0 before age 73; and each entry starts with the balance
    the entry before it ended with, one age and one year later. *)
Theorem rmd_schedule_shape (currentAge endAge : Z) (currentBalance growth extra : Q)
    (currentYear : Z) :
  let schedule :=
    projectRMDSchedule currentAge endAge currentBalance growth extra currentYear in
  length schedule = Z.to_nat (endAge - currentAge + 1)
  /\ map ScheduleYear.age schedule
     = map (fun i => (currentAge + Z.of_nat i)%Z)
         (seq 0 (Z.to_nat (endAge - currentAge + 1)))
  /\ map ScheduleYear.year schedule
     = map (fun i => (currentYear + Z.of_nat i)%Z)
         (seq 0 (Z.to_nat (endAge - currentAge + 1)))
  /\ (forall e, hd_error schedule = Some e ->
        ScheduleYear.startBalance e = Math.round currentBalance)
  /\ Forall (fun e =>
               (currentAge <= ScheduleYear.age e <= endAge)%Z
               /\ ScheduleYear.totalWithdrawal e <= ScheduleYear.startBalance e
               /\ 0 <= ScheduleYear.endBalance e
               /\ 0 <= ScheduleYear.rmd e
               /\ ((ScheduleYear.age e < 73)%Z -> ScheduleYear.rmd e == 0))
            schedule
  /\ (forall i e1 e2,
        nth_error schedule i = Some e1 -> nth_error schedule (S i) = Some e2 ->
        ScheduleYear.startBalance e2 = ScheduleYear.endBalance e1
        /\ ScheduleYear.age e2 = (ScheduleYear.age e1 + 1)%Z
        /\ ScheduleYear.year e2 = (ScheduleYear.year e1 + 1)%Z).
Proof.
  intro schedule. subst schedule. unfold projectRMDSchedule, loopYears.
  destruct (rmdScheduleLoop_ages currentAge currentYear growth extra
              (Z.to_nat (endAge - currentAge + 1)) currentAge currentBalance)
    as [Hages Hyears].
  split; [apply rmdScheduleLoop_length | ].
  split; [exact Hages | ].
  split; [rewrite Hyears; apply map_ext; intro i; lia | ].
  split; [ | split].
  - intro e. destruct (Z.to_nat (endAge - currentAge + 1)) as [ | n];
      [discriminate | ].
    rewrite rmdScheduleLoop_unfold. simpl. intro H. injection H as <-. reflexivity.
  - eapply Forall_impl; [ | apply rmdScheduleLoop_entries].
    intros e [Hage Hrest]. split; [lia | exact Hrest].
  - apply rmdScheduleLoop_chain.
Qed.

Lemma rmd_schedule_shape_witness :
  ScheduleYear.startBalance
    (nth 1 (projectRMDSchedule 72 74 500000 0.05 0 2026)
       (ScheduleYear.mk 0 0 0 0 0 0))
  = ScheduleYear.endBalance
      (nth 0 (projectRMDSchedule 72 74 500000 0.05 0 2026)
         (ScheduleYear.mk 0 0 0 0 0 0)).
Proof.
  destruct (rmd_schedule_shape 72 74 500000 0.05 0 2026)
    as [_ [_ [_ [_ [_ Hchain]]]]].
  apply (Hchain 0%nat); reflexivity.
Defined.

Lemma fold_left_rmd_zero (schedule : list ScheduleYear.t) :
  Forall (fun e => ScheduleYear.rmd e == 0) schedule ->
  forall a, fold_left (fun total year => total + ScheduleYear.rmd year) schedule a == a.
Proof.
  induction 1 as [ | e rest He _ IH]; intro a; simpl.
  - reflexivity.
  - rewrite IH. lra.
Qed.

(** X17: a schedule that ends before age 73 totals no RMD at all. *)
Theorem no_rmds_before_age_73 (currentAge endAge : Z) (currentBalance growth : Q)
    (currentYear : Z) :
  (endAge < 73)%Z ->
  calculateTotalRMDs currentAge endAge currentBalance growth currentYear == 0.
Proof.
  intro Hend. unfold calculateTotalRMDs, projectRMDSchedule, loopYears. cbv zeta.
  apply fold_left_rmd_zero.
  eapply Forall_impl; [ | apply rmdScheduleLoop_entries].
  intros e [Hage [_ [_ [_ Hzero]]]]. apply Hzero.
  lia.
Qed.

Lemma no_rmds_before_age_73_witness :
  calculateTotalRMDs 60 72 500000 0.05 2026 == 0.
Proof.
  apply (no_rmds_before_age_73 60 72 500000 0.05 2026). lia.
Defined.

(** ** Deductions *)

(** X18: the deduction is never below the standard deduction; with
    itemizing requested and an itemized amount given it is the larger of
    the two; and its type is itemized exactly when itemizing is requested
    with an amount above the standard deduction. *)
Theorem deduction_is_larger_of_standard_and_itemized (s : FilingStatus)
    (useItemized : bool) (itemizedAmount : option Q) :
  STANDARD_DEDUCTION s <= Deduction.amount (calculateDeduction s useItemized itemizedAmount)
  /\ (forall v, useItemized = true -> itemizedAmount = Some v ->
        Deduction.amount (calculateDeduction s useItemized itemizedAmount)
        == Qmax (STANDARD_DEDUCTION s) v)
  /\ (Deduction.type (calculateDeduction s useItemized itemizedAmount) = itemized
      <-> useItemized = true
          /\ exists v, itemizedAmount = Some v /\ STANDARD_DEDUCTION s < v).
Proof.
  assert (Hstd : 0 < STANDARD_DEDUCTION s) by (destruct s; reflexivity).
  unfold calculateDeduction. cbv zeta.
  destruct useItemized; cbn [negb orb].
  - destruct itemizedAmount as [v | ]; cbn [truthy nullish negb Deduction.amount].
    + unfold Qeqb. destruct (Qeq_dec v 0) as [Hz | Hnz]; cbn [negb].
      * cbn [Deduction.amount Deduction.type]. split; [lra | split].
        -- intros v' _ Hv. injection Hv as <-. rewrite Q.max_l by lra. reflexivity.
        -- split; [discriminate | ].
           intros [_ [v' [Hv Hlt]]]. injection Hv as <-. exfalso; lra.
      * cmp_lt (STANDARD_DEDUCTION s) v; cbn [Deduction.amount Deduction.type].
        -- split; [lra | split].
           ++ intros v' _ Hv. injection Hv as <-. rewrite Q.max_r by lra. reflexivity.
           ++ split; [ | reflexivity].
              intros _. split; [reflexivity | ]. exists v. split; [reflexivity | exact E].
        -- split; [lra | split].
           ++ intros v' _ Hv. injection Hv as <-. rewrite Q.max_l by lra. reflexivity.
           ++ split; [discriminate | ].
              intros [_ [v' [Hv Hlt]]]. injection Hv as <-. exfalso; lra.
    + cbn [Deduction.amount Deduction.type]. split; [lra | split].
      * intros v _ Hv. discriminate.
      * split; [discriminate | ]. intros [_ [v [Hv _]]]. discriminate.
  - cbn [Deduction.amount Deduction.type]. split; [lra | split].
    + intros v Hu. discriminate.
    + split; [discriminate | ]. intros [Hu _]. discriminate.
Qed.

Lemma deduction_is_larger_of_standard_and_itemized_witness :
  Deduction.amount (calculateDeduction single true (Some 20000))
  == Qmax (STANDARD_DEDUCTION single) 20000.
Proof.
  apply (deduction_is_larger_of_standard_and_itemized single true (Some 20000));
    reflexivity.
Defined.

(** ** Withdrawal strategy: what the phases keep *)

Lemma low_bracket_addition (room : num) (mult rem avail tw : Q) :
  0 < mult -> num_pos room = true -> 0 < rem -> tw < avail ->
  0 <= num_min3 (num_div room mult) rem (avail - tw)
  /\ num_min3 (num_div room mult) rem (avail - tw) <= rem
  /\ num_min3 (num_div room mult) rem (avail - tw) <= avail - tw.
Proof.
  intros Hm Hroom Hrem Htw. destruct room as [q | ]; simpl in *.
  - apply Qltb_true in Hroom.
    assert (0 <= q / mult) by (apply Qdiv_nonneg; lra).
    repeat minmax_goal; repeat split; lra.
  - repeat minmax_goal; repeat split; lra.
Qed.

(** Strategy 1 moves need into the traditional withdrawal: their sum stays,
    the withdrawal never falls, the need never rises nor turns negative, and
    the withdrawal stays within the balance. *)
Lemma fillLowBrackets_inv (brackets : list LowBracket.t)
    (ss pen ded avail : Q) (s : FilingStatus) :
  forall tw rem,
    fst (fillLowBrackets brackets ss pen ded avail s (tw, rem))
      + snd (fillLowBrackets brackets ss pen ded avail s (tw, rem))
    == tw + rem
    /\ tw <= fst (fillLowBrackets brackets ss pen ded avail s (tw, rem))
    /\ snd (fillLowBrackets brackets ss pen ded avail s (tw, rem)) <= rem
    /\ (0 <= rem ->
        0 <= snd (fillLowBrackets brackets ss pen ded avail s (tw, rem)))
    /\ (tw <= avail ->
        fst (fillLowBrackets brackets ss pen ded avail s (tw, rem)) <= avail).
Proof.
  induction brackets as [ | b rest IH]; intros tw rem; cbn [fillLowBrackets].
  - cbn [fst snd]. repeat split; intros; lra.
  - cmp_le rem 0; [cbn [fst snd]; repeat split; intros; lra | ].
    cmp_le avail tw; [cbn [fst snd]; repeat split; intros; lra | ].
    cbv zeta.
    match goal with
    | |- context [num_pos ?r] => destruct (num_pos r) eqn:Hroom
    end.
    + match goal with
      | |- context [num_min3 (num_div ?r ?m) rem (avail - tw)] =>
          assert (Hm : 0 < m) by (cmp_goal; reflexivity);
          destruct (low_bracket_addition r m rem avail tw Hm Hroom E E0)
            as [A1 [A2 A3]];
          set (add := num_min3 (num_div r m) rem (avail - tw)) in *;
          clearbody add
      end.
      destruct (IH (tw + add) (rem - add)) as [I1 [I2 [I3 [I4 I5]]]].
      repeat split; intros; lra.
    + apply IH.
Qed.

(** Strategy 2 takes from the need what it puts in the taxable
    withdrawal, never more than the account holds. *)
Lemma harvestZeroGains_inv (p : Portfolio.t) (s : FilingStatus)
    (tw ssTaxable deduction available remaining : Q) :
  fst (harvestZeroGains p s tw ssTaxable deduction available remaining)
    + snd (harvestZeroGains p s tw ssTaxable deduction available remaining)
  == remaining
  /\ 0 <= fst (harvestZeroGains p s tw ssTaxable deduction available remaining)
  /\ (0 <= remaining ->
      0 <= snd (harvestZeroGains p s tw ssTaxable deduction available remaining))
  /\ (0 <= available ->
      fst (harvestZeroGains p s tw ssTaxable deduction available remaining)
      <= available).
Proof.
  split; [ | split; [apply harvestZeroGains_nonneg | ]];
    unfold harvestZeroGains;
    (cmp_lt 0 remaining; [ | cbn [andb fst snd]; try split; intros; lra]);
    (cmp_lt 0 available; [ | cbn [andb fst snd]; try split; intros; lra]);
    cbn [andb];
    destruct (zero_rate_bracket s) as [top [rate [rest [Hb Htop]]]]; rewrite Hb;
    cbn [TaxBracket.max num_lt num_sub]; cbv zeta;
    (cmp_lt (tw + ssTaxable - deduction) top;
     [ | cbn [fst snd]; try split; intros; lra]);
    match goal with
    | |- context [Qltb 0 ?r] => set (ratio := r); cmp_lt 0 ratio
    end; cbn [fst snd num_div num_min3];
    try lra;
    try (assert (Hroom : 0 <= (top - Math.max 0 (tw + ssTaxable - deduction)) / ratio)
           by (apply Qdiv_nonneg; [unfold Math.max; minmax_goal; lra | lra]));
    split; intros; repeat minmax_goal; lra.
Qed.

Lemma calculateRMD_amount_whole (age : Z) (B : Q) :
  Math.round (RMDInfo.amount (calculateRMD age B))
  == RMDInfo.amount (calculateRMD age B).
Proof.
  unfold calculateRMD.
  destruct ((age <? RMD_START_AGE)%Z || (B <=? 0))%bool; cbn [RMDInfo.amount].
  - reflexivity.
  - unfold Math.round at 2. apply round_Z.
Qed.

(** The plan behind [initialStrategy] before rounding: the amounts [tw],
    [tx] and [ro] drawn from the three accounts. *)
Lemma initialStrategy_plan (p : Portfolio.t) (g : IncomeGoal.t) :
  let rmd := RMDInfo.amount
               (calculateRMD (IncomeGoal.primaryAge g) (priorYearBalanceOf p)) in
  let targetGross :=
    match IncomeGoal.targetType g with
    | gross => IncomeGoal.amount g
    | afterTax =>
        estimateGrossForAfterTax (IncomeGoal.amount g) (IncomeGoal.filingStatus g)
          (Deduction.amount
             (calculateDeduction (IncomeGoal.filingStatus g)
                (IncomeGoal.useItemizedDeductions g) (IncomeGoal.itemizedAmount g)))
    end in
  exists tw tx ro : Q,
    initialStrategy p g
    = WithdrawalStrategy.mk (Math.max (Math.round tw) rmd) (Math.round tx)
        (Math.round ro) (Math.round (ssAnnualOf p))
        (Math.round (pensionAnnualOf p)) rmd true
    /\ rmd <= tw /\ 0 <= tx /\ 0 <= ro
    /\ (ssAnnualOf p + pensionAnnualOf p + rmd <= targetGross ->
        tw + tx + ro + ssAnnualOf p + pensionAnnualOf p <= targetGross)
    /\ (tw + tx + ro + ssAnnualOf p + pensionAnnualOf p < targetGross ->
        traditionalBalanceOf p <= tw /\ taxableBalanceOf p <= tx
        /\ rothBalanceOf p <= ro)
    /\ (rmd <= traditionalBalanceOf p -> tw <= traditionalBalanceOf p)
    /\ (0 <= taxableBalanceOf p -> tx <= taxableBalanceOf p)
    /\ (0 <= rothBalanceOf p -> ro <= rothBalanceOf p).
Proof.
  intros rmd targetGross. unfold initialStrategy. cbv zeta.
  fold rmd. fold targetGross.
  match goal with
  | |- context [fillLowBrackets ?bs ?a ?b ?c ?d ?e (rmd, ?r0)] =>
      destruct (fillLowBrackets_inv bs a b c d e rmd r0) as [F1 [F2 [F3 [F4 F5]]]];
      destruct (fillLowBrackets bs a b c d e (rmd, r0)) as [tw1 rem1]
  end.
  cbn [fst snd] in F1, F2, F3, F4, F5.
  match goal with
  | |- context [harvestZeroGains ?a ?b ?c ?d ?e ?f ?h] =>
      destruct (harvestZeroGains_inv a b c d e f h) as [H1 [H2 [H3 H4]]];
      destruct (harvestZeroGains a b c d e f h) as [tx2 rem2]
  end.
  cbn [fst snd] in H1, H2, H3, H4.
  cmp_lt 0 rem2; cmp_lt 0 (rothBalanceOf p); cbn [andb];
    (match goal with
     | |- context [Qltb 0 ?r && Qltb tw1 ?a] =>
         cmp_lt 0 r; cmp_lt tw1 a; cbn [andb]
     end);
    (match goal with
     | |- context [Qltb 0 ?r && Qltb tx2 ?a] =>
         cmp_lt 0 r; cmp_lt tx2 a; cbn [andb]
     end);
    unfold Math.min in *;
    eexists; eexists; eexists;
    (split; [reflexivity | ]);
    repeat minmax_goal; repeat split; intros; lra.
Qed.

Lemma generateStrategy_gross (p : Portfolio.t) (g : IncomeGoal.t) :
  IncomeGoal.targetType g = gross -> generateStrategy p g = initialStrategy p g.
Proof. intro H. unfold generateStrategy. rewrite H. reflexivity. Qed.

Lemma generateStrategy_rmd_le (p : Portfolio.t) (g : IncomeGoal.t) :
  WithdrawalStrategy.rmdAmount (generateStrategy p g)
  <= WithdrawalStrategy.traditionalWithdrawal (generateStrategy p g).
Proof.
  destruct (initialStrategy_rmd p g) as [_ I2].
  unfold generateStrategy. cbv zeta. destruct (IncomeGoal.targetType g).
  - unfold refineForAfterTaxTarget. cbv zeta.
    match goal with
    | |- context [refineLoop ?n ?s ?b p g] =>
        destruct (refineLoop_rmd n s b p g I2) as [L1 L2]
    end.
    rewrite L1. exact L2.
  - exact I2.
Qed.

Lemma breakdown_rmdIsSatisfied (s : WithdrawalStrategy.t) (p : Portfolio.t)
    (g : IncomeGoal.t) :
  TaxBreakdown.rmdIsSatisfied (calculateTaxBreakdown s p g)
  = ((WithdrawalStrategy.rmdAmount s =? 0)
     || (WithdrawalStrategy.traditionalWithdrawal s
         >=? WithdrawalStrategy.rmdAmount s))%bool.
Proof. reflexivity. Qed.

(** X19: the tax breakdown of a generated strategy always reports the RMD
    as satisfied, for every portfolio and goal. *)
Theorem generated_strategy_satisfies_rmd_in_breakdown (p : Portfolio.t)
    (g : IncomeGoal.t) :
  TaxBreakdown.rmdIsSatisfied
    (calculateTaxBreakdown (generateStrategy p g) p g) = true.
Proof.
  rewrite breakdown_rmdIsSatisfied.
  pose proof (generateStrategy_rmd_le p g) as H.
  apply orb_true_iff. right. apply Qleb_true. exact H.
Qed.

Lemma refineAdjust_flag (s : WithdrawalStrategy.t) (p : Portfolio.t) (d : Q) :
  WithdrawalStrategy.isSystemGenerated (refineAdjust s p d)
  = WithdrawalStrategy.isSystemGenerated s.
Proof.
  unfold refineAdjust. cbv zeta. repeat cmp_goal; reflexivity.
Qed.

Lemma refineLoop_forced (n : nat) :
  forall (s : WithdrawalStrategy.t) (b : TaxBreakdown.t) (p : Portfolio.t)
         (g : IncomeGoal.t),
    WithdrawalStrategy.socialSecurityIncome (refineLoop n s b p g)
    = WithdrawalStrategy.socialSecurityIncome s
    /\ WithdrawalStrategy.pensionIncome (refineLoop n s b p g)
       = WithdrawalStrategy.pensionIncome s
    /\ WithdrawalStrategy.isSystemGenerated (refineLoop n s b p g)
       = WithdrawalStrategy.isSystemGenerated s.
Proof.
  induction n as [ | n IH]; intros s b p g; cbn [refineLoop]; cbv zeta.
  - repeat split.
  - cmp_lt (Math.abs (IncomeGoal.amount g - TaxBreakdown.afterTaxIncome b)) 500.
    + repeat split.
    + match goal with
      | |- context [refineLoop n ?s' ?b' p g] =>
          destruct (IH s' b' p g) as [I1 [I2 I3]]
      end.
      destruct (refineAdjust_rmd s p
                  (IncomeGoal.amount g - TaxBreakdown.afterTaxIncome b))
        as [_ [R2 [R3 _]]].
      rewrite I1, I2, I3, R2, R3, refineAdjust_flag. repeat split.
Qed.

Lemma generated_strategy_forced (p : Portfolio.t) (g : IncomeGoal.t) :
  WithdrawalStrategy.socialSecurityIncome (generateStrategy p g)
  = Math.round (ssAnnualOf p)
  /\ WithdrawalStrategy.pensionIncome (generateStrategy p g)
     = Math.round (pensionAnnualOf p)
  /\ WithdrawalStrategy.isSystemGenerated (generateStrategy p g) = true.
Proof.
  destruct (initialStrategy_plan p g) as [tw [tx [ro [Hs _]]]].
  unfold generateStrategy. cbv zeta. destruct (IncomeGoal.targetType g).
  - unfold refineForAfterTaxTarget. cbv zeta.
    match goal with
    | |- context [refineLoop ?n ?s ?b p g] =>
        destruct (refineLoop_forced n s b p g) as [L1 [L2 L3]]
    end.
    rewrite L1, L2, L3, Hs. repeat split.
  - rewrite Hs. repeat split.
Qed.

(** X20: Social Security and pension pass through every generated
    strategy in full: whatever the goal and its target type, the strategy
    carries the portfolio's two benefits rounded to whole dollars (0 for an
    absent source), and it is marked system-generated. *)
Theorem generated_strategy_carries_forced_income (p : Portfolio.t)
    (g : IncomeGoal.t) :
  WithdrawalStrategy.socialSecurityIncome (generateStrategy p g)
  = Math.round (ssAnnualOf p)
  /\ WithdrawalStrategy.pensionIncome (generateStrategy p g)
     = Math.round (pensionAnnualOf p)
  /\ WithdrawalStrategy.isSystemGenerated (generateStrategy p g) = true.
Proof. exact (generated_strategy_forced p g). Qed.

(** ** Withdrawal strategy: staying within the accounts *)

Lemma round_within_whole (x b : Q) :
  Math.round b == b -> x <= b -> Math.round x <= b.
Proof.
  intros Hb Hx. rewrite <- Hb. apply round_mono. exact Hx.
Qed.

(** A pass of the refinement loop keeps each withdrawal within a balance
    that is a whole number. *)
Lemma refineAdjust_within (s : WithdrawalStrategy.t) (p : Portfolio.t) (d : Q) :
  Math.round (traditionalBalanceOf p) == traditionalBalanceOf p ->
  Math.round (taxableBalanceOf p) == taxableBalanceOf p ->
  Math.round (rothBalanceOf p) == rothBalanceOf p ->
  WithdrawalStrategy.rmdAmount s <= traditionalBalanceOf p ->
  WithdrawalStrategy.traditionalWithdrawal s <= traditionalBalanceOf p
  /\ WithdrawalStrategy.taxableWithdrawal s <= taxableBalanceOf p
  /\ WithdrawalStrategy.rothWithdrawal s <= rothBalanceOf p ->
  WithdrawalStrategy.traditionalWithdrawal (refineAdjust s p d)
  <= traditionalBalanceOf p
  /\ WithdrawalStrategy.taxableWithdrawal (refineAdjust s p d) <= taxableBalanceOf p
  /\ WithdrawalStrategy.rothWithdrawal (refineAdjust s p d) <= rothBalanceOf p.
Proof.
  intros Wt Wx Wr Hrmd [H1 [H2 H3]].
  pose proof (Qabs_nonneg' d) as Habs.
  unfold refineAdjust. cbv zeta.
  repeat cmp_goal; strategy_fields;
    (split; [unfold Math.max; apply Q.max_lub; [ | exact Hrmd] | split]);
    (apply round_within_whole; [assumption | ]);
    unfold Math.min; repeat minmax_goal; lra.
Qed.

Lemma refineLoop_within (n : nat) :
  forall (s : WithdrawalStrategy.t) (b : TaxBreakdown.t) (p : Portfolio.t)
         (g : IncomeGoal.t),
    Math.round (traditionalBalanceOf p) == traditionalBalanceOf p ->
    Math.round (taxableBalanceOf p) == taxableBalanceOf p ->
    Math.round (rothBalanceOf p) == rothBalanceOf p ->
    WithdrawalStrategy.rmdAmount s <= traditionalBalanceOf p ->
    WithdrawalStrategy.traditionalWithdrawal s <= traditionalBalanceOf p
    /\ WithdrawalStrategy.taxableWithdrawal s <= taxableBalanceOf p
    /\ WithdrawalStrategy.rothWithdrawal s <= rothBalanceOf p ->
    WithdrawalStrategy.traditionalWithdrawal (refineLoop n s b p g)
    <= traditionalBalanceOf p
    /\ WithdrawalStrategy.taxableWithdrawal (refineLoop n s b p g)
       <= taxableBalanceOf p
    /\ WithdrawalStrategy.rothWithdrawal (refineLoop n s b p g) <= rothBalanceOf p.
Proof.
  induction n as [ | n IH]; intros s b p g Wt Wx Wr Hrmd H;
    cbn [refineLoop]; cbv zeta.
  - exact H.
  - cmp_lt (Math.abs (IncomeGoal.amount g - TaxBreakdown.afterTaxIncome b)) 500.
    + exact H.
    + apply IH; try assumption.
      * destruct (refineAdjust_rmd s p
                    (IncomeGoal.amount g - TaxBreakdown.afterTaxIncome b))
          as [R1 _].
        rewrite R1. exact Hrmd.
      * apply refineAdjust_within; assumption.
Qed.

Lemma initialStrategy_within (p : Portfolio.t) (g : IncomeGoal.t) :
  wholeDollarPortfolio p ->
  WithdrawalStrategy.rmdAmount (initialStrategy p g) <= traditionalBalanceOf p
  /\ WithdrawalStrategy.traditionalWithdrawal (initialStrategy p g)
     <= traditionalBalanceOf p
  /\ WithdrawalStrategy.taxableWithdrawal (initialStrategy p g) <= taxableBalanceOf p
  /\ WithdrawalStrategy.rothWithdrawal (initialStrategy p g) <= rothBalanceOf p.
Proof.
  intros [[Pt Wt] [[Px Wx] [[Pr Wr] [_ [_ Hprior]]]]].
  destruct (initialStrategy_plan p g)
    as [tw [tx [ro [Hs [A1 [A2 [A3 [_ [_ [B1 [B2 B3]]]]]]]]]]].
  assert (Hrmd : RMDInfo.amount
                   (calculateRMD (IncomeGoal.primaryAge g) (priorYearBalanceOf p))
                 <= traditionalBalanceOf p).
  { destruct (Qlt_le_dec (priorYearBalanceOf p) 0) as [Hneg | Hpos].
    - rewrite calculateRMD_not_required by (right; lra). exact Pt.
    - apply Qle_trans with (priorYearBalanceOf p); [ | exact Hprior].
      apply calculateRMD_amount_le_balance. exact Hpos. }
  rewrite Hs. strategy_fields.
  split; [exact Hrmd | ]. split; [ | split].
  - unfold Math.max. apply Q.max_lub; [ | exact Hrmd].
    apply round_within_whole; [exact Wt | exact (B1 Hrmd)].
  - apply round_within_whole; [exact Wx | exact (B2 Px)].
  - apply round_within_whole; [exact Wr | exact (B3 Pr)].
Qed.

Lemma generateStrategy_within (p : Portfolio.t) (g : IncomeGoal.t) :
  wholeDollarPortfolio p ->
  WithdrawalStrategy.traditionalWithdrawal (generateStrategy p g)
  <= traditionalBalanceOf p
  /\ WithdrawalStrategy.taxableWithdrawal (generateStrategy p g) <= taxableBalanceOf p
  /\ WithdrawalStrategy.rothWithdrawal (generateStrategy p g) <= rothBalanceOf p.
Proof.
  intro Hp. destruct (initialStrategy_within p g Hp) as [Hrmd Hin].
  destruct Hp as [[_ Wt] [[_ Wx] [[_ Wr] _]]].
  unfold generateStrategy. cbv zeta. destruct (IncomeGoal.targetType g).
  - unfold refineForAfterTaxTarget. cbv zeta.
    apply refineLoop_within; assumption.
  - exact Hin.
Qed.

Lemma Qltb_false_of_le (x y : Q) : y <= x -> (x <? y) = false.
Proof. intro H. apply Qltb_false. exact H. Qed.

(** X21: for a portfolio in whole dollars (non-negative whole balances,
    whole benefits, prior-year balance not above the current one) the
    strategy [generateStrategy] returns always passes [validateStrategy]:
    no withdrawal exceeds its balance, no income exceeds its benefit and the
    RMD is met, for any goal and either target type. *)
Theorem generated_strategy_is_valid (p : Portfolio.t) (g : IncomeGoal.t) :
  wholeDollarPortfolio p ->
  validateStrategy (generateStrategy p g) p = Validation.mk true [].
Proof.
  intro Hp.
  destruct (generateStrategy_within p g Hp) as [Ht [Hx Hr]].
  destruct (generated_strategy_forced p g) as [Hss [Hpen _]].
  pose proof (generateStrategy_rmd_le p g) as Hrmd.
  destruct Hp as [_ [_ [_ [Wss [Wpen _]]]]].
  unfold validateStrategy. cbv zeta.
  rewrite (Qltb_false_of_le _ _ Ht), (Qltb_false_of_le _ _ Hx),
          (Qltb_false_of_le _ _ Hr).
  rewrite Hss, Hpen.
  rewrite (Qltb_false_of_le (ssAnnualOf p) (Math.round (ssAnnualOf p)))
    by (rewrite Wss; apply Qle_refl).
  rewrite (Qltb_false_of_le (pensionAnnualOf p) (Math.round (pensionAnnualOf p)))
    by (rewrite Wpen; apply Qle_refl).
  rewrite (Qltb_false_of_le _ _ Hrmd). rewrite andb_false_r. reflexivity.
Qed.

Lemma generated_strategy_is_valid_witness :
  validateStrategy (generateStrategy mixedPortfolio (goalAt73 afterTax 90000))
    mixedPortfolio
  = Validation.mk true [].
Proof.
  apply (generated_strategy_is_valid mixedPortfolio (goalAt73 afterTax 90000)).
  unfold wholeDollarPortfolio. vm_compute.
  repeat split; try reflexivity; discriminate.
Defined.

(** X22: for a gross target the generated strategy either reaches the
    target to within the rounding of its five amounts ($2.50) or draws every
    account to its full (rounded) balance; and when the target covers the
    forced income (Social Security, pension and RMD) the strategy's total
    does not overshoot the target by more than that rounding. *)
Theorem gross_target_met_or_accounts_exhausted (p : Portfolio.t) (g : IncomeGoal.t) :
  IncomeGoal.targetType g = gross ->
  (ssAnnualOf p + pensionAnnualOf p
   + WithdrawalStrategy.rmdAmount (generateStrategy p g) <= IncomeGoal.amount g ->
   strategyTotal (generateStrategy p g) <= IncomeGoal.amount g + 2.5)
  /\ (IncomeGoal.amount g - 2.5 < strategyTotal (generateStrategy p g)
      \/ (Math.round (traditionalBalanceOf p)
          <= WithdrawalStrategy.traditionalWithdrawal (generateStrategy p g)
          /\ Math.round (taxableBalanceOf p)
             <= WithdrawalStrategy.taxableWithdrawal (generateStrategy p g)
          /\ Math.round (rothBalanceOf p)
             <= WithdrawalStrategy.rothWithdrawal (generateStrategy p g))).
Proof.
  intro Hgross. rewrite (generateStrategy_gross p g Hgross).
  destruct (initialStrategy_plan p g)
    as [tw [tx [ro [Hs [A1 [A2 [A3 [C1 [C2 _]]]]]]]]].
  rewrite Hgross in C1, C2. rewrite Hs. unfold strategyTotal. strategy_fields.
  pose proof (calculateRMD_amount_whole (IncomeGoal.primaryAge g)
                (priorYearBalanceOf p)) as W.
  set (rmd := RMDInfo.amount _) in *. clearbody rmd.
  assert (Hmax : Math.max (Math.round tw) rmd == Math.round tw).
  { unfold Math.max. apply Q.max_l.
    apply Qle_trans with (Math.round rmd); [rewrite W; apply Qle_refl | ].
    apply round_mono. exact A1. }
  pose proof (round_upper tw). pose proof (round_lower tw).
  pose proof (round_upper tx). pose proof (round_lower tx).
  pose proof (round_upper ro). pose proof (round_lower ro).
  pose proof (round_upper (ssAnnualOf p)). pose proof (round_lower (ssAnnualOf p)).
  pose proof (round_upper (pensionAnnualOf p)).
  pose proof (round_lower (pensionAnnualOf p)).
  split.
  - intro Hcover. specialize (C1 Hcover). rewrite Hmax. lra.
  - destruct (Qlt_le_dec (tw + tx + ro + ssAnnualOf p + pensionAnnualOf p)
                (IncomeGoal.amount g)) as [Hshort | Hmet].
    + right. destruct (C2 Hshort) as [E1 [E2 E3]].
      split; [ | split].
      * rewrite Hmax. apply round_mono. exact E1.
      * apply round_mono. exact E2.
      * apply round_mono. exact E3.
    + left. rewrite Hmax. lra.
Qed.

Lemma gross_target_met_or_accounts_exhausted_witness :
  strategyTotal (generateStrategy traditionalOnlyPortfolio (goalAt73 gross 50000))
  <= 50000 + 2.5.
Proof.
  apply (proj1 (gross_target_met_or_accounts_exhausted traditionalOnlyPortfolio
                  (goalAt73 gross 50000) eq_refl)).
  vm_compute. discriminate.
Defined.

Example gross_target_beyond_the_portfolio :
  WithdrawalStrategy.traditionalWithdrawal
    (generateStrategy traditionalOnlyPortfolio (goalAt73 gross 900000)) == 500000.
Proof. vm_compute. reflexivity. Qed.

(** ** Gross-income estimates *)

Lemma estimateOrdinaryTax_range (x : Q) (s : FilingStatus) :
  0 <= x -> 0 <= estimateOrdinaryTax x s /\ estimateOrdinaryTax x s <= 0.37 * x.
Proof.
  intro H. unfold estimateOrdinaryTax.
  apply (estimateOrdinaryTaxLoop_range 0.10 0.37 _ ltac:(lra) ltac:(lra)
           (federal_rates s) x H).
Qed.

Lemma estimateGrossLoop_bounds (n : nat) (target deduction : Q) (s : FilingStatus) :
  0 <= target -> 0 <= deduction ->
  forall g, target <= g -> 0.63 * g <= target ->
    target <= estimateGrossLoop n g target s deduction
    /\ 0.63 * estimateGrossLoop n g target s deduction <= target.
Proof.
  intros Ht Hd. induction n as [ | n IH]; intros g G1 G2;
    cbn [estimateGrossLoop]; cbv zeta.
  - split; assumption.
  - cmp_goal; [split; assumption | ].
    destruct (estimateOrdinaryTax_range (Math.max 0 (g - deduction)) s)
      as [T1 T2]; [unfold Math.max; apply Q.le_max_l | ].
    assert (Hm : Math.max 0 (g - deduction) <= g)
      by (unfold Math.max; apply Q.max_lub; lra).
    set (t := estimateOrdinaryTax _ s) in *. clearbody t.
    apply IH; lra.
Qed.

(** X23: for an after-tax target T >= 0 and a deduction >= 0 the gross
    estimate of the strategy generator is never below T and never above
    T / 0.63 (the top rate being 37%), whether or not its ten iterations
    converge. *)
Theorem estimateGrossForAfterTax_bounds (target deduction : Q) (s : FilingStatus) :
  0 <= target -> 0 <= deduction ->
  target <= estimateGrossForAfterTax target s deduction
  /\ 0.63 * estimateGrossForAfterTax target s deduction <= target.
Proof.
  intros Ht Hd. unfold estimateGrossForAfterTax.
  apply estimateGrossLoop_bounds; lra.
Qed.

Lemma estimateGrossForAfterTax_bounds_witness :
  60000 <= estimateGrossForAfterTax 60000 single 16100
  /\ 0.63 * estimateGrossForAfterTax 60000 single 16100 <= 60000.
Proof.
  apply (estimateGrossForAfterTax_bounds 60000 16100 single);
    vm_compute; discriminate.
Defined.

Lemma estimateTaxForGrossIncome_range (g : Q) (s : FilingStatus) :
  0 <= g ->
  0 <= estimateTaxForGrossIncome g s /\ estimateTaxForGrossIncome g s <= 0.37 * g.
Proof.
  intro H. unfold estimateTaxForGrossIncome. cbv zeta.
  rewrite calculateOrdinaryIncomeTax_tax.
  assert (Hd : 0 < Deduction.amount (calculateDeduction s false None))
    by (destruct s; reflexivity).
  set (d := Deduction.amount _) in *. clearbody d.
  assert (H0 : 0 <= Math.max 0 (Math.max 0 (g - d)))
    by (unfold Math.max; apply Q.le_max_l).
  assert (Hm : Math.max 0 (Math.max 0 (g - d)) <= g)
    by (unfold Math.max; repeat apply Q.max_lub; lra).
  destruct (estimateOrdinaryTaxLoop_range 0.10 0.37 _ ltac:(lra) ltac:(lra)
              (federal_rates s) _ H0) as [T1 T2].
  split; lra.
Qed.

Lemma grossForAfterTaxLoop_bounds (n : nat) (target : Q) (s : FilingStatus) :
  0 <= target ->
  forall g, target <= g -> 0.63 * g <= target ->
    target <= grossForAfterTaxLoop n g target s
    /\ 0.63 * grossForAfterTaxLoop n g target s <= target.
Proof.
  intros Ht. induction n as [ | n IH]; intros g G1 G2;
    cbn [grossForAfterTaxLoop]; cbv zeta.
  - split; assumption.
  - cmp_goal; [split; assumption | ].
    destruct (estimateTaxForGrossIncome_range g s ltac:(lra)) as [T1 T2].
    set (t := estimateTaxForGrossIncome g s) in *. clearbody t.
    apply IH; lra.
Qed.

(** X24: for an after-tax target T >= 0, [calculateGrossForAfterTax]
    returns, for any iteration cap, a whole amount that is at least T
    rounded and at most half a dollar above T / 0.63. *)
Theorem calculateGrossForAfterTax_bounds (target : Q) (s : FilingStatus)
    (p : Portfolio.t) (maxIterations : nat) :
  0 <= target ->
  Math.round target <= calculateGrossForAfterTax target s p maxIterations
  /\ 0.63 * calculateGrossForAfterTax target s p maxIterations <= target + 0.315.
Proof.
  intro Ht. unfold calculateGrossForAfterTax.
  assert (Hstart : target / 0.75 == target * (4 # 3)) by field.
  destruct (grossForAfterTaxLoop_bounds maxIterations target s Ht (target / 0.75))
    as [B1 B2]; try (rewrite Hstart; lra).
  set (r := grossForAfterTaxLoop _ _ _ _) in *. clearbody r.
  split; [apply round_mono; exact B1 | ].
  pose proof (round_upper r). lra.
Qed.

Lemma calculateGrossForAfterTax_bounds_witness :
  Math.round 60000 <= calculateGrossForAfterTax 60000 single mixedPortfolio 20.
Proof.
  apply (calculateGrossForAfterTax_bounds 60000 single mixedPortfolio 20).
  vm_compute. discriminate.
Defined.

(** ** Projection: depletion *)

Lemma round_comp (x y : Q) : x == y -> Math.round x = Math.round y.
Proof.
  intro H. unfold Math.round. f_equal. apply Qfloor_comp. rewrite H. reflexivity.
Qed.

Lemma wholeAmount_iff (x : Q) : wholeAmount x <-> exists z, x == inject_Z z.
Proof.
  unfold wholeAmount. split.
  - intro H. exists (Qfloor (x + 0.5)). symmetry. exact H.
  - intros [z Hz]. rewrite (round_comp _ _ Hz). rewrite round_Z. symmetry. exact Hz.
Qed.

Lemma wholeAmount_comp (x y : Q) : x == y -> wholeAmount x -> wholeAmount y.
Proof.
  intros E H. apply wholeAmount_iff in H. destruct H as [z Hz].
  apply wholeAmount_iff. exists z. rewrite <- E. exact Hz.
Qed.

Lemma wholeAmount_round (x : Q) : wholeAmount (Math.round x).
Proof. apply wholeAmount_iff. exists (Qfloor (x + 0.5)). reflexivity. Qed.

Lemma wholeAmount_zero : wholeAmount 0.
Proof. apply wholeAmount_iff. exists 0%Z. reflexivity. Qed.

Lemma wholeAmount_max (x y : Q) :
  wholeAmount x -> wholeAmount y -> wholeAmount (Math.max x y).
Proof.
  intros Hx Hy. unfold Math.max.
  destruct (Q.max_spec x y) as [[_ E] | [_ E]].
  - apply (wholeAmount_comp y); [symmetry; exact E | exact Hy].
  - apply (wholeAmount_comp x); [symmetry; exact E | exact Hx].
Qed.

(** What is left of a whole balance after a whole withdrawal, under zero
    growth, is whole again. *)
Lemma wholeAmount_remainder (b w g : Q) :
  g == 0 -> wholeAmount b -> wholeAmount w ->
  wholeAmount (Math.max 0 (b - w) * (1 + g)).
Proof.
  intros Hg Hb Hw.
  apply wholeAmount_iff in Hb. destruct Hb as [zb Hb].
  apply wholeAmount_iff in Hw. destruct Hw as [zw Hw].
  assert (E : inject_Z (zb - zw) == b - w).
  { unfold Zminus. rewrite inject_Z_plus, inject_Z_opp, Hb, Hw. lra. }
  apply (wholeAmount_comp (Math.max 0 (inject_Z (zb - zw)))).
  - unfold Math.max. rewrite E, Hg. lra.
  - apply wholeAmount_max; [exact wholeAmount_zero | ].
    apply wholeAmount_iff. exists (zb - zw)%Z. reflexivity.
Qed.

(** Withdrawing at least the recorded (rounded) balance of a whole balance
    leaves nothing. *)
Lemma exhausted_remainder (b w g : Q) :
  wholeAmount b -> Math.round b <= w -> Math.max 0 (b - w) * (1 + g) == 0.
Proof.
  unfold wholeAmount. intros Hb Hw. rewrite Hb in Hw.
  assert (E : Math.max 0 (b - w) == 0) by (unfold Math.max; apply Q.max_l; lra).
  rewrite E. apply Qmult_0_l.
Qed.

Lemma refineAdjust_whole (s : WithdrawalStrategy.t) (p : Portfolio.t) (d : Q) :
  wholeAmount (WithdrawalStrategy.rmdAmount s) ->
  wholeDollarStrategy (refineAdjust s p d).
Proof.
  intro Hrmd. unfold wholeDollarStrategy, refineAdjust. cbv zeta.
  repeat cmp_goal; strategy_fields;
    (split; [apply wholeAmount_max; [apply wholeAmount_round | exact Hrmd]
            | split; apply wholeAmount_round]).
Qed.

Lemma refineLoop_whole (n : nat) :
  forall (s : WithdrawalStrategy.t) (b : TaxBreakdown.t) (p : Portfolio.t)
         (g : IncomeGoal.t),
    wholeAmount (WithdrawalStrategy.rmdAmount s) ->
    wholeDollarStrategy s ->
    wholeDollarStrategy (refineLoop n s b p g).
Proof.
  induction n as [ | n IH]; intros s b p g Hrmd Hs; cbn [refineLoop]; cbv zeta.
  - exact Hs.
  - cmp_lt (Math.abs (IncomeGoal.amount g - TaxBreakdown.afterTaxIncome b)) 500.
    + exact Hs.
    + apply IH.
      * destruct (refineAdjust_rmd s p
                    (IncomeGoal.amount g - TaxBreakdown.afterTaxIncome b))
          as [R1 _].
        rewrite R1. exact Hrmd.
      * apply refineAdjust_whole. exact Hrmd.
Qed.

(** Every strategy of [generateStrategy] withdraws whole dollars. *)
Lemma generateStrategy_whole (p : Portfolio.t) (g : IncomeGoal.t) :
  wholeDollarStrategy (generateStrategy p g).
Proof.
  pose proof (calculateRMD_amount_whole (IncomeGoal.primaryAge g)
                (priorYearBalanceOf p)) as W.
  destruct (initialStrategy_plan p g) as [tw [tx [ro [Hs _]]]].
  cbv zeta in Hs.
  assert (Hinit : wholeDollarStrategy (initialStrategy p g)
                  /\ wholeAmount (WithdrawalStrategy.rmdAmount (initialStrategy p g))).
  { rewrite Hs. unfold wholeDollarStrategy. strategy_fields.
    split; [ | exact W].
    split; [apply wholeAmount_max; [apply wholeAmount_round | exact W]
           | split; apply wholeAmount_round]. }
  destruct Hinit as [H1 H2].
  unfold generateStrategy. cbv zeta. destruct (IncomeGoal.targetType g).
  - unfold refineForAfterTaxTarget. cbv zeta. apply refineLoop_whole; assumption.
  - exact H1.
Qed.

Section ProjectionDepletion.
Variable goal : IncomeGoal.t.
Variable assumptions : ProjectionAssumptions.t.
Variable initial : option (WithdrawalStrategy.t * TaxBreakdown.t).
Variable pensionCola : Q.
Variables startAge currentYear : Z.

Hypothesis zero_growth : ProjectionAssumptions.growthRate assumptions == 0.
Hypothesis whole_initial :
  match initial with
  | Some (strategy, _) => wholeDollarStrategy strategy
  | None => True
  end.

(** One pass of the year loop, with the strategy it uses: the year it
    records, and the balances it leaves. *)
Lemma projectionYearStep_whole (age : Z) (r : Running.t) :
  exists (strategy : WithdrawalStrategy.t) (y : ProjectionYear.t),
    let r' := projectionYearStep goal assumptions initial pensionCola startAge
                currentYear age r in
    wholeDollarStrategy strategy
    /\ (initial = None -> 0 < Running.totalBalance r ->
        strategy
        = generateStrategy (yearPortfolioOf r pensionCola)
            (adjustedGoalOf goal (ProjectionAssumptions.inflationRate assumptions)
               age (age - startAge)))
    /\ Running.socialSecurityBenefit r'
       = Running.socialSecurityBenefit r
         * (1 + ProjectionAssumptions.socialSecurityCOLA assumptions)
    /\ Running.pensionBenefit r' = Running.pensionBenefit r * (1 + pensionCola)
    /\ Running.years r' = Running.years r ++ [y]
    /\ ProjectionYear.age y = age
    /\ ProjectionYear.balances y
       = YearBalances.mk (Math.round (Running.traditionalBalance r))
           (Math.round (Running.taxableBalance r))
           (Math.round (Running.rothBalance r))
           (Math.round (Running.totalBalance r))
    /\ YearWithdrawals.traditional (ProjectionYear.withdrawals y)
       = WithdrawalStrategy.traditionalWithdrawal strategy
    /\ YearWithdrawals.taxable (ProjectionYear.withdrawals y)
       = WithdrawalStrategy.taxableWithdrawal strategy
    /\ YearWithdrawals.roth (ProjectionYear.withdrawals y)
       = WithdrawalStrategy.rothWithdrawal strategy
    /\ Running.traditionalBalance r'
       = Math.max 0 (Running.traditionalBalance r
                     - WithdrawalStrategy.traditionalWithdrawal strategy)
         * (1 + ProjectionAssumptions.growthRate assumptions)
    /\ Running.taxableBalance r'
       = Math.max 0 (Running.taxableBalance r
                     - WithdrawalStrategy.taxableWithdrawal strategy)
         * (1 + ProjectionAssumptions.growthRate assumptions)
    /\ Running.rothBalance r'
       = Math.max 0 (Running.rothBalance r
                     - WithdrawalStrategy.rothWithdrawal strategy)
         * (1 + ProjectionAssumptions.growthRate assumptions).
Proof.
  unfold projectionYearStep. cbv zeta.
  match goal with
  | |- context [let '(_, _) := ?e in _] =>
      destruct e as [strategy breakdown] eqn:E
  end.
  assert (Hwhole : wholeDollarStrategy strategy).
  { destruct (age =? startAge)%Z.
    - destruct initial as [[s0 b0] | ].
      + injection E as <- _. exact whole_initial.
      + destruct (_ || _)%bool in E; injection E as <- _.
        * apply generateStrategy_whole.
        * unfold wholeDollarStrategy. strategy_fields.
          repeat split; exact wholeAmount_zero.
    - destruct (_ || _)%bool in E; injection E as <- _.
      + apply generateStrategy_whole.
      + unfold wholeDollarStrategy. strategy_fields.
        repeat split; exact wholeAmount_zero. }
  assert (Horigin : initial = None -> 0 < Running.totalBalance r ->
                    strategy
                    = generateStrategy (yearPortfolioOf r pensionCola)
                        (adjustedGoalOf goal
                           (ProjectionAssumptions.inflationRate assumptions)
                           age (age - startAge))).
  { intros Hnone Hpos. rewrite Hnone in E.
    unfold Running.totalBalance in Hpos.
    cmp_lt 0 (Running.traditionalBalance r + Running.taxableBalance r
              + Running.rothBalance r); [ | exfalso; lra].
    cbn [orb] in E.
    destruct (age =? startAge)%Z; injection E as <- _; reflexivity. }
  clear E.
  eexists strategy. eexists.
  cbn [Running.years Running.traditionalBalance Running.taxableBalance
       Running.rothBalance Running.socialSecurityBenefit Running.pensionBenefit].
  split; [exact Hwhole | ]. split; [exact Horigin | ].
  split; [reflexivity | ]. split; [reflexivity | ].
  split; [reflexivity | ]. repeat split.
Qed.

Lemma projectionLoop_years_prefix (n : nat) :
  forall (age : Z) (r : Running.t),
    exists rest,
      Running.years
        (projectionLoop goal assumptions initial pensionCola startAge
           currentYear n age r)
      = Running.years r ++ rest
      /\ length rest = n.
Proof.
  induction n as [ | n IH]; intros age r; cbn [projectionLoop].
  - exists []. rewrite app_nil_r. split; reflexivity.
  - destruct (IH (age + 1)%Z
                (projectionYearStep goal assumptions initial pensionCola startAge
                   currentYear age r)) as [rest [Hrest Hlen]].
    destruct (projectionYearStep_whole age r) as [strategy [y [_ [_ [_ [_ [Hy _]]]]]]].
    cbv zeta in Hy. rewrite Hy in Hrest. rewrite <- app_assoc in Hrest.
    exists ([y] ++ rest). split; [exact Hrest | ].
    simpl. rewrite Hlen. reflexivity.
Qed.

(** A year that starts with nothing left records the depletion, unless an
    earlier year already did. *)
Lemma projectionLoop_records_depletion (n : nat) (age : Z) (r : Running.t) :
  Running.totalBalance r <= 0 ->
  (forall a0, Running.depletionAge r = Some a0 -> (a0 < age)%Z) ->
  (0 < n)%nat ->
  exists a,
    Running.depletionAge
      (projectionLoop goal assumptions initial pensionCola startAge
         currentYear n age r) = Some a
    /\ (a <= age)%Z.
Proof.
  intros Htotal Hrec Hn. destruct n as [ | n]; [lia | ].
  cbn [projectionLoop]. rewrite projectionLoop_depletionAge.
  rewrite projectionYearStep_depletionAge.
  destruct (Running.depletionAge r) as [a0 | ].
  - exists a0. split; [reflexivity | ]. specialize (Hrec a0 eq_refl). lia.
  - cmp_le (Running.totalBalance r) 0; [ | exfalso; lra].
    exists age. split; [reflexivity | lia].
Qed.

(** Under zero growth and whole-dollar balances, a year before the last
    that withdraws every account's whole balance is followed by a year that
    records the depletion. *)
Lemma projectionLoop_exhausted (n : nat) :
  forall (age : Z) (r : Running.t),
    wholeRunning r ->
    (forall a0, Running.depletionAge r = Some a0 -> (a0 < age)%Z) ->
    forall (i : nat) (y : ProjectionYear.t),
      nth_error
        (Running.years
           (projectionLoop goal assumptions initial pensionCola startAge
              currentYear n age r))
        (length (Running.years r) + i) = Some y ->
      (S i < n)%nat ->
      withdrawsEverything y ->
      exists a,
        Running.depletionAge
          (projectionLoop goal assumptions initial pensionCola startAge
             currentYear n age r) = Some a
        /\ (a <= ProjectionYear.age y + 1)%Z.
Proof.
  induction n as [ | n IH]; intros age r Hwhole Hrec i y Hnth Hi Hall; [lia | ].
  cbn [projectionLoop] in *.
  destruct (projectionYearStep_whole age r)
    as [strategy [y0 [[St [Sx Sr]] [_ [_ [_ [Hy [Hage [Hbal [Wt [Wx [Wr [Bt [Bx Br]]]]]]]]]]]]]].
  cbv zeta in Hy, Bt, Bx, Br.
  pose proof (projectionYearStep_depletionAge goal assumptions initial pensionCola
                startAge currentYear age r) as Hdep.
  set (r' := projectionYearStep goal assumptions initial pensionCola startAge
               currentYear age r) in *.
  destruct Hwhole as [Ht [Hx Hr]].
  assert (Hwhole' : wholeRunning r').
  { unfold wholeRunning. rewrite Bt, Bx, Br.
    repeat split; apply wholeAmount_remainder; assumption. }
  assert (Hrec' : forall a0, Running.depletionAge r' = Some a0 -> (a0 < age + 1)%Z).
  { intros a0 Ha. rewrite Hdep in Ha.
    destruct (Running.depletionAge r) as [a1 | ].
    - injection Ha as <-. specialize (Hrec a1 eq_refl). lia.
    - destruct (Running.totalBalance r <=? 0); [ | discriminate].
      injection Ha as <-. lia. }
  destruct i as [ | i].
  - (* the year of this pass *)
    destruct (projectionLoop_years_prefix n (age + 1)%Z r') as [rest [Hrest _]].
    rewrite Hrest, Hy, Nat.add_0_r in Hnth.
    rewrite <- app_assoc in Hnth.
    rewrite nth_error_app2 in Hnth by lia.
    rewrite Nat.sub_diag in Hnth. simpl in Hnth. injection Hnth as <-.
    destruct Hall as [At [Ax Ar]].
    rewrite Hbal in At, Ax, Ar. rewrite Wt in At. rewrite Wx in Ax. rewrite Wr in Ar.
    cbn [YearBalances.traditional YearBalances.taxable YearBalances.roth] in At, Ax, Ar.
    assert (Hzero : Running.totalBalance r' <= 0).
    { unfold Running.totalBalance. rewrite Bt, Bx, Br.
      rewrite (exhausted_remainder _ _ _ Ht At), (exhausted_remainder _ _ _ Hx Ax),
              (exhausted_remainder _ _ _ Hr Ar).
      lra. }
    destruct (projectionLoop_records_depletion n (age + 1)%Z r' Hzero Hrec'
                ltac:(lia)) as [a [Ha Hle]].
    exists a. split; [exact Ha | ]. rewrite Hage. exact Hle.
  - (* a later year *)
    apply (IH (age + 1)%Z r' Hwhole' Hrec' i y); [ | lia | exact Hall].
    rewrite Hy, length_app. simpl.
    replace (length (Running.years r) + 1 + i)%nat
      with (length (Running.years r) + S i)%nat by lia.
    exact Hnth.
Qed.
End ProjectionDepletion.

(** The snapshot of a year whose running balances are whole and not
    negative, with no benefit running, is a whole-dollar portfolio with the
    same balances. *)
Lemma yearPortfolioOf_whole (r : Running.t) (pensionCola : Q) :
  wholeRunning r ->
  0 <= Running.traditionalBalance r -> 0 <= Running.taxableBalance r ->
  0 <= Running.rothBalance r ->
  Running.socialSecurityBenefit r == 0 -> Running.pensionBenefit r == 0 ->
  wholeDollarPortfolio (yearPortfolioOf r pensionCola)
  /\ traditionalBalanceOf (yearPortfolioOf r pensionCola)
     == Running.traditionalBalance r
  /\ taxableBalanceOf (yearPortfolioOf r pensionCola) == Running.taxableBalance r
  /\ rothBalanceOf (yearPortfolioOf r pensionCola) == Running.rothBalance r
  /\ ssAnnualOf (yearPortfolioOf r pensionCola) = 0
  /\ pensionAnnualOf (yearPortfolioOf r pensionCola) = 0.
Proof.
  unfold wholeRunning, wholeAmount.
  intros [Wt [Wx Wr]] Pt Px Pr Hss Hpen.
  unfold wholeDollarPortfolio, priorYearBalanceOf, nullish, yearPortfolioOf,
    traditionalBalanceOf, taxableBalanceOf, rothBalanceOf, ssAnnualOf,
    pensionAnnualOf.
  cbn [Portfolio.traditional Portfolio.taxable Portfolio.roth
       Portfolio.socialSecurity Portfolio.pension].
  cmp_lt 0 (Running.socialSecurityBenefit r); [exfalso; lra | ].
  cmp_lt 0 (Running.pensionBenefit r); [exfalso; lra | ].
  cmp_lt 0 (Running.traditionalBalance r);
    cmp_lt 0 (Running.taxableBalance r);
    cmp_lt 0 (Running.rothBalance r);
    cbn [TraditionalAccount.balance TraditionalAccount.priorYearEndBalance
         TaxableAccount.balance RothAccount.balance];
    repeat split; try assumption; try reflexivity; try lra.
Qed.

(** A gross target on a whole-dollar portfolio without benefits: the
    withdrawals stay within the balances, and they either empty every
    account or come to the target less the rounding of three amounts. *)
Lemma gross_year_withdrawals (p : Portfolio.t) (g : IncomeGoal.t) :
  IncomeGoal.targetType g = gross ->
  wholeDollarPortfolio p ->
  ssAnnualOf p == 0 -> pensionAnnualOf p == 0 ->
  (WithdrawalStrategy.traditionalWithdrawal (generateStrategy p g)
   <= traditionalBalanceOf p
   /\ WithdrawalStrategy.taxableWithdrawal (generateStrategy p g) <= taxableBalanceOf p
   /\ WithdrawalStrategy.rothWithdrawal (generateStrategy p g) <= rothBalanceOf p)
  /\ ((traditionalBalanceOf p
       <= WithdrawalStrategy.traditionalWithdrawal (generateStrategy p g)
       /\ taxableBalanceOf p
          <= WithdrawalStrategy.taxableWithdrawal (generateStrategy p g)
       /\ rothBalanceOf p <= WithdrawalStrategy.rothWithdrawal (generateStrategy p g))
      \/ IncomeGoal.amount g - 1.5
         <= WithdrawalStrategy.traditionalWithdrawal (generateStrategy p g)
            + WithdrawalStrategy.taxableWithdrawal (generateStrategy p g)
            + WithdrawalStrategy.rothWithdrawal (generateStrategy p g)).
Proof.
  intros Hgross Hp Hss Hpen.
  split; [exact (generateStrategy_within p g Hp) | ].
  destruct Hp as [[_ Wt] [[_ Wx] [[_ Wr] _]]].
  rewrite (generateStrategy_gross p g Hgross).
  destruct (initialStrategy_plan p g)
    as [tw [tx [ro [Hs [_ [_ [_ [_ [C2 _]]]]]]]]].
  rewrite Hgross in C2. rewrite Hs. strategy_fields.
  set (rmd := RMDInfo.amount _) in *. clearbody rmd.
  assert (Hmax : Math.round tw <= Math.max (Math.round tw) rmd)
    by (unfold Math.max; apply Q.le_max_l).
  pose proof (round_lower tw). pose proof (round_lower tx).
  pose proof (round_lower ro).
  destruct (Qlt_le_dec (tw + tx + ro + ssAnnualOf p + pensionAnnualOf p)
              (IncomeGoal.amount g)) as [Hshort | Hmet].
  - left. destruct (C2 Hshort) as [E1 [E2 E3]].
    split; [ | split].
    + apply Qle_trans with (Math.round tw); [ | exact Hmax].
      rewrite <- Wt. apply round_mono. exact E1.
    + rewrite <- Wx. apply round_mono. exact E2.
    + rewrite <- Wr. apply round_mono. exact E3.
  - right. lra.
Qed.

Section ProjectionGrossTarget.
Variable goal : IncomeGoal.t.
Variable assumptions : ProjectionAssumptions.t.
Variable pensionCola : Q.
Variables startAge currentYear : Z.

Hypothesis zero_growth : ProjectionAssumptions.growthRate assumptions == 0.
Hypothesis inflation_nonneg : 0 <= ProjectionAssumptions.inflationRate assumptions.
Hypothesis gross_target : IncomeGoal.targetType goal = gross.
Hypothesis amount_nonneg : 0 <= IncomeGoal.amount goal.

(** The inflated target of a year of the loop is at least the target. *)
Lemma adjustedGoalOf_amount (age : Z) :
  (startAge <= age)%Z ->
  Math.round (IncomeGoal.amount goal)
  <= IncomeGoal.amount
       (adjustedGoalOf goal (ProjectionAssumptions.inflationRate assumptions)
          age (age - startAge))
  /\ IncomeGoal.targetType
       (adjustedGoalOf goal (ProjectionAssumptions.inflationRate assumptions)
          age (age - startAge)) = gross.
Proof.
  intro Hage. unfold adjustedGoalOf. cbv zeta.
  cbn [IncomeGoal.amount IncomeGoal.targetType].
  split; [ | exact gross_target].
  apply round_mono.
  assert (Hpow : 1 <= (1 + ProjectionAssumptions.inflationRate assumptions)
                      ^ (age - startAge)).
  { apply Qpower_1_le; [lra | lia]. }
  set (m := (1 + ProjectionAssumptions.inflationRate assumptions) ^ (age - startAge))
    in *.
  clearbody m.
  assert (H : 0 <= IncomeGoal.amount goal * (m - 1))
    by (apply Qmult_le_0_compat; lra).
  lra.
Qed.

(** One year of a gross-target projection without benefits: the balances
    stay whole and non-negative, and while something is left the total falls
    by the target less 1.5, or to zero. *)
Lemma projectionYearStep_gross (age : Z) (r : Running.t) :
  (startAge <= age)%Z ->
  wholeRunning r ->
  0 <= Running.traditionalBalance r -> 0 <= Running.taxableBalance r ->
  0 <= Running.rothBalance r ->
  Running.socialSecurityBenefit r == 0 -> Running.pensionBenefit r == 0 ->
  let r' := projectionYearStep goal assumptions None pensionCola startAge
              currentYear age r in
  wholeRunning r'
  /\ 0 <= Running.traditionalBalance r' /\ 0 <= Running.taxableBalance r'
  /\ 0 <= Running.rothBalance r'
  /\ Running.socialSecurityBenefit r' == 0 /\ Running.pensionBenefit r' == 0
  /\ (0 < Running.totalBalance r ->
      Running.totalBalance r'
      <= Math.max 0 (Running.totalBalance r
                     - (Math.round (IncomeGoal.amount goal) - 1.5))).
Proof.
  intros Hage Hwhole Pt Px Pr Hss Hpen r'.
  destruct (projectionYearStep_whole goal assumptions None pensionCola startAge
              currentYear I age r)
    as [strategy [y [[St [Sx Sr]] [Horigin [Nss [Npen [_ [_ [_ [_ [_ [_
          [Bt [Bx Br]]]]]]]]]]]]]].
  cbv zeta in Nss, Npen, Bt, Bx, Br. fold r' in Nss, Npen, Bt, Bx, Br.
  pose proof Hwhole as [Ht [Hx Hr]].
  assert (Hg : 1 + ProjectionAssumptions.growthRate assumptions == 1)
    by (rewrite zero_growth; lra).
  split; [ | split; [ | split; [ | split; [ | split; [ | split]]]]].
  - unfold wholeRunning. rewrite Bt, Bx, Br.
    repeat split; apply wholeAmount_remainder; assumption.
  - rewrite Bt, Hg. unfold Math.max. minmax_goal; lra.
  - rewrite Bx, Hg. unfold Math.max. minmax_goal; lra.
  - rewrite Br, Hg. unfold Math.max. minmax_goal; lra.
  - rewrite Nss, Hss. lra.
  - rewrite Npen, Hpen. lra.
  - intro Hpos. specialize (Horigin eq_refl Hpos).
    destruct (yearPortfolioOf_whole r pensionCola Hwhole Pt Px Pr Hss Hpen)
      as [Hyp [Et [Ex [Er [Ess Epen]]]]].
    destruct (adjustedGoalOf_amount age Hage) as [Hamount Htype].
    destruct (gross_year_withdrawals (yearPortfolioOf r pensionCola)
                (adjustedGoalOf goal
                   (ProjectionAssumptions.inflationRate assumptions)
                   age (age - startAge)) Htype Hyp)
      as [[I1 [I2 I3]] Hcase].
    + rewrite Ess. reflexivity.
    + rewrite Epen. reflexivity.
    + rewrite <- Horigin in I1, I2, I3, Hcase.
      rewrite Et in I1. rewrite Ex in I2. rewrite Er in I3.
      rewrite Et, Ex, Er in Hcase.
      unfold Running.totalBalance in *. rewrite Bt, Bx, Br, Hg.
      set (A := IncomeGoal.amount (adjustedGoalOf _ _ _ _)) in *. clearbody A.
      set (R := Math.round (IncomeGoal.amount goal)) in *. clearbody R.
      unfold Math.max. repeat minmax_goal; lra.
Qed.

(** With [years] passes of the loop left and a total of at most
    [(years - 1) * (target - 1.5)], the loop records a depletion age. *)
Lemma projectionLoop_gross_depletes (n : nat) :
  forall (age : Z) (r : Running.t),
    (startAge <= age)%Z ->
    wholeRunning r ->
    0 <= Running.traditionalBalance r -> 0 <= Running.taxableBalance r ->
    0 <= Running.rothBalance r ->
    Running.socialSecurityBenefit r == 0 -> Running.pensionBenefit r == 0 ->
    Running.totalBalance r
    <= inject_Z (Z.of_nat n) * (Math.round (IncomeGoal.amount goal) - 1.5) ->
    exists a,
      Running.depletionAge
        (projectionLoop goal assumptions None pensionCola startAge currentYear
           (S n) age r) = Some a.
Proof.
  induction n as [ | n IH]; intros age r Hage Hwhole Pt Px Pr Hss Hpen Htotal.
  - cbn [projectionLoop]. rewrite projectionYearStep_depletionAge.
    destruct (Running.depletionAge r) as [a0 | ]; [exists a0; reflexivity | ].
    cmp_le (Running.totalBalance r) 0; [exists age; reflexivity | ].
    exfalso. change (inject_Z (Z.of_nat 0)) with 0 in Htotal. lra.
  - change (projectionLoop goal assumptions None pensionCola startAge currentYear
              (S (S n)) age r)
      with (projectionLoop goal assumptions None pensionCola startAge currentYear
              (S n) (age + 1)
              (projectionYearStep goal assumptions None pensionCola startAge
                 currentYear age r)).
    destruct (Qlt_le_dec 0 (Running.totalBalance r)) as [Hpos | Hnone].
    + destruct (projectionYearStep_gross age r Hage Hwhole Pt Px Pr Hss Hpen)
        as [Hwhole' [Pt' [Px' [Pr' [Hss' [Hpen' Hfall]]]]]].
      specialize (Hfall Hpos).
      apply IH; try assumption; [lia | ].
      eapply Qle_trans; [exact Hfall | ].
      rewrite Nat2Z.inj_succ in Htotal. unfold Z.succ in Htotal.
      rewrite inject_Z_plus in Htotal.
      set (D := Math.round (IncomeGoal.amount goal) - 1.5) in *. clearbody D.
      assert (Hn : 0 <= inject_Z (Z.of_nat n)).
      { change 0 with (inject_Z 0). rewrite <- Zle_Qle. lia. }
      set (k := inject_Z (Z.of_nat n)) in *. clearbody k.
      change (inject_Z 1) with 1 in Htotal.
      assert (HD : 0 <= D).
      { destruct (Qlt_le_dec D 0) as [Hneg | Hok]; [ | exact Hok].
        exfalso. assert (0 <= k * (- D)) by (apply Qmult_le_0_compat; lra). lra. }
      assert (HkD : 0 <= k * D) by (apply Qmult_le_0_compat; assumption).
      unfold Math.max. minmax_goal; lra.
    + rewrite projectionLoop_depletionAge, projectionYearStep_depletionAge.
      destruct (Running.depletionAge r) as [a0 | ]; [exists a0; reflexivity | ].
      cmp_le (Running.totalBalance r) 0; [exists age; reflexivity | exfalso; lra].
Qed.
End ProjectionGrossTarget.




(** ** Projection: the year sequence and the running balances *)

Section ProjectionYears.
Variable goal : IncomeGoal.t.
Variable assumptions : ProjectionAssumptions.t.
Variable initial : option (WithdrawalStrategy.t * TaxBreakdown.t).
Variable pensionCola : Q.
Variables startAge currentYear : Z.

(** What one pass of the year loop does to the running balances and to
    the list of years, whatever strategy the year uses. *)
Lemma projectionYearStep_shape (age : Z) (r : Running.t) :
  exists (strategy : WithdrawalStrategy.t) (y : ProjectionYear.t),
    let r' := projectionYearStep goal assumptions initial pensionCola startAge
                currentYear age r in
    Running.years r' = Running.years r ++ [y]
    /\ ProjectionYear.age y = age
    /\ ProjectionYear.year y = (currentYear + (age - startAge))%Z
    /\ ProjectionYear.balances y
       = YearBalances.mk (Math.round (Running.traditionalBalance r))
           (Math.round (Running.taxableBalance r))
           (Math.round (Running.rothBalance r))
           (Math.round (Running.totalBalance r))
    /\ Running.traditionalBalance r'
       = Math.max 0 (Running.traditionalBalance r
                     - WithdrawalStrategy.traditionalWithdrawal strategy)
         * (1 + ProjectionAssumptions.growthRate assumptions)
    /\ Running.taxableBalance r'
       = Math.max 0 (Running.taxableBalance r
                     - WithdrawalStrategy.taxableWithdrawal strategy)
         * (1 + ProjectionAssumptions.growthRate assumptions)
    /\ Running.rothBalance r'
       = Math.max 0 (Running.rothBalance r
                     - WithdrawalStrategy.rothWithdrawal strategy)
         * (1 + ProjectionAssumptions.growthRate assumptions).
Proof.
  unfold projectionYearStep. cbv zeta.
  match goal with
  | |- context [let '(_, _) := ?e in _] => destruct e as [strategy breakdown]
  end.
  eexists strategy. eexists.
  cbn [Running.years Running.traditionalBalance Running.taxableBalance
       Running.rothBalance].
  split; [reflexivity | ]. repeat split.
Qed.

Lemma projectionLoop_ages (n : nat) :
  forall (age : Z) (r : Running.t),
    map ProjectionYear.age
      (Running.years
         (projectionLoop goal assumptions initial pensionCola startAge
            currentYear n age r))
    = map ProjectionYear.age (Running.years r)
      ++ map (fun i => (age + Z.of_nat i)%Z) (seq 0 n)
    /\ map ProjectionYear.year
         (Running.years
            (projectionLoop goal assumptions initial pensionCola startAge
               currentYear n age r))
       = map ProjectionYear.year (Running.years r)
         ++ map (fun i => (currentYear + (age + Z.of_nat i - startAge))%Z) (seq 0 n).
Proof.
  induction n as [ | n IH]; intros age r; cbn [projectionLoop].
  - simpl. rewrite !app_nil_r. split; reflexivity.
  - destruct (IH (age + 1)%Z
                (projectionYearStep goal assumptions initial pensionCola startAge
                   currentYear age r)) as [I1 I2].
    rewrite I1, I2.
    destruct (projectionYearStep_shape age r) as [strategy [y [Hy [Ha [Hyr _]]]]].
    cbv zeta in Hy. rewrite Hy. rewrite !map_app. cbn [map].
    rewrite Ha, Hyr. rewrite <- !app_assoc. cbn [app seq map].
    rewrite <- !seq_shift, !map_map.
    split; f_equal; f_equal.
    + f_equal; lia.
    + apply map_ext. intro i. lia.
    + f_equal; lia.
    + apply map_ext. intro i. lia.
Qed.

Lemma projectionLoop_balances_nonneg (n : nat) :
  0 <= 1 + ProjectionAssumptions.growthRate assumptions ->
  forall (age : Z) (r : Running.t),
    0 <= Running.traditionalBalance r /\ 0 <= Running.taxableBalance r
    /\ 0 <= Running.rothBalance r ->
    Forall (fun y =>
              0 <= YearBalances.traditional (ProjectionYear.balances y)
              /\ 0 <= YearBalances.taxable (ProjectionYear.balances y)
              /\ 0 <= YearBalances.roth (ProjectionYear.balances y)
              /\ 0 <= YearBalances.total (ProjectionYear.balances y))
           (Running.years r) ->
    let r' := projectionLoop goal assumptions initial pensionCola startAge
                currentYear n age r in
    (0 <= Running.traditionalBalance r' /\ 0 <= Running.taxableBalance r'
     /\ 0 <= Running.rothBalance r')
    /\ Forall (fun y =>
                 0 <= YearBalances.traditional (ProjectionYear.balances y)
                 /\ 0 <= YearBalances.taxable (ProjectionYear.balances y)
                 /\ 0 <= YearBalances.roth (ProjectionYear.balances y)
                 /\ 0 <= YearBalances.total (ProjectionYear.balances y))
              (Running.years r').
Proof.
  intro Hg. induction n as [ | n IH]; intros age r [B1 [B2 B3]] Hyears;
    cbn [projectionLoop]; cbv zeta.
  - split; [repeat split; assumption | exact Hyears].
  - destruct (projectionYearStep_shape age r)
      as [strategy [y [Hy [_ [_ [Hb [Ht [Hx Hr]]]]]]]].
    cbv zeta in Hy, Ht, Hx, Hr.
    apply IH.
    + rewrite Ht, Hx, Hr. unfold Math.max.
      repeat split; apply Qmult_le_0_compat; try exact Hg; apply Q.le_max_l.
    + rewrite Hy. apply Forall_app. split; [exact Hyears | ].
      apply Forall_cons; [ | apply Forall_nil].
      rewrite Hb. cbn [YearBalances.traditional YearBalances.taxable
                       YearBalances.roth YearBalances.total].
      unfold Running.totalBalance.
      repeat split; apply round_nonneg; lra.
Qed.
End ProjectionYears.

(** X25: a projection has exactly one year per age from primaryAge to
    planningHorizon, in order, with consecutive calendar years from the
    current one; when the horizon is below the starting age it has no year,
    records no depletion and reports the plan as sustainable. *)
Theorem projection_years_cover_the_horizon (p : Portfolio.t) (g : IncomeGoal.t)
    (a : ProjectionAssumptions.t)
    (initial : option (WithdrawalStrategy.t * TaxBreakdown.t)) (currentYear : Z) :
  let projection := generateRetirementProjection p g a initial currentYear in
  let n := Z.to_nat (IncomeGoal.planningHorizon g - IncomeGoal.primaryAge g + 1) in
  map ProjectionYear.age (RetirementProjection.years projection)
  = map (fun i => (IncomeGoal.primaryAge g + Z.of_nat i)%Z) (seq 0 n)
  /\ map ProjectionYear.year (RetirementProjection.years projection)
     = map (fun i => (currentYear + Z.of_nat i)%Z) (seq 0 n)
  /\ length (RetirementProjection.years projection) = n
  /\ ((IncomeGoal.planningHorizon g < IncomeGoal.primaryAge g)%Z ->
      RetirementProjection.years projection = []
      /\ RetirementProjection.depletionAge projection = None
      /\ RetirementProjection.isSustainable projection = true).
Proof.
  intros projection n. subst projection.
  unfold generateRetirementProjection. cbv zeta.
  cbn [RetirementProjection.years RetirementProjection.depletionAge
       RetirementProjection.isSustainable].
  unfold loopYears. fold n.
  destruct (projectionLoop_ages g a initial (pensionColaOf p)
              (IncomeGoal.primaryAge g) currentYear n (IncomeGoal.primaryAge g)
              (initialRunning p)) as [Hages Hyears].
  cbn [initialRunning Running.years map app] in Hages, Hyears.
  split; [exact Hages | ]. split; [ | split].
  - rewrite Hyears. apply map_ext. intro i. lia.
  - rewrite <- (length_map ProjectionYear.age), Hages, length_map, length_seq.
    reflexivity.
  - intro Hlt. assert (Hn : n = 0%nat) by (subst n; lia).
    rewrite Hn. cbn [projectionLoop initialRunning Running.years
                     Running.depletionAge].
    repeat split.
Qed.

Lemma projection_years_cover_the_horizon_witness :
  RetirementProjection.years
    (generateRetirementProjection traditionalOnlyPortfolio
       (IncomeGoal.mk gross 50000 single 73 None false None stm_none None None 70)
       flatAssumptions None 2026)
  = [].
Proof.
  refine (proj1 (proj2 (proj2 (proj2
            (projection_years_cover_the_horizon traditionalOnlyPortfolio
               (IncomeGoal.mk gross 50000 single 73 None false None stm_none None None 70)
               flatAssumptions None 2026))) _)).
  cbn [IncomeGoal.planningHorizon IncomeGoal.primaryAge]. lia.
Defined.

(** X26: with non-negative starting balances and a growth rate of at
    least -100%, no balance recorded in any year of the projection is
    negative and the final portfolio value is not negative, whatever the
    withdrawals of each year. *)
Theorem projection_balances_never_negative (p : Portfolio.t) (g : IncomeGoal.t)
    (a : ProjectionAssumptions.t)
    (initial : option (WithdrawalStrategy.t * TaxBreakdown.t)) (currentYear : Z) :
  portfolioNonNegative p ->
  -1 <= ProjectionAssumptions.growthRate a ->
  let projection := generateRetirementProjection p g a initial currentYear in
  Forall (fun y =>
            0 <= YearBalances.traditional (ProjectionYear.balances y)
            /\ 0 <= YearBalances.taxable (ProjectionYear.balances y)
            /\ 0 <= YearBalances.roth (ProjectionYear.balances y)
            /\ 0 <= YearBalances.total (ProjectionYear.balances y))
         (RetirementProjection.years projection)
  /\ 0 <= RetirementProjection.finalPortfolioValue projection.
Proof.
  intros [Hx [Ht [Hr _]]] Hg projection. subst projection.
  unfold generateRetirementProjection. cbv zeta.
  cbn [RetirementProjection.years RetirementProjection.finalPortfolioValue].
  destruct (projectionLoop_balances_nonneg g a initial (pensionColaOf p)
              (IncomeGoal.primaryAge g) currentYear
              (loopYears (IncomeGoal.primaryAge g) (IncomeGoal.planningHorizon g))
              ltac:(lra) (IncomeGoal.primaryAge g) (initialRunning p))
    as [[B1 [B2 B3]] Hall].
  - cbn [initialRunning Running.traditionalBalance Running.taxableBalance
         Running.rothBalance].
    unfold traditionalBalanceOf, taxableBalanceOf, rothBalanceOf.
    destruct (Portfolio.traditional p); destruct (Portfolio.taxable p);
      destruct (Portfolio.roth p); repeat split; try lra; tauto.
  - apply Forall_nil.
  - split; [exact Hall | ]. apply round_nonneg. lra.
Qed.

Lemma projection_balances_never_negative_witness :
  0 <= RetirementProjection.finalPortfolioValue
         (generateRetirementProjection mixedPortfolio (goalAt73 afterTax 90000)
            DEFAULT_ASSUMPTIONS None 2026).
Proof.
  refine (proj2 (projection_balances_never_negative mixedPortfolio
                   (goalAt73 afterTax 90000) DEFAULT_ASSUMPTIONS None 2026 _ _)).
  - vm_compute. repeat split; discriminate.
  - vm_compute. discriminate.
Defined.

(** ** Views of a projection *)

Lemma filterIndexed_In {A : Type} (keep : A -> nat -> bool) (l : list A) :
  forall k y, In y (filterIndexed keep k l) -> In y l.
Proof.
  induction l as [ | x l IH]; intros k y H; simpl in *.
  - exact H.
  - destruct (keep x k).
    + destruct H as [H | H]; [left; exact H | right; exact (IH _ _ H)].
    + right. exact (IH _ _ H).
Qed.

Lemma filterIndexed_keeps {A : Type} (keep : A -> nat -> bool) (l : list A) :
  forall k i y,
    nth_error l i = Some y -> keep y (k + i)%nat = true ->
    In y (filterIndexed keep k l).
Proof.
  induction l as [ | x l IH]; intros k i y Hn Hk.
  - destruct i; discriminate.
  - destruct i as [ | i]; simpl in Hn.
    + injection Hn as ->. rewrite Nat.add_0_r in Hk. simpl. rewrite Hk.
      left. reflexivity.
    + assert (Hin : In y (filterIndexed keep (S k) l)).
      { apply (IH (S k) i y Hn). rewrite <- Hk. f_equal. lia. }
      simpl. destruct (keep x k); [right | ]; exact Hin.
Qed.

(** X27: the summary of a projection only shows years of the projection,
    and it always keeps the first year, the last year, every fifth year
    from the start age, the milestone ages 73, 80, 85, 90, 95 and 100, and
    the year of the depletion age. *)
Theorem summary_years_keep_the_landmarks (projection : RetirementProjection.t) :
  let years := RetirementProjection.years projection in
  (forall y, In y (getSummaryYears projection) -> In y years)
  /\ (forall i y,
        nth_error years i = Some y ->
        i = 0%nat \/ i = (length years - 1)%nat
        \/ Z.rem (ProjectionYear.age y - RetirementProjection.startAge projection) 5
           = 0%Z
        \/ In (ProjectionYear.age y) milestoneAges
        \/ RetirementProjection.depletionAge projection = Some (ProjectionYear.age y) ->
        In y (getSummaryYears projection)).
Proof.
  intro years. unfold getSummaryYears. fold years. split.
  - intros y H. exact (filterIndexed_In _ _ _ _ H).
  - intros i y Hn Hkeep. apply (filterIndexed_keeps _ _ 0 i y Hn).
    cbn [Nat.add].
    destruct Hkeep as [H | [H | [H | [H | H]]]].
    + subst i. reflexivity.
    + rewrite <- H. rewrite Nat.eqb_refl, orb_true_r. reflexivity.
    + destruct ((i =? 0)%nat || (i =? length years - 1)%nat)%bool; [reflexivity | ].
      rewrite H. reflexivity.
    + destruct ((i =? 0)%nat || (i =? length years - 1)%nat)%bool; [reflexivity | ].
      destruct (Z.rem _ 5 =? 0)%Z; [reflexivity | ].
      assert (He : existsb (Z.eqb (ProjectionYear.age y)) milestoneAges = true).
      { apply existsb_exists. exists (ProjectionYear.age y).
        split; [exact H | apply Z.eqb_refl]. }
      rewrite He. reflexivity.
    + destruct ((i =? 0)%nat || (i =? length years - 1)%nat)%bool; [reflexivity | ].
      destruct (Z.rem _ 5 =? 0)%Z; [reflexivity | ].
      destruct (existsb _ milestoneAges); [reflexivity | ].
      rewrite H. apply Z.eqb_refl.
Qed.

Lemma summary_years_keep_the_landmarks_witness :
  In 83%Z
    (map ProjectionYear.age
       (getSummaryYears
          (generateRetirementProjection traditionalOnlyPortfolio
             (goalAt73 gross 50000) flatAssumptions None 2026))).
Proof.
  set (projection := generateRetirementProjection traditionalOnlyPortfolio
                       (goalAt73 gross 50000) flatAssumptions None 2026).
  assert (Hn : exists y,
             nth_error (RetirementProjection.years projection) 10 = Some y
             /\ ProjectionYear.age y = 83%Z).
  { vm_compute. eexists. split; reflexivity. }
  destruct Hn as [y [Hn Ha]].
  rewrite <- Ha. apply (in_map ProjectionYear.age).
  refine (proj2 (summary_years_keep_the_landmarks projection) 10%nat y Hn _).
  right. right. right. right. rewrite Ha. vm_compute. reflexivity.
Defined.

Lemma stats_peak_from_some (l : list ProjectionYear.t) :
  forall st p0,
    StatsState.peakTaxYear st = Some p0 ->
    exists pk,
      StatsState.peakTaxYear (fold_left statsStep l st) = Some pk
      /\ (pk = p0 \/ In pk l)
      /\ YearTaxes.total (ProjectionYear.taxes p0)
         <= YearTaxes.total (ProjectionYear.taxes pk)
      /\ Forall (fun y => YearTaxes.total (ProjectionYear.taxes y)
                          <= YearTaxes.total (ProjectionYear.taxes pk)) l.
Proof.
  induction l as [ | y l IH]; intros st p0 Hp; simpl.
  - exists p0. repeat split; [exact Hp | left; reflexivity | lra | constructor].
  - assert (Hstep : exists p1,
               StatsState.peakTaxYear (statsStep st y) = Some p1
               /\ (p1 = p0 \/ p1 = y)
               /\ YearTaxes.total (ProjectionYear.taxes p0)
                  <= YearTaxes.total (ProjectionYear.taxes p1)
               /\ YearTaxes.total (ProjectionYear.taxes y)
                  <= YearTaxes.total (ProjectionYear.taxes p1)).
    { unfold statsStep. cbn [StatsState.peakTaxYear]. rewrite Hp.
      cmp_lt (YearTaxes.total (ProjectionYear.taxes p0))
             (YearTaxes.total (ProjectionYear.taxes y)).
      - exists y. repeat split; [right; reflexivity | lra | lra].
      - exists p0. repeat split; [left; reflexivity | lra | lra]. }
    destruct Hstep as [p1 [H1 [Hor [Hle0 Hley]]]].
    destruct (IH (statsStep st y) p1 H1) as [pk [K1 [K2 [K3 K4]]]].
    exists pk. split; [exact K1 | ]. split; [ | split].
    + destruct K2 as [-> | Hin]; [ | right; right; exact Hin].
      destruct Hor as [-> | ->]; [left; reflexivity | right; left; reflexivity].
    + lra.
    + constructor; [lra | exact K4].
Qed.

(** X28: the statistics of a projection without years are all zero with
    no peak year; otherwise the peak-tax year is one of the projection's
    years and no year has a higher total tax, and the number of years in
    retirement is the number of years of the projection. *)
Theorem projection_stats_peak_is_a_maximum (projection : RetirementProjection.t) :
  (RetirementProjection.years projection = [] ->
   getProjectionStats projection = ProjectionStats.mk 0 None 0 0)
  /\ (RetirementProjection.years projection <> [] ->
      exists pk,
        ProjectionStats.peakTaxYear (getProjectionStats projection) = Some pk
        /\ In pk (RetirementProjection.years projection)
        /\ Forall (fun y => YearTaxes.total (ProjectionYear.taxes y)
                            <= YearTaxes.total (ProjectionYear.taxes pk))
                  (RetirementProjection.years projection))
  /\ ProjectionStats.yearsInRetirement (getProjectionStats projection)
     = length (RetirementProjection.years projection).
Proof.
  unfold getProjectionStats. cbv zeta.
  destruct (RetirementProjection.years projection) as [ | y l].
  - split; [reflexivity | ]. split; [intro H; contradiction H; reflexivity | reflexivity].
  - split; [discriminate | ]. split; [ | reflexivity].
    intros _. cbn [ProjectionStats.peakTaxYear fold_left].
    destruct (stats_peak_from_some l (statsStep (StatsState.mk 0 0 0 None) y) y
                eq_refl) as [pk [K1 [K2 [K3 K4]]]].
    exists pk. split; [exact K1 | ]. split.
    + destruct K2 as [-> | Hin]; [left; reflexivity | right; exact Hin].
    + constructor; [exact K3 | exact K4].
Qed.

Lemma projection_stats_peak_is_a_maximum_witness :
  getProjectionStats
    (RetirementProjection.mk 73 70 flatAssumptions [] 0 0 0 true None)
  = ProjectionStats.mk 0 None 0 0.
Proof.
  apply (proj1 (projection_stats_peak_is_a_maximum
                  (RetirementProjection.mk 73 70 flatAssumptions [] 0 0 0 true None))).
  reflexivity.
Defined.

(** ** Guardrails *)

Lemma rate_above_iff (w P u : Q) :
  0 < P -> (u < w / P <-> P * u < w).
Proof.
  intro HP. split; intro H.
  - assert (K : u * P < w).
    { apply Qmult_lt_r with (z := / P); [apply Qinv_lt_0_compat; exact HP | ].
      rewrite <- Qmult_assoc, Qmult_inv_r by lra. rewrite Qmult_1_r. exact H. }
    lra.
  - apply Qlt_shift_div_l; [exact HP | lra].
Qed.

Lemma guardrail_status_bounds
    (P W F : Q) (config : GuardrailsConfig.t) :
  0 <= GuardrailsConfig.initialRate config * (1 + GuardrailsConfig.upperBuffer config) ->
  (0 < P ->
   (GuardrailsResult.status (calculateGuardrails P W F config) = above
    <-> GuardrailsResult.maxSafeWithdrawal (calculateGuardrails P W F config) < W))
  /\ (P <= 0 ->
      GuardrailsResult.currentRate (calculateGuardrails P W F config) = 0
      /\ GuardrailsResult.status (calculateGuardrails P W F config) = within).
Proof.
  intro Hup. unfold calculateGuardrails. cbv zeta.
  cbn [GuardrailsResult.status GuardrailsResult.maxSafeWithdrawal
       GuardrailsResult.currentRate].
  set (upper := GuardrailsConfig.initialRate config
                * (1 + GuardrailsConfig.upperBuffer config)) in *.
  set (lower := GuardrailsConfig.initialRate config
                * (1 - GuardrailsConfig.lowerBuffer config)).
  clearbody upper lower.
  split.
  - intro HP. cmp_lt 0 P; [ | exfalso; lra].
    pose proof (rate_above_iff (Math.max 0 (W - F)) P upper HP) as Hiff.
    assert (HPu : 0 <= P * upper) by (apply Qmult_le_0_compat; lra).
    cmp_lt upper (Math.max 0 (W - F) / P).
    + split; [intros _ | reflexivity].
      apply Hiff in E0. revert E0. unfold Math.max. minmax_goal; lra.
    + split.
      * destruct ((_ <? lower) && _)%bool; discriminate.
      * intro Hw. exfalso.
        assert (K : P * upper < Math.max 0 (W - F)).
        { unfold Math.max. minmax_goal; lra. }
        apply Hiff in K. lra.
  - intro HP. cmp_lt 0 P; [exfalso; lra | ].
    split; [reflexivity | ].
    cmp_lt upper 0; [exfalso; lra | ].
    cmp_lt 0 0; [exfalso; lra | ]. rewrite andb_false_r. reflexivity.
Qed.


(** X29: with a positive portfolio value and a non-negative upper
    guardrail, the status is 'above' exactly when the current withdrawal
    exceeds the reported maximum safe withdrawal; with a portfolio value of
    zero or less the withdrawal rate is reported as 0 and the status is
    'within', whatever is withdrawn. *)
Theorem guardrail_status_matches_max_safe_withdrawal
    (P W F : Q) (config : GuardrailsConfig.t) :
  0 <= GuardrailsConfig.initialRate config * (1 + GuardrailsConfig.upperBuffer config) ->
  (0 < P ->
   (GuardrailsResult.status (calculateGuardrails P W F config) = above
    <-> GuardrailsResult.maxSafeWithdrawal (calculateGuardrails P W F config) < W))
  /\ (P <= 0 ->
      GuardrailsResult.currentRate (calculateGuardrails P W F config) = 0
      /\ GuardrailsResult.status (calculateGuardrails P W F config) = within).
Proof. exact (guardrail_status_bounds P W F config). Qed.

Lemma guardrail_status_matches_max_safe_withdrawal_witness :
  GuardrailsResult.status (calculateGuardrails 1000000 100000 30000 DEFAULT_GUARDRAILS)
  = above.
Proof.
  apply (proj1 (guardrail_status_matches_max_safe_withdrawal 1000000 100000 30000
                  DEFAULT_GUARDRAILS ltac:(vm_compute; discriminate))
           ltac:(reflexivity)).
  vm_compute. reflexivity.
Defined.

(** X30: in exact arithmetic (amounts as rationals), the guardrails
    assessment, made with the default 5% rate and 20% buffers, calls a target
    income sustainable exactly when the portfolio value is zero or less or
    the target is at most the reported maximum income (6% of the portfolio
    plus the fixed income); it never calls a plan risky when the portfolio
    value is zero or less.  (In the floating-point numbers of the source the
    rate test and the income test can disagree for a target within rounding
    of the maximum income.) *)
Theorem guardrails_assessment_sustainable_iff (P W F : Q) :
  (GuardrailsAssessment.isSustainable (getGuardrailsAssessment P W F) = true
   <-> P <= 0 \/ W <= GuardrailsAssessment.maxIncome (getGuardrailsAssessment P W F))
  /\ GuardrailsAssessment.maxIncome (getGuardrailsAssessment P W F) == P * 0.06 + F
  /\ (P <= 0 ->
      GuardrailsAssessment.isRisky (getGuardrailsAssessment P W F) = false
      /\ GuardrailsAssessment.withdrawalRate (getGuardrailsAssessment P W F) = 0).
Proof.
  assert (Hup : 0 <= GuardrailsConfig.initialRate DEFAULT_GUARDRAILS
                     * (1 + GuardrailsConfig.upperBuffer DEFAULT_GUARDRAILS))
    by (vm_compute; discriminate).
  destruct (guardrail_status_bounds P W F DEFAULT_GUARDRAILS Hup) as [Hpos Hneg].
  unfold getGuardrailsAssessment. cbv zeta.
  cbn [GuardrailsAssessment.isSustainable GuardrailsAssessment.maxIncome
       GuardrailsAssessment.isRisky GuardrailsAssessment.withdrawalRate].
  split; [ | split].
  - destruct (Qlt_le_dec 0 P) as [HP | HP].
    + specialize (Hpos HP).
      destruct (GuardrailsResult.status
                  (calculateGuardrails P W F DEFAULT_GUARDRAILS)) eqn:Est.
      * split; [intros _; right | reflexivity].
        apply Qnot_lt_le. intro Hlt. apply Hpos in Hlt. discriminate.
      * split; [discriminate | ]. intros [Hle | Hle]; [exfalso; lra | ].
        assert (Hab : above = above) by reflexivity. apply Hpos in Hab.
        exfalso. lra.
      * split; [intros _; right | reflexivity].
        apply Qnot_lt_le. intro Hlt. apply Hpos in Hlt. discriminate.
    + destruct (Hneg HP) as [_ Hst]. rewrite Hst.
      split; [intros _; left; exact HP | reflexivity].
  - unfold calculateGuardrails, DEFAULT_GUARDRAILS. cbv zeta.
    cbn [GuardrailsResult.maxSafeWithdrawal GuardrailsConfig.initialRate
         GuardrailsConfig.upperBuffer].
    lra.
  - intro HP. destruct (Hneg HP) as [Hrate _]. rewrite Hrate.
    split; reflexivity.
Qed.
